(** * The nuclide command-line debugger: session core

    A shallow embedding of [modules/nuclide-debugger-cli/lib/Debugger.js].

    The class [Debugger] is embedded as a record of its fields together with
    a trace of the effects it performs on its collaborators (the console,
    the debug adapter, the process).  Every method is a computation in a
    small state-and-exception monad.  An [await] is sequencing: each command
    and each event handler runs to completion before the next one starts
    (the cooperative scheduling of the JavaScript run time, without the
    interleaving at suspension points).  The debug adapter is a parameter:
    a function from the requests sent so far and the current request to a
    response or a rejection. *)

From Stdlib Require Import List ZArith String Ascii Bool Lia DecimalString.
Import ListNotations.
Local Open Scope string_scope.
Local Open Scope Z_scope.

Set Implicit Arguments.

(** ** The Debug Adapter Protocol values the core handles *)

(** [type SessionState] (Debugger.js, lines 60-65). *)
Inductive SessionState : Type :=
| INITIALIZING  (* waiting for initialized event from adapter *)
| CONFIGURING   (* waiting for user to issue 'run' command *)
| RUNNING       (* program is running *)
| STOPPED       (* program has hit a breakpoint *)
| TERMINATED.   (* program is gone and not coming back *)

Definition SessionState_eqb (a b : SessionState) : bool :=
  match a, b with
  | INITIALIZING, INITIALIZING | CONFIGURING, CONFIGURING
  | RUNNING, RUNNING | STOPPED, STOPPED | TERMINATED, TERMINATED => true
  | _, _ => false
  end.

Definition SessionState_name (s : SessionState) : string :=
  match s with
  | INITIALIZING => "INITIALIZING" | CONFIGURING => "CONFIGURING"
  | RUNNING => "RUNNING" | STOPPED => "STOPPED" | TERMINATED => "TERMINATED"
  end.

(** [type Capabilities] (lines 55-58): the fields of the initialize response
    that the core consults.  A field that is absent is [None]. *)
Record Capabilities : Type := {
  supportsConfigurationDoneRequest : option bool;
  supportsFunctionBreakpoints : option bool;
  supportsReadyForEvaluationsEvent : option bool
}.

(** The object literal [{}]. *)
Definition noCapabilities : Capabilities :=
  {| supportsConfigurationDoneRequest := None;
     supportsFunctionBreakpoints := None;
     supportsReadyForEvaluationsEvent := None |}.

(** JavaScript truthiness of an optional boolean, and [x === true]. *)
Definition truthy (o : option bool) : bool :=
  match o with Some true => true | _ => false end.

Definition isSome {A : Type} (o : option A) : bool :=
  match o with Some _ => true | None => false end.

(** [DebugProtocol.Source]. *)
Record Source : Type := {
  source_path : option string;
  source_name : option string;
  source_sourceReference : option Z
}.

(** [DebugProtocol.StackFrame]. *)
Record StackFrame : Type := {
  frame_id : Z;
  frame_line : Z;
  frame_source : option Source
}.

(** [DebugProtocol.Breakpoint], the breakpoint as the adapter returns it. *)
Record AdapterBreakpoint : Type := {
  ab_id : option Z;
  ab_verified : option bool;
  ab_message : option string;
  ab_source : option Source;
  ab_line : option Z
}.

Definition ab_with_message (m : string) (r : AdapterBreakpoint) : AdapterBreakpoint :=
  {| ab_id := ab_id r; ab_verified := ab_verified r; ab_message := Some m;
     ab_source := ab_source r; ab_line := ab_line r |}.

(** The requests the core sends through [VsDebugSession]. *)
Inductive Request : Type :=
| ReqInitialize
| ReqLaunch (args : string)
| ReqAttach (args : string)
| ReqDisconnect
| ReqSetBreakpoints (path : string) (lines : list (option Z))
| ReqSetFunctionBreakpoints (names : list (option string))
| ReqSetExceptionBreakpoints
| ReqConfigurationDone
| ReqThreads
| ReqStackTrace (threadId : Z) (levels : Z)
| ReqSource (sourceReference : Z)
| ReqContinue (threadId : Z)
| ReqNext (threadId : Z)
| ReqStepIn (threadId : Z)
| ReqPause (threadId : Z)
| ReqEvaluate (expression : string) (context : string) (frameId : option Z).

(** The bodies of the responses. *)
Inductive Response : Type :=
| RespAck
| RespInitialize (body : option Capabilities)
| RespBreakpoints (breakpoints : list AdapterBreakpoint)
| RespThreads (threads : option (list (Z * string)))
| RespStackTrace (stackFrames : list StackFrame)
| RespSource (content : string)
| RespEvaluate (result : string).

(** What the core does to the outside, in the order it does it. *)
Inductive Effect : Type :=
| StartInput                 (* ConsoleIO.startInput() *)
| StopInput                  (* ConsoleIO.stopInput() *)
| Output (text : string)     (* ConsoleIO.output(text) *)
| OutputLine (text : string) (* ConsoleIO.outputLine(text) *)
| Stderr (text : string)     (* process.stderr.write(text) *)
| Send (r : Request)         (* a request handed to the debug session *)
| ProcessExit (code : Z).    (* process.exit(code) *)

(** The outside world: the adapter behind the debug session, the local file
    system read by the source cache, and [nuclideUri]. *)
Record World : Type := {
  respond : list Request -> Request -> string + Response;
  readFile : string -> option string;
  uriBaseName : string -> string
}.

(** ** Breakpoints *)

(** Modelled from the spec: Breakpoint.js is not among the sources; a
    breakpoint has the fields of the data model (section 3), a source
    breakpoint or a function breakpoint with its resolved location. *)
Inductive BreakpointKind : Type :=
| SourceBreakpoint (path : string) (line : Z)
| FunctionBreakpoint (func : string) (resolvedPath : option string)
    (resolvedLine : option Z).

Record Breakpoint : Type := {
  bp_index : Z;
  bp_kind : BreakpointKind;
  bp_enabled : bool;
  bp_id : option Z;
  bp_verified : bool;
  bp_message : option string
}.

Definition bp_path (b : Breakpoint) : option string :=
  match bp_kind b with SourceBreakpoint p _ => Some p | FunctionBreakpoint _ _ _ => None end.

Definition bp_line (b : Breakpoint) : option Z :=
  match bp_kind b with SourceBreakpoint _ l => Some l | FunctionBreakpoint _ _ l => l end.

Definition bp_func (b : Breakpoint) : option string :=
  match bp_kind b with SourceBreakpoint _ _ => None | FunctionBreakpoint f _ _ => Some f end.

Definition bp_setEnabled (e : bool) (b : Breakpoint) : Breakpoint :=
  {| bp_index := bp_index b; bp_kind := bp_kind b; bp_enabled := e;
     bp_id := bp_id b; bp_verified := bp_verified b; bp_message := bp_message b |}.

Definition bp_setVerified (v : bool) (b : Breakpoint) : Breakpoint :=
  {| bp_index := bp_index b; bp_kind := bp_kind b; bp_enabled := bp_enabled b;
     bp_id := bp_id b; bp_verified := v; bp_message := bp_message b |}.

Definition bp_setId (i : Z) (b : Breakpoint) : Breakpoint :=
  {| bp_index := bp_index b; bp_kind := bp_kind b; bp_enabled := bp_enabled b;
     bp_id := Some i; bp_verified := bp_verified b; bp_message := bp_message b |}.

Definition bp_setPathAndLine (p : string) (l : Z) (b : Breakpoint) : Breakpoint :=
  {| bp_index := bp_index b;
     bp_kind := match bp_kind b with
                | SourceBreakpoint _ _ => SourceBreakpoint p l
                | FunctionBreakpoint f _ _ => FunctionBreakpoint f (Some p) (Some l)
                end;
     bp_enabled := bp_enabled b; bp_id := bp_id b; bp_verified := bp_verified b;
     bp_message := bp_message b |}.

(** Modelled from the spec: BreakpointCollection.js is not among the
    sources; its operations are those of section 4.1.  The breakpoints are
    kept in the order they were added (the order [setBreakpoints] sends
    them in), each under its stable index. *)
Module BreakpointCollection.

Record t : Type := {
  items : list Breakpoint;
  nextIndex : Z
}.

(** [new BreakpointCollection()] *)
Definition empty : t := {| items := []; nextIndex := 1 |}.

Definition add (k : BreakpointKind) (c : t) : Z * t :=
  (nextIndex c,
   {| items := items c ++
               [ {| bp_index := nextIndex c; bp_kind := k; bp_enabled := true;
                    bp_id := None; bp_verified := false; bp_message := None |} ];
      nextIndex := nextIndex c + 1 |}).

Definition addSourceBreakpoint (path : string) (line : Z) (c : t) : Z * t :=
  add (SourceBreakpoint path line) c.

Definition addFunctionBreakpoint (func : string) (c : t) : Z * t :=
  add (FunctionBreakpoint func None None) c.

Definition getBreakpointByIndex (index : Z) (c : t) : option Breakpoint :=
  find (fun b => bp_index b =? index) (items c).

Definition getBreakpointById (id : Z) (c : t) : option Breakpoint :=
  find (fun b => match bp_id b with Some i => i =? id | None => false end) (items c).

Fixpoint updateItems (index : Z) (f : Breakpoint -> Breakpoint)
    (l : list Breakpoint) : list Breakpoint :=
  match l with
  | [] => []
  | b :: rest =>
      if bp_index b =? index then f b :: rest
      else b :: updateItems index f rest
  end.

(** An update of the breakpoint stored under [index]; [None] is the
    failure [NoSuchBreakpoint]. *)
Definition update (index : Z) (f : Breakpoint -> Breakpoint) (c : t) : option t :=
  match getBreakpointByIndex index c with
  | None => None
  | Some _ => Some {| items := updateItems index f (items c); nextIndex := nextIndex c |}
  end.

Definition setBreakpointId (index id : Z) : t -> option t :=
  update index (bp_setId id).

Definition setBreakpointVerified (index : Z) (v : bool) : t -> option t :=
  update index (bp_setVerified v).

Definition setPathAndFile (index : Z) (path : string) (line : Z) : t -> option t :=
  update index (bp_setPathAndLine path line).

Definition setEnabled (index : Z) (e : bool) : t -> option t :=
  update index (bp_setEnabled e).

Definition getAllBreakpoints (c : t) : list Breakpoint := items c.

(** Indices are never reused: deleting keeps the counter. *)
Definition deleteBreakpoint (index : Z) (c : t) : option t :=
  match getBreakpointByIndex index c with
  | None => None
  | Some _ =>
      Some {| items := filter (fun b => negb (bp_index b =? index)) (items c);
              nextIndex := nextIndex c |}
  end.

Definition deleteAllBreakpoints (c : t) : t :=
  {| items := []; nextIndex := nextIndex c |}.

Definition getAllEnabledBreakpointsForSource (path : string) (c : t) : list Breakpoint :=
  filter (fun b => bp_enabled b &&
                   match bp_kind b with
                   | SourceBreakpoint p _ => String.eqb p path
                   | FunctionBreakpoint _ _ _ => false
                   end) (items c).

Definition getAllEnabledFunctionBreakpoints (c : t) : list Breakpoint :=
  filter (fun b => bp_enabled b && isSome (bp_func b)) (items c).

Fixpoint dedup (l : list string) : list string :=
  match l with
  | [] => []
  | p :: rest => p :: filter (fun q => negb (String.eqb q p)) (dedup rest)
  end.

Definition sourcePath (b : Breakpoint) : list string :=
  match bp_kind b with SourceBreakpoint p _ => [p] | FunctionBreakpoint _ _ _ => [] end.

Definition getAllBreakpointPaths (c : t) : list string :=
  dedup (flat_map sourcePath (items c)).

(** The paths that have an enabled source breakpoint, each with its
    enabled breakpoints. *)
Definition getAllEnabledBreakpointsByPath (c : t) : list (string * list Breakpoint) :=
  map (fun p => (p, getAllEnabledBreakpointsForSource p c))
      (dedup (flat_map sourcePath (filter bp_enabled (items c)))).

End BreakpointCollection.

(** ** Threads *)

(** Modelled from the spec: Thread.js is not among the sources; a thread is
    the record of section 3.  A thread the adapter reports is running until
    a stopped event says otherwise, and its selected frame is the top one. *)
Record Thread : Type := {
  thread_id : Z;
  thread_name : string;
  thread_running : bool;
  thread_selectedFrame : nat
}.

(** [new Thread(id, name)] *)
Definition newThread (id : Z) (name : string) : Thread :=
  {| thread_id := id; thread_name := name; thread_running := true;
     thread_selectedFrame := 0%nat |}.

Definition thread_setRunning (r : bool) (t : Thread) : Thread :=
  {| thread_id := thread_id t; thread_name := thread_name t; thread_running := r;
     thread_selectedFrame := thread_selectedFrame t |}.

Definition thread_setSelectedStackFrame (i : nat) (t : Thread) : Thread :=
  {| thread_id := thread_id t; thread_name := thread_name t;
     thread_running := thread_running t; thread_selectedFrame := i |}.

Definition thread_clearSelectedStackFrame : Thread -> Thread :=
  thread_setSelectedStackFrame 0.

Definition thread_setName (n : string) (t : Thread) : Thread :=
  {| thread_id := thread_id t; thread_name := n; thread_running := thread_running t;
     thread_selectedFrame := thread_selectedFrame t |}.

(** Modelled from the spec: ThreadCollection.js is not among the sources;
    its operations are those of section 4.2. *)
Module ThreadCollection.

Record t : Type := {
  allThreads : list Thread;
  focusThreadId : option Z
}.

(** [new ThreadCollection()] *)
Definition empty : t := {| allThreads := []; focusThreadId := None |}.

Definition getThreadById (id : Z) (c : t) : option Thread :=
  find (fun th => thread_id th =? id) (allThreads c).

Definition focusThread (c : t) : option Thread :=
  match focusThreadId c with
  | Some id => getThreadById id c
  | None => None
  end.

Definition mapThreads (f : Thread -> Thread) (c : t) : t :=
  {| allThreads := map f (allThreads c); focusThreadId := focusThreadId c |}.

Definition mapThread (id : Z) (f : Thread -> Thread) : t -> t :=
  mapThreads (fun th => if thread_id th =? id then f th else th).

Definition addThread (th : Thread) (c : t) : t :=
  match getThreadById (thread_id th) c with
  | Some _ => c
  | None => {| allThreads := allThreads c ++ [th]; focusThreadId := focusThreadId c |}
  end.

Definition dropFocusIfGone (c : t) : t :=
  {| allThreads := allThreads c;
     focusThreadId := match focusThread c with
                      | Some _ => focusThreadId c
                      | None => None
                      end |}.

Definition removeThread (id : Z) (c : t) : t :=
  dropFocusIfGone
    {| allThreads := filter (fun th => negb (thread_id th =? id)) (allThreads c);
       focusThreadId := focusThreadId c |}.

(** Threads that are not in the new list are dropped, those that stay
    keep their state, and the focus stays if its thread does. *)
Definition updateThreads (threads : list Thread) (c : t) : t :=
  dropFocusIfGone
    {| allThreads :=
         map (fun th => match getThreadById (thread_id th) c with
                        | Some old => thread_setName (thread_name th) old
                        | None => th
                        end) threads;
       focusThreadId := focusThreadId c |}.

Definition markThreadRunning (id : Z) : t -> t := mapThread id (thread_setRunning true).
Definition markThreadStopped (id : Z) : t -> t := mapThread id (thread_setRunning false).
Definition markAllThreadsRunning : t -> t := mapThreads (thread_setRunning true).
Definition markAllThreadsStopped : t -> t := mapThreads (thread_setRunning false).

Definition allThreadsRunning (c : t) : bool := forallb thread_running (allThreads c).
Definition allThreadsStopped (c : t) : bool :=
  forallb (fun th => negb (thread_running th)) (allThreads c).

(** The focus can only be put on a thread of the collection. *)
Definition setFocusThread (id : Z) (c : t) : option t :=
  match getThreadById id c with
  | Some _ => Some {| allThreads := allThreads c; focusThreadId := Some id |}
  | None => None
  end.

(** The stopped thread of least id. *)
Definition firstStoppedThread (c : t) : option Thread :=
  fold_left
    (fun best th =>
       if thread_running th then best
       else match best with
            | Some b => if thread_id th <? thread_id b then Some th else best
            | None => Some th
            end)
    (allThreads c) None.

End ThreadCollection.

(** ** The source cache *)

(** Modelled from the spec: SourceFileCache.js is not among the sources; it
    maps a local path or a source reference to the lines of the file
    (section 4.3).  The content is split at line feeds and a carriage
    return that ends a line is dropped. *)
Module SourceFileCache.

Definition key : Type := (string + Z)%type.

Definition key_eqb (a b : key) : bool :=
  match a, b with
  | inl p, inl q => String.eqb p q
  | inr r, inr s => r =? s
  | _, _ => false
  end.

Definition t : Type := list (key * list string).

Definition empty : t := [].

Definition flush (_ : t) : t := [].

Definition lookup (k : key) (c : t) : option (list string) :=
  match find (fun e => key_eqb (fst e) k) c with
  | Some e => Some (snd e)
  | None => None
  end.

Definition store (k : key) (lines : list string) (c : t) : t := (k, lines) :: c.

Definition stripCR (rev_line : list ascii) : list ascii :=
  match rev_line with
  | c :: rest => if Ascii.eqb c "013"%char then rest else rev_line
  | [] => []
  end.

Definition finishLine (rev_line : list ascii) : string :=
  string_of_list_ascii (rev (stripCR rev_line)).

Fixpoint splitFrom (rev_line : list ascii) (s : string) : list string :=
  match s with
  | EmptyString => [finishLine rev_line]
  | String c rest =>
      if Ascii.eqb c "010"%char then finishLine rev_line :: splitFrom [] rest
      else splitFrom (c :: rev_line) rest
  end.

Definition splitLines (content : string) : list string := splitFrom [] content.

End SourceFileCache.

(** ** The adapter description *)

Inductive Action : Type := launchAction | attachAction.

(** [adapter.adapter]: the argument transformations and the thread to stop
    on attach. *)
Record DebugAdapter : Type := {
  transformLaunchArguments : string -> string;
  transformAttachArguments : string -> string;
  asyncStopThread : option Z
}.

(** [ParsedVSAdapter] *)
Record ParsedVSAdapter : Type := {
  adapter_action : Action;
  adapter_type : string;
  adapter_launchArgs : string;
  adapter_attachArgs : string;
  adapter_adapter : DebugAdapter
}.

(** [VsDebugSession]: the session object is known by the adapter type it
    was created for; its traffic is in the trace of effects. *)
Record VsDebugSession : Type := { session_adapterType : string }.

(** ** The debugger *)

(** The fields of [class Debugger] (lines 68-84), then the console's input
    switch and the trace of effects, newest first.  The logger, the preset
    and the muted output categories are left out except for the last, which
    filters output events. *)
Record Debugger : Type := {
  _capabilities : Capabilities;
  _debugSession : option VsDebugSession;
  _activeThread : option Z;
  _threads : ThreadCollection.t;
  _sourceFiles : SourceFileCache.t;
  _state : SessionState;
  _breakpoints : BreakpointCollection.t;
  _adapter : option ParsedVSAdapter;
  _attachMode : bool;
  _readyForEvaluations : bool;
  _muteOutputCategories : list string;
  _attached : bool;
  _configured : bool;
  _stoppedAtBreakpointId : option Z;
  inputEnabled : bool;
  effects : list Effect
}.

(** The constructor (lines 86-99) with the field initialisers. *)
Definition newDebugger (muteOutputCategories : list string) : Debugger :=
  {| _capabilities := noCapabilities;
     _debugSession := None;
     _activeThread := None;
     _threads := ThreadCollection.empty;
     _sourceFiles := SourceFileCache.empty;
     _state := INITIALIZING;
     _breakpoints := BreakpointCollection.empty;
     _adapter := None;
     _attachMode := false;
     _readyForEvaluations := false;
     _muteOutputCategories := muteOutputCategories;
     _attached := false;
     _configured := false;
     _stoppedAtBreakpointId := None;
     inputEnabled := false;
     effects := [] |}.

(** Assignments to the fields. *)
Definition set_capabilities (v : Capabilities) (d : Debugger) : Debugger :=
  {| _capabilities := v;
     _debugSession := _debugSession d;
     _activeThread := _activeThread d;
     _threads := _threads d;
     _sourceFiles := _sourceFiles d;
     _state := _state d;
     _breakpoints := _breakpoints d;
     _adapter := _adapter d;
     _attachMode := _attachMode d;
     _readyForEvaluations := _readyForEvaluations d;
     _muteOutputCategories := _muteOutputCategories d;
     _attached := _attached d;
     _configured := _configured d;
     _stoppedAtBreakpointId := _stoppedAtBreakpointId d;
     inputEnabled := inputEnabled d;
     effects := effects d |}.

Definition set_debugSession (v : option VsDebugSession) (d : Debugger) : Debugger :=
  {| _capabilities := _capabilities d;
     _debugSession := v;
     _activeThread := _activeThread d;
     _threads := _threads d;
     _sourceFiles := _sourceFiles d;
     _state := _state d;
     _breakpoints := _breakpoints d;
     _adapter := _adapter d;
     _attachMode := _attachMode d;
     _readyForEvaluations := _readyForEvaluations d;
     _muteOutputCategories := _muteOutputCategories d;
     _attached := _attached d;
     _configured := _configured d;
     _stoppedAtBreakpointId := _stoppedAtBreakpointId d;
     inputEnabled := inputEnabled d;
     effects := effects d |}.

Definition set_activeThread (v : option Z) (d : Debugger) : Debugger :=
  {| _capabilities := _capabilities d;
     _debugSession := _debugSession d;
     _activeThread := v;
     _threads := _threads d;
     _sourceFiles := _sourceFiles d;
     _state := _state d;
     _breakpoints := _breakpoints d;
     _adapter := _adapter d;
     _attachMode := _attachMode d;
     _readyForEvaluations := _readyForEvaluations d;
     _muteOutputCategories := _muteOutputCategories d;
     _attached := _attached d;
     _configured := _configured d;
     _stoppedAtBreakpointId := _stoppedAtBreakpointId d;
     inputEnabled := inputEnabled d;
     effects := effects d |}.

Definition set_threads (v : ThreadCollection.t) (d : Debugger) : Debugger :=
  {| _capabilities := _capabilities d;
     _debugSession := _debugSession d;
     _activeThread := _activeThread d;
     _threads := v;
     _sourceFiles := _sourceFiles d;
     _state := _state d;
     _breakpoints := _breakpoints d;
     _adapter := _adapter d;
     _attachMode := _attachMode d;
     _readyForEvaluations := _readyForEvaluations d;
     _muteOutputCategories := _muteOutputCategories d;
     _attached := _attached d;
     _configured := _configured d;
     _stoppedAtBreakpointId := _stoppedAtBreakpointId d;
     inputEnabled := inputEnabled d;
     effects := effects d |}.

Definition set_sourceFiles (v : SourceFileCache.t) (d : Debugger) : Debugger :=
  {| _capabilities := _capabilities d;
     _debugSession := _debugSession d;
     _activeThread := _activeThread d;
     _threads := _threads d;
     _sourceFiles := v;
     _state := _state d;
     _breakpoints := _breakpoints d;
     _adapter := _adapter d;
     _attachMode := _attachMode d;
     _readyForEvaluations := _readyForEvaluations d;
     _muteOutputCategories := _muteOutputCategories d;
     _attached := _attached d;
     _configured := _configured d;
     _stoppedAtBreakpointId := _stoppedAtBreakpointId d;
     inputEnabled := inputEnabled d;
     effects := effects d |}.

Definition set_state (v : SessionState) (d : Debugger) : Debugger :=
  {| _capabilities := _capabilities d;
     _debugSession := _debugSession d;
     _activeThread := _activeThread d;
     _threads := _threads d;
     _sourceFiles := _sourceFiles d;
     _state := v;
     _breakpoints := _breakpoints d;
     _adapter := _adapter d;
     _attachMode := _attachMode d;
     _readyForEvaluations := _readyForEvaluations d;
     _muteOutputCategories := _muteOutputCategories d;
     _attached := _attached d;
     _configured := _configured d;
     _stoppedAtBreakpointId := _stoppedAtBreakpointId d;
     inputEnabled := inputEnabled d;
     effects := effects d |}.

Definition set_breakpoints (v : BreakpointCollection.t) (d : Debugger) : Debugger :=
  {| _capabilities := _capabilities d;
     _debugSession := _debugSession d;
     _activeThread := _activeThread d;
     _threads := _threads d;
     _sourceFiles := _sourceFiles d;
     _state := _state d;
     _breakpoints := v;
     _adapter := _adapter d;
     _attachMode := _attachMode d;
     _readyForEvaluations := _readyForEvaluations d;
     _muteOutputCategories := _muteOutputCategories d;
     _attached := _attached d;
     _configured := _configured d;
     _stoppedAtBreakpointId := _stoppedAtBreakpointId d;
     inputEnabled := inputEnabled d;
     effects := effects d |}.

Definition set_adapter (v : option ParsedVSAdapter) (d : Debugger) : Debugger :=
  {| _capabilities := _capabilities d;
     _debugSession := _debugSession d;
     _activeThread := _activeThread d;
     _threads := _threads d;
     _sourceFiles := _sourceFiles d;
     _state := _state d;
     _breakpoints := _breakpoints d;
     _adapter := v;
     _attachMode := _attachMode d;
     _readyForEvaluations := _readyForEvaluations d;
     _muteOutputCategories := _muteOutputCategories d;
     _attached := _attached d;
     _configured := _configured d;
     _stoppedAtBreakpointId := _stoppedAtBreakpointId d;
     inputEnabled := inputEnabled d;
     effects := effects d |}.

Definition set_attachMode (v : bool) (d : Debugger) : Debugger :=
  {| _capabilities := _capabilities d;
     _debugSession := _debugSession d;
     _activeThread := _activeThread d;
     _threads := _threads d;
     _sourceFiles := _sourceFiles d;
     _state := _state d;
     _breakpoints := _breakpoints d;
     _adapter := _adapter d;
     _attachMode := v;
     _readyForEvaluations := _readyForEvaluations d;
     _muteOutputCategories := _muteOutputCategories d;
     _attached := _attached d;
     _configured := _configured d;
     _stoppedAtBreakpointId := _stoppedAtBreakpointId d;
     inputEnabled := inputEnabled d;
     effects := effects d |}.

Definition set_readyForEvaluations (v : bool) (d : Debugger) : Debugger :=
  {| _capabilities := _capabilities d;
     _debugSession := _debugSession d;
     _activeThread := _activeThread d;
     _threads := _threads d;
     _sourceFiles := _sourceFiles d;
     _state := _state d;
     _breakpoints := _breakpoints d;
     _adapter := _adapter d;
     _attachMode := _attachMode d;
     _readyForEvaluations := v;
     _muteOutputCategories := _muteOutputCategories d;
     _attached := _attached d;
     _configured := _configured d;
     _stoppedAtBreakpointId := _stoppedAtBreakpointId d;
     inputEnabled := inputEnabled d;
     effects := effects d |}.

Definition set_attached (v : bool) (d : Debugger) : Debugger :=
  {| _capabilities := _capabilities d;
     _debugSession := _debugSession d;
     _activeThread := _activeThread d;
     _threads := _threads d;
     _sourceFiles := _sourceFiles d;
     _state := _state d;
     _breakpoints := _breakpoints d;
     _adapter := _adapter d;
     _attachMode := _attachMode d;
     _readyForEvaluations := _readyForEvaluations d;
     _muteOutputCategories := _muteOutputCategories d;
     _attached := v;
     _configured := _configured d;
     _stoppedAtBreakpointId := _stoppedAtBreakpointId d;
     inputEnabled := inputEnabled d;
     effects := effects d |}.

Definition set_configured (v : bool) (d : Debugger) : Debugger :=
  {| _capabilities := _capabilities d;
     _debugSession := _debugSession d;
     _activeThread := _activeThread d;
     _threads := _threads d;
     _sourceFiles := _sourceFiles d;
     _state := _state d;
     _breakpoints := _breakpoints d;
     _adapter := _adapter d;
     _attachMode := _attachMode d;
     _readyForEvaluations := _readyForEvaluations d;
     _muteOutputCategories := _muteOutputCategories d;
     _attached := _attached d;
     _configured := v;
     _stoppedAtBreakpointId := _stoppedAtBreakpointId d;
     inputEnabled := inputEnabled d;
     effects := effects d |}.

Definition set_stoppedAtBreakpointId (v : option Z) (d : Debugger) : Debugger :=
  {| _capabilities := _capabilities d;
     _debugSession := _debugSession d;
     _activeThread := _activeThread d;
     _threads := _threads d;
     _sourceFiles := _sourceFiles d;
     _state := _state d;
     _breakpoints := _breakpoints d;
     _adapter := _adapter d;
     _attachMode := _attachMode d;
     _readyForEvaluations := _readyForEvaluations d;
     _muteOutputCategories := _muteOutputCategories d;
     _attached := _attached d;
     _configured := _configured d;
     _stoppedAtBreakpointId := v;
     inputEnabled := inputEnabled d;
     effects := effects d |}.

Definition set_inputEnabled (v : bool) (d : Debugger) : Debugger :=
  {| _capabilities := _capabilities d;
     _debugSession := _debugSession d;
     _activeThread := _activeThread d;
     _threads := _threads d;
     _sourceFiles := _sourceFiles d;
     _state := _state d;
     _breakpoints := _breakpoints d;
     _adapter := _adapter d;
     _attachMode := _attachMode d;
     _readyForEvaluations := _readyForEvaluations d;
     _muteOutputCategories := _muteOutputCategories d;
     _attached := _attached d;
     _configured := _configured d;
     _stoppedAtBreakpointId := _stoppedAtBreakpointId d;
     inputEnabled := v;
     effects := effects d |}.

Definition set_effects (v : list Effect) (d : Debugger) : Debugger :=
  {| _capabilities := _capabilities d;
     _debugSession := _debugSession d;
     _activeThread := _activeThread d;
     _threads := _threads d;
     _sourceFiles := _sourceFiles d;
     _state := _state d;
     _breakpoints := _breakpoints d;
     _adapter := _adapter d;
     _attachMode := _attachMode d;
     _readyForEvaluations := _readyForEvaluations d;
     _muteOutputCategories := _muteOutputCategories d;
     _attached := _attached d;
     _configured := _configured d;
     _stoppedAtBreakpointId := _stoppedAtBreakpointId d;
     inputEnabled := inputEnabled d;
     effects := v |}.

(** ** The monad of the methods *)

(** A method returns (its promise resolves), throws (its promise rejects
    with an [Error] of that message), or ends the process. *)
Inductive Outcome (A : Type) : Type :=
| Ret (a : A)
| Throw (message : string)
| Exit (code : Z).

Arguments Ret {A} a.
Arguments Throw {A} message.
Arguments Exit {A} code.

Definition M (A : Type) : Type := Debugger -> Outcome A * Debugger.

Definition ret {A : Type} (a : A) : M A := fun d => (Ret a, d).

Definition bind {A B : Type} (m : M A) (k : A -> M B) : M B :=
  fun d =>
    match m d with
    | (Ret a, d') => k a d'
    | (Throw e, d') => (Throw e, d')
    | (Exit c, d') => (Exit c, d')
    end.

Declare Scope debugger_scope.
Delimit Scope debugger_scope with dbg.
Notation "x <- m ;; k" := (bind m (fun x => k))
  (at level 61, m at next level, right associativity) : debugger_scope.
Notation "m ;; k" := (bind m (fun _ => k))
  (at level 61, right associativity) : debugger_scope.
Local Open Scope debugger_scope.

Definition get : M Debugger := fun d => (Ret d, d).

Definition modify (f : Debugger -> Debugger) : M unit := fun d => (Ret tt, f d).

Definition throw {A : Type} (message : string) : M A := fun d => (Throw message, d).

(** [try { m } catch (error) { h(error.message) }]; leaving the process is
    not an exception. *)
Definition try_catch {A : Type} (m : M A) (h : string -> M A) : M A :=
  fun d =>
    match m d with
    | (Throw e, d') => h e d'
    | r => r
    end.

(** A call to an async method whose promise is dropped: a rejection is not
    seen by the caller. *)
Definition detached (m : M unit) : M unit :=
  fun d =>
    match m d with
    | (Throw _, d') => (Ret tt, d')
    | r => r
    end.

Definition nullthrows {A : Type} (o : option A) : M A :=
  match o with
  | Some a => ret a
  | None => throw "Got unexpected null or undefined"
  end.

Definition invariant (condition : bool) (message : string) : M unit :=
  if condition then ret tt else throw message.

Fixpoint forEach {A : Type} (f : A -> M unit) (l : list A) : M unit :=
  match l with
  | [] => ret tt
  | x :: rest => f x ;; forEach f rest
  end.

Fixpoint mapM {A B : Type} (f : A -> M B) (l : list A) : M (list B) :=
  match l with
  | [] => ret []
  | x :: rest => y <- f x ;; ys <- mapM f rest ;; ret (y :: ys)
  end.

(** [Promise.all] over calls that were all started: every one of them runs,
    and the result is the rejection of the first that fails. *)
Fixpoint promiseAll (tasks : list (M unit)) : M unit :=
  match tasks with
  | [] => ret tt
  | task :: rest =>
      fun d =>
        match task d with
        | (Ret _, d') => promiseAll rest d'
        | (Throw e, d') =>
            match promiseAll rest d' with
            | (Exit c, d'') => (Exit c, d'')
            | (_, d'') => (Throw e, d'')
            end
        | (Exit c, d') => (Exit c, d')
        end
  end.

(** *** The collaborators *)

Definition emit (e : Effect) (d : Debugger) : Debugger :=
  set_effects (e :: effects d) d.

Definition startInput : M unit :=
  modify (fun d => emit StartInput (set_inputEnabled true d)).

Definition stopInput : M unit :=
  modify (fun d => emit StopInput (set_inputEnabled false d)).

Definition output (text : string) : M unit := modify (emit (Output text)).

Definition outputLine (text : string) : M unit := modify (emit (OutputLine text)).

Definition stderr_write (text : string) : M unit := modify (emit (Stderr text)).

Definition process_exit {A : Type} (code : Z) : M A :=
  fun d => (Exit code, emit (ProcessExit code) d).

(** The requests sent so far, newest first. *)
Definition sentRequests (d : Debugger) : list Request :=
  flat_map (fun e => match e with Send r => [r] | _ => [] end) (effects d).

Definition string_of_Z (z : Z) : string := NilZero.string_of_int (Z.to_int z).

Definition CRLF : string := String "013"%char (String "010"%char EmptyString).

Definition failedToDebug (message : string) : string :=
  "Failed to debug target: " ++ message ++ CRLF.

Definition pendingMessage : string := "Breakpoint pending until program starts.".

Definition couldNotSetMessage : string :=
  "Could not set this breakpoint. The module may not have been loaded yet.".

(** Lifting the operations of the collections, whose failure is thrown. *)
Definition updateBreakpoints (what : string)
    (f : BreakpointCollection.t -> option BreakpointCollection.t) : M unit :=
  d <- get ;;
  match f (_breakpoints d) with
  | Some c => modify (set_breakpoints c)
  | None => throw ("There is no breakpoint " ++ what)
  end.

Definition getBreakpointByIndex (index : Z) : M Breakpoint :=
  d <- get ;;
  match BreakpointCollection.getBreakpointByIndex index (_breakpoints d) with
  | Some b => ret b
  | None => throw ("There is no breakpoint #" ++ string_of_Z index)
  end.

Definition breakpoint_setEnabled (index : Z) (e : bool) : M unit :=
  updateBreakpoints ("#" ++ string_of_Z index) (BreakpointCollection.setEnabled index e).

Definition updateThreadCollection (f : ThreadCollection.t -> ThreadCollection.t) : M unit :=
  modify (fun d => set_threads (f (_threads d)) d).

(** ** The methods of [Debugger] *)

Section Methods.

Variable W : World.

(** A request handed to the session: it is recorded, and the adapter
    answers it or rejects it. *)
Definition send (r : Request) : M Response :=
  fun d =>
    match respond W (sentRequests d) r with
    | inl e => (Throw e, emit (Send r) d)
    | inr resp => (Ret resp, emit (Send r) d)
    end.

(** Destructuring the body of a response; a body of another shape is a
    [TypeError]. *)
Definition expectInitialize (r : Response) : M (option Capabilities) :=
  match r with RespInitialize body => ret body | RespAck => ret None
  | _ => throw "TypeError: unexpected response" end.

Definition expectBreakpoints (r : Response) : M (list AdapterBreakpoint) :=
  match r with RespBreakpoints l => ret l | _ => throw "TypeError: unexpected response" end.

Definition expectThreads (r : Response) : M (option (list (Z * string))) :=
  match r with RespThreads l => ret l | _ => throw "TypeError: unexpected response" end.

Definition expectStackTrace (r : Response) : M (list StackFrame) :=
  match r with RespStackTrace l => ret l | _ => throw "TypeError: unexpected response" end.

Definition expectSource (r : Response) : M string :=
  match r with RespSource c => ret c | _ => throw "TypeError: unexpected response" end.

(** [_ensureDebugSession] (lines 1146-1162) *)
Definition _ensureDebugSession (allowBeforeLaunch : bool) : M VsDebugSession :=
  d <- get ;;
  match _debugSession d with
  | None => throw "There is no active debugging session."
  | Some session =>
      if (SessionState_eqb (_state d) INITIALIZING
          || SessionState_eqb (_state d) CONFIGURING) && negb allowBeforeLaunch
      then throw "The program is not yet running (use 'run' to start it)."
      else ret session
  end.

(** [getActiveThread] (lines 277-280) *)
Definition getActiveThread : M Thread :=
  _ensureDebugSession false ;;
  d <- get ;;
  nullthrows (ThreadCollection.focusThread (_threads d)).

(** [getStackTrace] (lines 282-293) *)
Definition getStackTrace (thread levels : Z) : M (list StackFrame) :=
  _ensureDebugSession false ;;
  r <- send (ReqStackTrace thread levels) ;;
  expectStackTrace r.

(** [setSelectedStackFrame] (lines 295-306); the thread object is the one
    the collection holds under that id. *)
Definition setSelectedStackFrame (thread : Z) (frameIndex : nat) : M unit :=
  frames <- getStackTrace thread (Z.of_nat frameIndex + 1) ;;
  match nth_error frames frameIndex with
  | None =>
      throw ("There are only " ++ string_of_Z (Z.of_nat (List.length frames))
             ++ " frames in the thread's stack trace.")
  | Some _ =>
      updateThreadCollection
        (ThreadCollection.mapThread thread (thread_setSelectedStackFrame frameIndex))
  end.

(** [getCurrentStackFrame] (lines 308-315) *)
Definition getCurrentStackFrame : M (option StackFrame) :=
  _ensureDebugSession false ;;
  thread <- getActiveThread ;;
  let selectedFrame := thread_selectedFrame thread in
  frames <- getStackTrace (thread_id thread) (Z.of_nat selectedFrame + 1) ;;
  ret (nth_error frames selectedFrame).

(** [_getSourceByReference] (lines 1133-1144) *)
Definition _getSourceByReference (sourceReference : Z) : M string :=
  try_catch
    (_ensureDebugSession false ;;
     r <- send (ReqSource sourceReference) ;;
     expectSource r)
    (fun message => ret ("Failed to retrieve source: " ++ message)).

(** Modelled from the spec: the two look-ups of the source cache
    (section 4.3).  A file that cannot be read has no lines. *)
Definition getFileDataByPath (path : string) : M (list string) :=
  d <- get ;;
  match SourceFileCache.lookup (inl path) (_sourceFiles d) with
  | Some lines => ret lines
  | None =>
      match readFile W path with
      | None => ret []
      | Some content =>
          let lines := SourceFileCache.splitLines content in
          modify (fun d => set_sourceFiles
                             (SourceFileCache.store (inl path) lines (_sourceFiles d)) d) ;;
          ret lines
      end
  end.

Definition getFileDataBySourceReference (sourceReference : Z) : M (list string) :=
  d <- get ;;
  match SourceFileCache.lookup (inr sourceReference) (_sourceFiles d) with
  | Some lines => ret lines
  | None =>
      content <- _getSourceByReference sourceReference ;;
      let lines := SourceFileCache.splitLines content in
      modify (fun d => set_sourceFiles
                         (SourceFileCache.store (inr sourceReference) lines (_sourceFiles d)) d) ;;
      ret lines
  end.

(** [Array.prototype.slice(start, end)]: a negative index counts from the
    end of the array. *)
Definition js_slice {A : Type} (l : list A) (start end_ : Z) : list A :=
  let len := Z.of_nat (List.length l) in
  let k := if start <? 0 then Z.max (len + start) 0 else Z.min start len in
  let final := if end_ <? 0 then Z.max (len + end_) 0 else Z.min end_ len in
  firstn (Z.to_nat (final - k)) (skipn (Z.to_nat k) l).

(** The end of [getSourceLines] (lines 564-569), once the lines are there. *)
Definition sliceSourceLines (lines : list string) (start length : Z) : list string :=
  if start >? Z.of_nat (List.length lines) then []
  else
    let end_ := Z.min (start + length - 1) (Z.of_nat (List.length lines)) in
    js_slice lines (start - 1) end_.

(** The lines of a source (lines 553-562): by source reference when there
    is one that is not zero, else by path, else none. *)
Definition sourceLines (source : Source) : M (list string) :=
  match source_sourceReference source with
  | Some sourceReference =>
      if negb (sourceReference =? 0) then getFileDataBySourceReference sourceReference
      else match source_path source with
           | Some path => getFileDataByPath path
           | None => ret []
           end
  | None =>
      match source_path source with
      | Some path => getFileDataByPath path
      | None => ret []
      end
  end.

(** [getSourceLines] (lines 544-570) *)
Definition getSourceLines (source : Source) (start length : Z) : M (list string) :=
  lines <- sourceLines source ;;
  ret (sliceSourceLines lines start length).

(** [_updateBreakpoint] (lines 782-820).  The adapter's breakpoint is an
    object the method writes to: the result is that object afterwards.  An
    array element that is not there is [undefined], whose [id] cannot be
    read. *)
Definition _updateBreakpoint (local : Breakpoint) (remote : option AdapterBreakpoint)
    : M AdapterBreakpoint :=
  let index := bp_index local in
  match remote with
  | None => throw "TypeError: Cannot read property 'id' of undefined"
  | Some remote =>
      match ab_id remote with
      | Some id =>
          updateBreakpoints "for this index" (BreakpointCollection.setBreakpointId index id) ;;
          match ab_verified remote with
          | Some verified =>
              updateBreakpoints "for this index"
                (BreakpointCollection.setBreakpointVerified index verified)
          | None => ret tt
          end
      | None =>
          updateBreakpoints "for this index"
            (BreakpointCollection.setBreakpointVerified index true)
      end ;;
      match bp_func local, ab_source remote with
      | Some _, Some source =>
          match source_path source, ab_line remote with
          | Some path, Some line =>
              updateBreakpoints "for this index"
                (BreakpointCollection.setPathAndFile index path line)
          | _, _ => ret tt
          end
      | _, _ => ret tt
      end ;;
      if negb (truthy (ab_verified remote))
         && match ab_message remote with
            | None => true
            | Some m => String.eqb m ""
            end
      then ret (ab_with_message couldNotSetMessage remote)
      else ret remote
  end.

(** [localBreakpoints.map((_, i) => [_, adapterBreakpoints[i]])] *)
Fixpoint pairWith (locals : list Breakpoint) (remotes : list AdapterBreakpoint)
    : list (Breakpoint * option AdapterBreakpoint) :=
  match locals with
  | [] => []
  | l :: ls => (l, hd_error remotes) :: pairWith ls (tl remotes)
  end.

(** The loop over the pairs; each adapter breakpoint is replaced by what
    [_updateBreakpoint] made of it. *)
Definition reconcile (paired : list (Breakpoint * option AdapterBreakpoint))
    : M (list (Breakpoint * AdapterBreakpoint)) :=
  mapM (fun p => r <- _updateBreakpoint (fst p) (snd p) ;; ret (fst p, r)) paired.

Definition ofInterest (indexOfInterest : option Z)
    (paired : list (Breakpoint * AdapterBreakpoint)) : option AdapterBreakpoint :=
  match find (fun p => match indexOfInterest with
                       | Some i => bp_index (fst p) =? i
                       | None => false
                       end) paired with
  | Some p => Some (snd p)
  | None => None
  end.

(** [_setSourceBreakpointsForPath] (lines 461-487) *)
Definition _setSourceBreakpointsForPath (path : string) (indexOfInterest : option Z)
    : M (option AdapterBreakpoint) :=
  d <- get ;;
  let localBreakpoints :=
    BreakpointCollection.getAllEnabledBreakpointsForSource path (_breakpoints d) in
  r <- send (ReqSetBreakpoints path (map bp_line localBreakpoints)) ;;
  adapterBreakpoints <- expectBreakpoints r ;;
  paired <- reconcile (pairWith localBreakpoints adapterBreakpoints) ;;
  ret (ofInterest indexOfInterest paired).

(** [_setFunctionBreakpoints] (lines 512-538) *)
Definition _setFunctionBreakpoints (indexOfInterest : Z) : M (option AdapterBreakpoint) :=
  d <- get ;;
  let funcBreakpoints :=
    BreakpointCollection.getAllEnabledFunctionBreakpoints (_breakpoints d) in
  r <- send (ReqSetFunctionBreakpoints (map bp_func funcBreakpoints)) ;;
  adapterBreakpoints <- expectBreakpoints r ;;
  paired <- reconcile (pairWith funcBreakpoints adapterBreakpoints) ;;
  ret (ofInterest (Some indexOfInterest) paired).

(** [_resetAllFunctionBreakpoints] (lines 758-780) *)
Definition _resetAllFunctionBreakpoints : M unit :=
  _ensureDebugSession false ;;
  d <- get ;;
  let funcBreakpoints :=
    BreakpointCollection.getAllEnabledFunctionBreakpoints (_breakpoints d) in
  if negb (truthy (supportsFunctionBreakpoints (_capabilities d)))
     || (match funcBreakpoints with [] => true | _ => false end)
  then ret tt
  else
    r <- send (ReqSetFunctionBreakpoints (map bp_func funcBreakpoints)) ;;
    funcBreakpointsOut <- expectBreakpoints r ;;
    reconcile (pairWith funcBreakpoints funcBreakpointsOut) ;;
    ret tt.

(** [_resetAllBreakpoints] (lines 725-756): one call per path with an
    enabled breakpoint and the call for the function breakpoints, all
    started, then awaited together. *)
Definition _resetAllBreakpoints : M unit :=
  _ensureDebugSession false ;;
  d <- get ;;
  let sourceBreakpoints :=
    BreakpointCollection.getAllEnabledBreakpointsByPath (_breakpoints d) in
  let sourceBreakpointSets :=
    map (fun entry =>
           r <- send (ReqSetBreakpoints (fst entry) (map bp_line (snd entry))) ;;
           breakpointsOut <- expectBreakpoints r ;;
           reconcile (pairWith (snd entry) breakpointsOut) ;;
           ret tt)
        sourceBreakpoints in
  promiseAll (sourceBreakpointSets ++ [_resetAllFunctionBreakpoints]).

(** [_cacheThreads] (lines 1058-1070) *)
Definition _cacheThreads : M unit :=
  d <- get ;;
  invariant (isSome (_debugSession d)) "_cacheThreads called without session" ;;
  r <- send ReqThreads ;;
  body_threads <- expectThreads r ;;
  let threads :=
    map (fun t => newThread (fst t) (snd t))
        (match body_threads with Some l => l | None => [] end) in
  updateThreadCollection (ThreadCollection.updateThreads threads).

(** [_pauseAfterAttach] (lines 212-231) *)
Definition _pauseAfterAttach : M unit :=
  d <- get ;;
  if _configured d && _attached d then
    _ensureDebugSession true ;;
    adapter <- nullthrows (_adapter d) ;;
    let threadId :=
      match asyncStopThread (adapter_adapter adapter) with
      | Some t => Some t
      | None =>
          match ThreadCollection.allThreads (_threads d) with
          | th :: _ => Some (thread_id th)
          | [] => None
          end
      end in
    match threadId with
    | None => stopInput
    | Some threadId => send (ReqPause threadId) ;; ret tt
    end
  else ret tt.

(** [_configurationDone] (lines 185-210) *)
Definition _configurationDone : M unit :=
  _ensureDebugSession true ;;
  modify (set_state RUNNING) ;;
  _resetAllBreakpoints ;;
  send ReqSetExceptionBreakpoints ;;
  d <- get ;;
  (if truthy (supportsConfigurationDoneRequest (_capabilities d)) then
     try_catch
       (send ReqConfigurationDone ;; ret tt)
       (fun message => stderr_write (failedToDebug message) ;; process_exit 0)
   else ret tt) ;;
  _cacheThreads ;;
  d <- get ;;
  if _attachMode d then
    modify (set_configured true) ;;
    _pauseAfterAttach
  else stopInput.

(** [closeSession] (lines 873-887) *)
Definition closeSession : M unit :=
  d <- get ;;
  match _debugSession d with
  | None => ret tt
  | Some _ =>
      send ReqDisconnect ;;
      modify (set_threads ThreadCollection.empty) ;;
      modify (set_debugSession None) ;;
      modify (set_activeThread None) ;;
      modify (fun d => set_sourceFiles (SourceFileCache.flush (_sourceFiles d)) d)
  end.

(** [createSession] (lines 688-723).  [_initializeObservers] subscribes the
    event handlers, which the events below run.  Reading a capability of a
    response without a body is a [TypeError]. *)
Definition createSession (adapter : ParsedVSAdapter) : M unit :=
  stopInput ;;
  modify (set_threads ThreadCollection.empty) ;;
  modify (set_debugSession (Some {| session_adapterType := adapter_type adapter |})) ;;
  _ensureDebugSession true ;;
  r <- send ReqInitialize ;;
  body <- expectInitialize r ;;
  modify (set_capabilities noCapabilities) ;;
  match body with
  | Some capabilities => modify (set_capabilities capabilities)
  | None => ret tt
  end ;;
  modify (set_readyForEvaluations true) ;;
  match body with
  | None =>
      throw "TypeError: Cannot read property 'supportsReadyForEvaluationsEvent' of undefined"
  | Some extraBody =>
      if truthy (supportsReadyForEvaluationsEvent extraBody)
      then modify (set_readyForEvaluations false)
      else ret tt
  end.

(** The [try] block of [relaunch] (lines 136-162); the result tells whether
    the block ended at [return this._pauseAfterAttach()].  Its awaits are
    run one after the other: an event that the session delivers while a
    request of the block is pending is handled once the method is over, as
    a step of its own.  So at the end of the block [_configured] is still
    false, which in the program holds only if the initialized event has
    not been handled during the attach request. *)
Definition relaunch_session (adapter : ParsedVSAdapter) : M bool :=
  modify (set_state INITIALIZING) ;;
  modify (set_configured false) ;;
  modify (set_attached false) ;;
  closeSession ;;
  createSession adapter ;;
  modify (set_attachMode
            (match adapter_action adapter with
             | attachAction => true
             | launchAction => false
             end)) ;;
  _ensureDebugSession true ;;
  d <- get ;;
  if _attachMode d then
    current <- nullthrows (_adapter d) ;;
    send (ReqAttach (transformAttachArguments (adapter_adapter current)
                       (adapter_attachArgs adapter))) ;;
    modify (set_attached true) ;;
    ret true
  else
    current <- nullthrows (_adapter d) ;;
    send (ReqLaunch (transformLaunchArguments (adapter_adapter current)
                       (adapter_launchArgs adapter))) ;;
    ret false.

(** [relaunch] (lines 129-167).  [return this._pauseAfterAttach()] hands
    the promise of that call to the caller: a rejection of it is not caught
    by the [catch] of [relaunch]. *)
Definition relaunch : M unit :=
  d <- get ;;
  match _adapter d with
  | None => throw "There is nothing to relaunch."
  | Some adapter =>
      attached <-
        try_catch
          (relaunch_session adapter)
          (fun message => stderr_write (failedToDebug message) ;; process_exit 0) ;;
      if attached then _pauseAfterAttach else ret tt
  end.

(** [launch] (lines 118-124) *)
Definition launch (adapter : ParsedVSAdapter) : M unit :=
  modify (set_adapter (Some adapter)) ;;
  modify (set_breakpoints BreakpointCollection.empty) ;;
  relaunch.

(** [_startConfigurationInput] (lines 990-994) *)
Definition _startConfigurationInput : M unit :=
  d <- get ;;
  if _readyForEvaluations d && SessionState_eqb (_state d) CONFIGURING
  then startInput
  else ret tt.

(** [_onReadyForEvaluations] (lines 985-988) *)
Definition _onReadyForEvaluations : M unit :=
  modify (set_readyForEvaluations true) ;;
  _startConfigurationInput.

(** [_onInitialized] (lines 169-183) *)
Definition _onInitialized : M unit :=
  d <- get ;;
  invariant (isSome (_adapter d)) "AssertionError" ;;
  if _attachMode d then _configurationDone
  else
    modify (set_state CONFIGURING) ;;
    _startConfigurationInput.

(** [run] (lines 233-250).  The promise of [this.relaunch()] is dropped. *)
Definition run : M unit :=
  d <- get ;;
  if _attachMode d then throw "Cannot run an attached process; already attached."
  else
    modify (set_stoppedAtBreakpointId None) ;;
    if SessionState_eqb (_state d) STOPPED then detached relaunch
    else if negb (SessionState_eqb (_state d) CONFIGURING)
    then throw "There is nothing to run."
    else _configurationDone.

(** [breakInto] (lines 252-270) *)
Definition breakInto : M unit :=
  d <- get ;;
  current <- nullthrows (_adapter d) ;;
  let adapter := adapter_adapter current in
  let threadId :=
    match ThreadCollection.focusThread (_threads d) with
    | Some th => Some (thread_id th)
    | None =>
        match asyncStopThread adapter with
        | Some t => Some t
        | None =>
            match ThreadCollection.allThreads (_threads d) with
            | th :: _ => Some (thread_id th)
            | [] => None
            end
        end
    end in
  match threadId with
  | None => ret tt
  | Some threadId =>
      _ensureDebugSession false ;;
      detached (send (ReqPause threadId) ;; ret tt)
  end.

(** [stepIn] (lines 317-321) *)
Definition stepIn : M unit :=
  _ensureDebugSession false ;;
  thread <- getActiveThread ;;
  send (ReqStepIn (thread_id thread)) ;;
  ret tt.

(** [stepOver] (lines 323-327) *)
Definition stepOver : M unit :=
  _ensureDebugSession false ;;
  thread <- getActiveThread ;;
  send (ReqNext (thread_id thread)) ;;
  ret tt.

(** The [try] block of [continue] (lines 331-362); the result tells whether
    the block ended at [return this._configurationDone()]. *)
Definition continue_try : M bool :=
  stopInput ;;
  _ensureDebugSession true ;;
  modify (set_stoppedAtBreakpointId None) ;;
  d <- get ;;
  if SessionState_eqb (_state d) CONFIGURING then
    if _attachMode d then ret true
    else throw "There is not yet a running process to continue."
  else if SessionState_eqb (_state d) STOPPED then
    thread <- getActiveThread ;;
    send (ReqContinue (thread_id thread)) ;;
    ret false
  else if SessionState_eqb (_state d) TERMINATED then
    throw "Cannot continue; process is terminated."
  else
    throw ("Continue called from unexpected state " ++ SessionState_name (_state d)).

(** [continue] (lines 329-367).  [return this._configurationDone()] hands
    the promise of that call to the caller: a rejection of it is not caught
    by the [catch] of [continue]. *)
Definition continue : M unit :=
  configure <- try_catch continue_try (fun error => startInput ;; throw error) ;;
  if configure then _configurationDone else ret tt.

(** [BreakpointSetResult] *)
Record BreakpointSetResult : Type := {
  result_index : Z;
  result_message : option string
}.

Definition addBreakpoint
    (add : BreakpointCollection.t -> Z * BreakpointCollection.t) : M Z :=
  d <- get ;;
  let r := add (_breakpoints d) in
  modify (set_breakpoints (snd r)) ;;
  ret (fst r).

(** [setSourceBreakpoint] (lines 439-459) *)
Definition setSourceBreakpoint (path : string) (line : Z) : M BreakpointSetResult :=
  _ensureDebugSession true ;;
  index <- addBreakpoint (BreakpointCollection.addSourceBreakpoint path line) ;;
  d <- get ;;
  if negb (SessionState_eqb (_state d) CONFIGURING) then
    breakpoint <- _setSourceBreakpointsForPath path (Some index) ;;
    ret {| result_index := index;
           result_message := match breakpoint with
                             | None => None
                             | Some b => ab_message b
                             end |}
  else ret {| result_index := index; result_message := Some pendingMessage |}.

(** [setFunctionBreakpoint] (lines 489-510) *)
Definition setFunctionBreakpoint (func : string) : M BreakpointSetResult :=
  d <- get ;;
  (if negb (truthy (supportsFunctionBreakpoints (_capabilities d))) then
     current <- nullthrows (_adapter d) ;;
     throw ("The " ++ adapter_type current
            ++ " debugger does not support function breakpoints.")
   else ret tt) ;;
  _ensureDebugSession true ;;
  index <- addBreakpoint (BreakpointCollection.addFunctionBreakpoint func) ;;
  d <- get ;;
  if negb (SessionState_eqb (_state d) CONFIGURING) then
    breakpoint <- _setFunctionBreakpoints index ;;
    ret {| result_index := index;
           result_message := match breakpoint with
                             | None => None
                             | Some b => ab_message b
                             end |}
  else ret {| result_index := index; result_message := Some pendingMessage |}.

(** [setAllBreakpointsEnabled] (lines 580-583) *)
Definition setAllBreakpointsEnabled (enabled : bool) : M unit :=
  d <- get ;;
  forEach (fun bp => breakpoint_setEnabled (bp_index bp) enabled)
          (BreakpointCollection.getAllBreakpoints (_breakpoints d)) ;;
  _resetAllBreakpoints.

(** [setBreakpointEnabled] (lines 585-607).  [breakpoint] is the object the
    collection holds: [breakpoint.setEnabled] changes the collection. *)
Definition setBreakpointEnabled (index : Z) (enabled : bool) : M unit :=
  _ensureDebugSession false ;;
  breakpoint <- getBreakpointByIndex index ;;
  let path := bp_path breakpoint in
  if Bool.eqb (bp_enabled breakpoint) enabled then ret tt
  else
    breakpoint_setEnabled index enabled ;;
    match path with
    | Some path =>
        try_catch
          (_setSourceBreakpointsForPath path (Some index) ;; ret tt)
          (fun error => breakpoint_setEnabled index (negb enabled) ;; throw error)
    | None => _resetAllFunctionBreakpoints
    end.

(** [toggleAllBreakpoints] (lines 609-614) *)
Definition toggleAllBreakpoints : M unit :=
  d <- get ;;
  forEach (fun bp => breakpoint_setEnabled (bp_index bp) (negb (bp_enabled bp)))
          (BreakpointCollection.getAllBreakpoints (_breakpoints d)) ;;
  _resetAllBreakpoints.

(** [toggleBreakpoint] (lines 616-634) *)
Definition toggleBreakpoint (index : Z) : M unit :=
  _ensureDebugSession false ;;
  breakpoint <- getBreakpointByIndex index ;;
  let path := bp_path breakpoint in
  breakpoint_setEnabled index (negb (bp_enabled breakpoint)) ;;
  match path with
  | Some path =>
      try_catch
        (_setSourceBreakpointsForPath path (Some index) ;; ret tt)
        (fun error =>
           current <- getBreakpointByIndex index ;;
           breakpoint_setEnabled index (negb (bp_enabled current)) ;;
           throw error)
  | None => _resetAllFunctionBreakpoints
  end.

(** [deleteAllBreakpoints] (lines 636-648) *)
Definition deleteAllBreakpoints : M unit :=
  _ensureDebugSession false ;;
  d <- get ;;
  promiseAll
    (map (fun path => send (ReqSetBreakpoints path []) ;; ret tt)
         (BreakpointCollection.getAllBreakpointPaths (_breakpoints d))) ;;
  send (ReqSetFunctionBreakpoints []) ;;
  modify (fun d => set_breakpoints
                     (BreakpointCollection.deleteAllBreakpoints (_breakpoints d)) d).

(** [deleteBreakpoint] (lines 650-669) *)
Definition deleteBreakpoint (index : Z) : M unit :=
  _ensureDebugSession false ;;
  breakpoint <- getBreakpointByIndex index ;;
  let path := bp_path breakpoint in
  updateBreakpoints ("#" ++ string_of_Z index)
    (BreakpointCollection.deleteBreakpoint index) ;;
  match path with
  | Some path =>
      d <- get ;;
      let pathBreakpoints :=
        BreakpointCollection.getAllEnabledBreakpointsForSource path (_breakpoints d) in
      send (ReqSetBreakpoints path (map bp_line pathBreakpoints)) ;;
      ret tt
  | None => ret tt
  end.

(** [evaluateExpression] (lines 671-686) *)
Definition evaluateExpression (expression : string) : M Response :=
  _ensureDebugSession true ;;
  d <- get ;;
  frameId <-
    (if SessionState_eqb (_state d) RUNNING then
       frame <- getCurrentStackFrame ;;
       match frame with
       | Some frame => ret (Some (frame_id frame))
       | None => ret None
       end
     else ret None) ;;
  send (ReqEvaluate expression "repl" frameId).

(** *** The event handlers *)

Record OutputEvent : Type := {
  output_category : option string;
  output_output : option string
}.

Record ContinuedEvent : Type := {
  continued_threadId : option Z;
  continued_allThreadsContinued : option bool
}.

Record StoppedEvent : Type := {
  stopped_description : option string;
  stopped_threadId : option Z;
  stopped_allThreadsStopped : option bool;
  stopped_breakpointId : option Z
}.

Record ThreadEvent : Type := {
  thread_reason : string;
  thread_threadId : Z
}.

Record BreakpointEvent : Type := {
  breakpoint_reason : string;
  breakpoint_id : option Z;
  breakpoint_verified : bool
}.

(** The filter on output events (lines 835-842) and [_onOutput]
    (lines 889-892). *)
Definition _onOutput (event : OutputEvent) : M unit :=
  d <- get ;;
  match output_category event with
  | Some category =>
      if negb (existsb (String.eqb category) (_muteOutputCategories d))
      then output (match output_output event with Some text => text | None => "" end)
      else ret tt
  | None => ret tt
  end.

(** [_onContinued] (lines 894-909) *)
Definition _onContinued (event : ContinuedEvent) : M unit :=
  (if truthy (continued_allThreadsContinued event) then
     updateThreadCollection ThreadCollection.markAllThreadsRunning
   else
     match continued_threadId event with
     | Some threadId => updateThreadCollection (ThreadCollection.markThreadRunning threadId)
     | None => ret tt
     end) ;;
  d <- get ;;
  if ThreadCollection.allThreadsRunning (_threads d) then stopInput else ret tt.

Record TopOfStack : Type := {
  top_line : string;
  top_name : string;
  top_frame : StackFrame
}.

(** [_getTopOfStackSourceInfo] (lines 1090-1125) and [_sourceFromTopFrame]
    (lines 1127-1131); the file name of a path is [nuclideUri]'s. *)
Definition _getTopOfStackSourceInfo (threadId : Z) : M (option TopOfStack) :=
  frames <- getStackTrace threadId 1 ;;
  match frames with
  | [] => ret None
  | frame :: _ =>
      match frame_source frame with
      | None => ret None
      | Some source =>
          lines <- getSourceLines source (frame_line frame) 1 ;;
          match source_path source, source_name source with
          | Some path, _ =>
              ret (Some {| top_line := hd "" lines; top_name := uriBaseName W path;
                           top_frame := frame |})
          | None, Some name =>
              ret (Some {| top_line := hd "" lines; top_name := name;
                           top_frame := frame |})
          | None, None => ret None
          end
      end
  end.

Definition setFocusThread (threadId : Z) : M unit :=
  d <- get ;;
  match ThreadCollection.setFocusThread threadId (_threads d) with
  | Some c => modify (set_threads c)
  | None => throw ("There is no thread " ++ string_of_Z threadId)
  end.

(** [_onStopped] (lines 911-965) *)
Definition _onStopped (event : StoppedEvent) : M unit :=
  modify (set_stoppedAtBreakpointId (stopped_breakpointId event)) ;;
  d <- get ;;
  let firstStop := ThreadCollection.allThreadsRunning (_threads d) in
  match stopped_description event with
  | Some description =>
      if firstStop then outputLine ("Stopped: " ++ description) else ret tt
  | None => ret tt
  end ;;
  (if truthy (stopped_allThreadsStopped event) then
     updateThreadCollection ThreadCollection.markAllThreadsStopped ;;
     updateThreadCollection (ThreadCollection.mapThreads thread_clearSelectedStackFrame)
   else
     match stopped_threadId event with
     | Some threadId =>
         updateThreadCollection (ThreadCollection.markThreadStopped threadId) ;;
         d <- get ;;
         nullthrows (ThreadCollection.getThreadById threadId (_threads d)) ;;
         updateThreadCollection
           (ThreadCollection.mapThread threadId thread_clearSelectedStackFrame)
     | None => outputLine "stop event with no thread information."
     end) ;;
  if firstStop then
    match stopped_threadId event with
    | Some threadId => setFocusThread threadId
    | None =>
        d <- get ;;
        match ThreadCollection.firstStoppedThread (_threads d) with
        | Some firstStopped => setFocusThread (thread_id firstStopped)
        | None => throw "AssertionError"
        end
    end ;;
    try_catch
      (d <- get ;;
       focus <- nullthrows (ThreadCollection.focusThreadId (_threads d)) ;;
       topOfStack <- _getTopOfStackSourceInfo focus ;;
       match topOfStack with
       | Some top =>
           outputLine (top_name top ++ ":" ++ string_of_Z (frame_line (top_frame top))
                       ++ " " ++ top_line top)
       | None => ret tt
       end)
      (fun message => outputLine ("failed to get source at stop point: " ++ message)) ;;
    modify (set_state STOPPED) ;;
    startInput
  else ret tt.

(** [_onThread] (lines 967-983).  The promise of [this._cacheThreads()] is
    dropped. *)
Definition _onThread (event : ThreadEvent) : M unit :=
  let threadId := thread_threadId event in
  if String.eqb (thread_reason event) "started" then
    updateThreadCollection
      (ThreadCollection.addThread
         (newThread threadId ("thread " ++ string_of_Z threadId))) ;;
    detached _cacheThreads
  else if String.eqb (thread_reason event) "exited" then
    updateThreadCollection (ThreadCollection.removeThread threadId)
  else ret tt.

(** [_onExitedDebugee] (lines 996-1013) *)
Definition _onExitedDebugee (exitCode : Z) : M unit :=
  modify (set_state TERMINATED) ;;
  outputLine ("Target exited with status " ++ string_of_Z exitCode) ;;
  d <- get ;;
  invariant (isSome (_adapter d)) "AssertionError" ;;
  if negb (_attachMode d) then
    startInput ;;
    detached relaunch
  else process_exit 0.

(** [_onTerminatedDebugee] (lines 1015-1035) *)
Definition _onTerminatedDebugee : M unit :=
  d <- get ;;
  if negb (SessionState_eqb (_state d) RUNNING) then ret tt
  else
    modify (set_state TERMINATED) ;;
    outputLine "The target has exited." ;;
    invariant (isSome (_adapter d)) "AssertionError" ;;
    if negb (_attachMode d) then
      startInput ;;
      detached relaunch
    else process_exit 0.

(** [_onAdapterExited] (lines 1037-1056) *)
Definition _onAdapterExited : M unit :=
  d <- get ;;
  if SessionState_eqb (_state d) INITIALIZING then ret tt
  else
    modify (set_state TERMINATED) ;;
    invariant (isSome (_adapter d)) "AssertionError" ;;
    if negb (_attachMode d) then
      startInput ;;
      detached relaunch
    else process_exit 0.

(** [_onBreakpointEvent] (lines 1072-1088) *)
Definition _onBreakpointEvent (event : BreakpointEvent) : M unit :=
  match breakpoint_id event with
  | Some id =>
      if String.eqb (breakpoint_reason event) "new"
         || String.eqb (breakpoint_reason event) "changed"
      then
        try_catch
          (d <- get ;;
           match BreakpointCollection.getBreakpointById id (_breakpoints d) with
           | Some breakpoint =>
               updateBreakpoints "for this id"
                 (BreakpointCollection.setBreakpointVerified (bp_index breakpoint)
                    (breakpoint_verified event))
           | None => throw "There is no breakpoint for this id"
           end)
          (fun _ => outputLine "Failed to verify breakpoint.")
      else ret tt
  | None => ret tt
  end.

(** The subscription to custom events (lines 866-870) *)
Definition _onCustomEvent (event : string) : M unit :=
  if String.eqb event "readyForEvaluations" then _onReadyForEvaluations else ret tt.

(** ** Executions *)

(** What can happen to the debugger: a command of the dispatcher calls a
    method, or an event of the session runs its handler.  The handlers are
    subscribers: [_onInitialized] and [_onStopped] are async and their
    promise is dropped. *)
Inductive Label : Type :=
| CallLaunch (adapter : ParsedVSAdapter)
| CallRelaunch
| CallRun
| CallBreakInto
| CallStepIn
| CallStepOver
| CallContinue
| CallSetSelectedStackFrame (thread : Z) (frameIndex : nat)
| CallSetSourceBreakpoint (path : string) (line : Z)
| CallSetFunctionBreakpoint (func : string)
| CallGetSourceLines (source : Source) (start length : Z)
| CallSetAllBreakpointsEnabled (enabled : bool)
| CallSetBreakpointEnabled (index : Z) (enabled : bool)
| CallToggleAllBreakpoints
| CallToggleBreakpoint (index : Z)
| CallDeleteAllBreakpoints
| CallDeleteBreakpoint (index : Z)
| CallEvaluateExpression (expression : string)
| CallCloseSession
| EventInitialized
| EventOutput (event : OutputEvent)
| EventContinued (event : ContinuedEvent)
| EventStopped (event : StoppedEvent)
| EventThread (event : ThreadEvent)
| EventExited (exitCode : Z)
| EventTerminated
| EventAdapterExited
| EventBreakpoint (event : BreakpointEvent)
| EventCustom (event : string).

Definition discard {A : Type} (m : M A) : M unit := m ;; ret tt.

Definition step (l : Label) : M unit :=
  match l with
  | CallLaunch adapter => launch adapter
  | CallRelaunch => relaunch
  | CallRun => run
  | CallBreakInto => breakInto
  | CallStepIn => stepIn
  | CallStepOver => stepOver
  | CallContinue => continue
  | CallSetSelectedStackFrame thread frameIndex => setSelectedStackFrame thread frameIndex
  | CallSetSourceBreakpoint path line => discard (setSourceBreakpoint path line)
  | CallSetFunctionBreakpoint func => discard (setFunctionBreakpoint func)
  | CallGetSourceLines source start length => discard (getSourceLines source start length)
  | CallSetAllBreakpointsEnabled enabled => setAllBreakpointsEnabled enabled
  | CallSetBreakpointEnabled index enabled => setBreakpointEnabled index enabled
  | CallToggleAllBreakpoints => toggleAllBreakpoints
  | CallToggleBreakpoint index => toggleBreakpoint index
  | CallDeleteAllBreakpoints => deleteAllBreakpoints
  | CallDeleteBreakpoint index => deleteBreakpoint index
  | CallEvaluateExpression expression => discard (evaluateExpression expression)
  | CallCloseSession => closeSession
  | EventInitialized => detached _onInitialized
  | EventOutput event => _onOutput event
  | EventContinued event => _onContinued event
  | EventStopped event => detached (_onStopped event)
  | EventThread event => _onThread event
  | EventExited exitCode => _onExitedDebugee exitCode
  | EventTerminated => _onTerminatedDebugee
  | EventAdapterExited => _onAdapterExited
  | EventBreakpoint event => _onBreakpointEvent event
  | EventCustom event => _onCustomEvent event
  end.

(** An execution: the labels in the order they happen; a command that
    throws leaves the debugger running, the end of the process ends the
    execution. *)
Fixpoint execute (ls : list Label) (d : Debugger) : Debugger :=
  match ls with
  | [] => d
  | l :: rest =>
      match step l d with
      | (Exit _, d') => d'
      | (_, d') => execute rest d'
      end
  end.

End Methods.

(** ** Specifications *)

Definition isExit (e : Effect) : bool :=
  match e with ProcessExit _ => true | _ => false end.

(** [preserves P m]: whatever [m] does, it keeps [P]. *)
Definition preserves {A : Type} (P : Debugger -> Prop) (m : M A) : Prop :=
  forall d, P d -> P (snd (m d)).

(** The elements of a list from position [lo] up to position [hi], the
    latter excluded. *)
Definition span {A : Type} (l : list A) (lo hi : nat) : list A :=
  firstn (hi - lo) (skipn lo l).

(** The listing as the specification words it: nothing when the 1-based
    [start] is beyond the last line, else the lines from [start - 1] up to
    [min (start - 1 + length) totalLines]. *)
Definition specSourceLines (lines : list string) (start length : Z) : list string :=
  let totalLines := Z.of_nat (List.length lines) in
  if start >? totalLines then []
  else span lines (Z.to_nat (start - 1)) (Z.to_nat (Z.min (start - 1 + length) totalLines)).

(** The breakpoint the collection of the debugger holds under an index. *)
Definition stored (index : Z) (d : Debugger) : option Breakpoint :=
  BreakpointCollection.getBreakpointByIndex index (_breakpoints d).

(** Two debuggers that differ in their breakpoint collection at most. *)
Definition sameButBreakpoints (d d' : Debugger) : Prop :=
  d' = set_breakpoints (_breakpoints d') d.

(** [returns Pre m Post]: from a debugger where [Pre] holds, [m] returns,
    with a result and a debugger where [Post] holds. *)
Definition returns {A : Type} (Pre : Debugger -> Prop) (m : M A)
    (Post : A -> Debugger -> Prop) : Prop :=
  forall d, Pre d -> exists a d', m d = (Ret a, d') /\ Post a d'.

(** Since [d0], the breakpoint under [index] has become [b], and nothing
    else has changed. *)
Definition held (index : Z) (b : Breakpoint) (d0 d : Debugger) : Prop :=
  stored index d = Some b /\
  (forall j, index <> j -> stored j d = stored j d0) /\
  sameButBreakpoints d0 d.

(** ** Sessions to run the debugger on *)

Module Scenario.

Definition plainAdapter : DebugAdapter :=
  {| transformLaunchArguments := fun args => args;
     transformAttachArguments := fun args => args;
     asyncStopThread := None |}.

(** An adapter that launches a program. *)
Definition launching : ParsedVSAdapter :=
  {| adapter_action := launchAction; adapter_type := "python";
     adapter_launchArgs := "prog.py"; adapter_attachArgs := "";
     adapter_adapter := plainAdapter |}.

(** An adapter that attaches to a process. *)
Definition attaching : ParsedVSAdapter :=
  {| adapter_action := attachAction; adapter_type := "python";
     adapter_launchArgs := ""; adapter_attachArgs := "4711";
     adapter_adapter := plainAdapter |}.

(** What the adapter returns for a breakpoint it could not place yet. *)
Definition unplaced : AdapterBreakpoint :=
  {| ab_id := Some 42; ab_verified := Some false; ab_message := None;
     ab_source := None; ab_line := None |}.

Definition mainFrame : StackFrame :=
  {| frame_id := 1000; frame_line := 3; frame_source := None |}.

Definition answer (r : Request) : Response :=
  match r with
  | ReqInitialize => RespInitialize (Some noCapabilities)
  | ReqSetBreakpoints _ lines => RespBreakpoints (map (fun _ => unplaced) lines)
  | ReqSetFunctionBreakpoints names => RespBreakpoints (map (fun _ => unplaced) names)
  | ReqThreads => RespThreads (Some [(1, "main")])
  | ReqStackTrace _ _ => RespStackTrace [mainFrame]
  | ReqSource _ => RespSource "a"
  | ReqEvaluate _ _ _ => RespEvaluate "7"
  | _ => RespAck
  end.

Definition fourLines : string :=
  "a" ++ CRLF ++ "b" ++ CRLF ++ "c" ++ CRLF ++ "d".

(** An adapter that accepts every request. *)
Definition world : World :=
  {| respond := fun _ r => inr (answer r);
     readFile := fun path => if String.eqb path "/a.py" then Some fourLines else None;
     uriBaseName := fun path => path |}.

(** An adapter that rejects the requests that set breakpoints once the
    program runs (the request after the first [threads] request). *)
Definition rejecting : World :=
  {| respond := fun sent r =>
       match r with
       | ReqSetBreakpoints _ _ =>
           if existsb (fun q => match q with ReqThreads => true | _ => false end) sent
           then inl "setBreakpoints failed"
           else inr (answer r)
       | _ => inr (answer r)
       end;
     readFile := fun _ => None;
     uriBaseName := fun path => path |}.

(** An adapter whose initialize request fails. *)
Definition broken : World :=
  {| respond := fun _ r =>
       match r with
       | ReqInitialize => inl "cannot start adapter"
       | _ => inr (answer r)
       end;
     readFile := fun _ => None;
     uriBaseName := fun path => path |}.

(** An adapter that supports, and rejects, the configurationDone request. *)
Definition unconfigurable : World :=
  {| respond := fun _ r =>
       match r with
       | ReqInitialize =>
           inr (RespInitialize
                  (Some {| supportsConfigurationDoneRequest := Some true;
                           supportsFunctionBreakpoints := None;
                           supportsReadyForEvaluationsEvent := None |}))
       | ReqConfigurationDone => inl "configuration rejected"
       | _ => inr (answer r)
       end;
     readFile := fun _ => None;
     uriBaseName := fun path => path |}.

Definition stoppedOnThread1 : StoppedEvent :=
  {| stopped_description := None; stopped_threadId := Some 1;
     stopped_allThreadsStopped := None; stopped_breakpointId := None |}.

(** Launch, set a breakpoint before the program starts, run. *)
Definition toRunning : list Label :=
  [CallLaunch launching; EventInitialized; CallSetSourceBreakpoint "/a.py" 3; CallRun].

(** ... and the program stops on its thread. *)
Definition toStopped : list Label := toRunning ++ [EventStopped stoppedOnThread1].

Definition configuring : Debugger :=
  execute world [CallLaunch launching; EventInitialized; CallSetSourceBreakpoint "/a.py" 3]
    (newDebugger []).

Definition running : Debugger := execute world toRunning (newDebugger []).

Definition stopped : Debugger := execute world toStopped (newDebugger []).

(** Attach to a process: the initialized event configures at once. *)
Definition attached : Debugger :=
  execute world [CallLaunch attaching; EventInitialized] (newDebugger []).

Definition pythonSource : Source :=
  {| source_path := Some "/a.py"; source_name := None; source_sourceReference := None |}.

End Scenario.

(** The enabled flag of the breakpoint under [index] is [e]. *)
Definition enabledIs (index : Z) (e : bool) (d : Debugger) : Prop :=
  option_map bp_enabled (stored index d) = Some e.

(** The collections a session owns are fresh: no thread, and the source
    cache as [sourceFiles]. *)
Definition freshSession (sourceFiles : SourceFileCache.t) (d : Debugger) : Prop :=
  _threads d = ThreadCollection.empty /\ _sourceFiles d = sourceFiles.

(** Every time the process was left, it was with status 0. *)
Definition leftWithZero (d : Debugger) : Prop :=
  Forall (fun e => match e with ProcessExit code => code = 0 | _ => True end) (effects d).

(** No initialize response carries [supportsReadyForEvaluationsEvent]. *)
Definition withoutReadyForEvaluations (W : World) : Prop :=
  forall sent body,
    respond W sent ReqInitialize = inr (RespInitialize (Some body)) ->
    truthy (supportsReadyForEvaluationsEvent body) = false.

(** The equivalence of ordering rule 2: console input is enabled exactly
    when the state is Stopped, or Configuring with the flag raised. *)
Definition inputRule (d : Debugger) : Prop :=
  inputEnabled d = true <->
  (_state d = STOPPED \/ (_state d = CONFIGURING /\ _readyForEvaluations d = true)).

(** The commands and events under which console input keeps following the
    state: all but [launch], [relaunch], [run], [continue] and the
    initialized, continued, exited, terminated and adapter-exited events. *)
Definition keepsInputRule (l : Label) : bool :=
  match l with
  | CallLaunch _ | CallRelaunch | CallRun | CallContinue
  | EventInitialized | EventContinued _ | EventExited _ | EventTerminated
  | EventAdapterExited => false
  | _ => true
  end.

(** The adapter's breakpoint as [_updateBreakpoint] leaves it (lines
    814-819): with the message made up when it is not verified and brings
    no message. *)
Definition handedBack (remote : AdapterBreakpoint) : AdapterBreakpoint :=
  if negb (truthy (ab_verified remote))
     && match ab_message remote with
        | None => true
        | Some m => String.eqb m ""
        end
  then ab_with_message couldNotSetMessage remote
  else remote.

Module Examples.

Import Scenario.

(** The program stopped, then the continue command. *)
Definition continued : Debugger :=
  execute world (toStopped ++ [CallContinue]) (newDebugger []).

(** The continue command while the program runs. *)
Definition continuedWhileRunning : Debugger :=
  execute world (toRunning ++ [CallContinue]) (newDebugger []).

(** A session with an adapter that rejects [setBreakpoints] once the
    program runs, stopped. *)
Definition stoppedRejecting : Debugger :=
  execute rejecting toStopped (newDebugger []).

(** The breakpoint of these sessions, as the reconcile at [run] left it. *)
Definition reconciled : Breakpoint :=
  {| bp_index := 1; bp_kind := SourceBreakpoint "/a.py" 3; bp_enabled := true;
     bp_id := Some 42; bp_verified := false; bp_message := None |}.

(** ... and as it was added. *)
Definition pending : Breakpoint :=
  {| bp_index := 1; bp_kind := SourceBreakpoint "/a.py" 3; bp_enabled := true;
     bp_id := None; bp_verified := false; bp_message := None |}.

(** A debugger with an adapter to launch and no session yet. *)
Definition beforeLaunch : Debugger := set_adapter (Some launching) (newDebugger []).

(** The stopped program, resumed: the continue command, and the continued
    event that answers it. *)
Definition resumed : Debugger :=
  execute world
    [CallContinue;
     EventContinued {| continued_threadId := Some 1;
                       continued_allThreadsContinued := Some true |}]
    stopped.

(** The attached process, stopped by the pause that follows the attach. *)
Definition attachedStopped : Debugger :=
  execute world [EventStopped stoppedOnThread1] attached.

End Examples.

(** ** Further methods of [Debugger] *)

Section FurtherMethods.

Variable W : World.

(** [getThreads] (lines 272-275) *)
Definition getThreads : M ThreadCollection.t :=
  _ensureDebugSession false ;;
  d <- get ;;
  ret (_threads d).

End FurtherMethods.

(** The two messages of [_ensureDebugSession] (lines 1148 and 1156). *)
Definition noSessionMessage : string := "There is no active debugging session.".

Definition notRunningMessage : string :=
  "The program is not yet running (use 'run' to start it).".

(** The program is yet to run: the state is Initializing or Configuring. *)
Definition beforeRun (d : Debugger) : Prop :=
  _state d = INITIALIZING \/ _state d = CONFIGURING.

(** [m] never leaves the process. *)
Definition neverExits {A : Type} (m : M A) : Prop :=
  forall d c d', m d <> (Exit c, d').

(** [m] never throws. *)
Definition neverThrows {A : Type} (m : M A) : Prop :=
  forall d e d', m d <> (Throw e, d').

Definition isLaunch (l : Label) : bool :=
  match l with CallLaunch _ => true | _ => false end.

(** The commands and events whose code assigns no session state; the
    continue command is apart: it assigns one only through the
    configuration it hands over to. *)
Definition keepsState (l : Label) : bool :=
  match l with
  | CallLaunch _ | CallRelaunch | CallRun | CallContinue
  | EventInitialized | EventStopped _ | EventExited _ | EventTerminated
  | EventAdapterExited => false
  | _ => true
  end.

(** The labels of a program that is stepped through: the commands that
    resume it and whatever assigns no state. *)
Definition resumes (l : Label) : bool :=
  match l with
  | CallContinue => true
  | _ => keepsState l
  end.

(** The events of the session whose handlers do not depend on how the
    thread collection fails: the handlers of the continued and thread
    events call its operations outside a [try]. *)
Definition isGuardedEvent (l : Label) : bool :=
  match l with
  | EventInitialized | EventOutput _ | EventStopped _
  | EventExited _ | EventTerminated | EventAdapterExited
  | EventBreakpoint _ | EventCustom _ => true
  | _ => false
  end.

(** The commands and events whose code can reach [process.exit]. *)
Definition reachesExit (l : Label) : bool :=
  match l with
  | CallLaunch _ | CallRelaunch | CallRun | CallContinue
  | EventInitialized | EventExited _ | EventTerminated | EventAdapterExited => true
  | _ => false
  end.

(** The requests that set breakpoints. *)
Definition isBreakpointRequest (r : Request) : bool :=
  match r with
  | ReqSetBreakpoints _ _ | ReqSetFunctionBreakpoints _ => true
  | _ => false
  end.

(** Since [d0], the requests sent are all among [Q]. *)
Definition sentSince (Q : Request -> bool) (d0 d : Debugger) : Prop :=
  exists l, sentRequests d = (l ++ sentRequests d0)%list /\ forallb Q l = true.

(** The requests that end the configuration of a launched program, newest
    first: [configurationDone] is for the adapters that support it. *)
Definition configurationRequests (capabilities : Capabilities) : list Request :=
  ReqThreads
  :: (if truthy (supportsConfigurationDoneRequest capabilities)
      then [ReqConfigurationDone] else [])
  ++ [ReqSetExceptionBreakpoints].

(** ** Further sessions for the examples *)

Module FurtherScenario.

(** An adapter that rejects the disconnect request. *)
Definition busy : World :=
  {| respond := fun _ r =>
       match r with
       | ReqDisconnect => inl "busy"
       | _ => inr (Scenario.answer r)
       end;
     readFile := fun _ => None;
     uriBaseName := fun path => path |}.

(** An adapter that supports function breakpoints and rejects every
    request that sets them. *)
Definition rejectingFunctions : World :=
  {| respond := fun _ r =>
       match r with
       | ReqInitialize =>
           inr (RespInitialize
                  (Some {| supportsConfigurationDoneRequest := None;
                           supportsFunctionBreakpoints := Some true;
                           supportsReadyForEvaluationsEvent := None |}))
       | ReqSetFunctionBreakpoints _ => inl "no such function"
       | _ => inr (Scenario.answer r)
       end;
     readFile := fun _ => None;
     uriBaseName := fun path => path |}.

(** Launch, set a function breakpoint before the program starts, run (the
    run command throws), and disable the breakpoint. *)
Definition functionBreakpointDisabled : Debugger :=
  execute rejectingFunctions
    [CallLaunch Scenario.launching; EventInitialized; CallSetFunctionBreakpoint "main";
     CallRun; CallSetBreakpointEnabled 1 false]
    (newDebugger []).

End FurtherScenario.

(** ** Reasoning about the monad *)

Unset Implicit Arguments.

Lemma SessionState_eqb_eq (a b : SessionState) :
  SessionState_eqb a b = true <-> a = b.
Proof. destruct a, b; simpl; split; intro H; try reflexivity; discriminate H. Qed.

Lemma bind_Ret {A B : Type} (m : M A) (k : A -> M B) (d d1 : Debugger) (a : A) :
  m d = (Ret a, d1) -> bind m k d = k a d1.
Proof. unfold bind; intros ->; reflexivity. Qed.

Lemma bind_Throw {A B : Type} (m : M A) (k : A -> M B) (d d1 : Debugger) (e : string) :
  m d = (Throw e, d1) -> bind m k d = (Throw e, d1).
Proof. unfold bind; intros ->; reflexivity. Qed.

Lemma bind_Exit {A B : Type} (m : M A) (k : A -> M B) (d d1 : Debugger) (c : Z) :
  m d = (Exit c, d1) -> bind m k d = (Exit c, d1).
Proof. unfold bind; intros ->; reflexivity. Qed.

(** A computation that returns went through a first part that returned. *)
Lemma bind_inv_Ret {A B : Type} (m : M A) (k : A -> M B) (d d' : Debugger) (b : B) :
  bind m k d = (Ret b, d') ->
  exists a d1, m d = (Ret a, d1) /\ k a d1 = (Ret b, d').
Proof.
  unfold bind; destruct (m d) as [[a | e | c] d1]; intro H; try discriminate H.
  exists a, d1; split; [reflexivity | exact H].
Qed.

Section Preservation.

Variable P : Debugger -> Prop.

Lemma preserves_ret {A : Type} (a : A) : preserves P (ret a).
Proof. intros d H; exact H. Qed.

Lemma preserves_get : preserves P get.
Proof. intros d H; exact H. Qed.

Lemma preserves_throw {A : Type} (e : string) : preserves P (@throw A e).
Proof. intros d H; exact H. Qed.

Lemma preserves_modify (f : Debugger -> Debugger) :
  (forall d, P d -> P (f d)) -> preserves P (modify f).
Proof. intros Hf d H; simpl; apply Hf, H. Qed.

Lemma preserves_bind {A B : Type} (m : M A) (k : A -> M B) :
  preserves P m -> (forall a, preserves P (k a)) -> preserves P (bind m k).
Proof.
  intros Hm Hk d H; unfold bind.
  specialize (Hm d H); destruct (m d) as [[a | e | c] d1]; simpl in *; auto.
  apply Hk, Hm.
Qed.

Lemma preserves_try_catch {A : Type} (m : M A) (h : string -> M A) :
  preserves P m -> (forall e, preserves P (h e)) -> preserves P (try_catch m h).
Proof.
  intros Hm Hh d H; unfold try_catch.
  specialize (Hm d H); destruct (m d) as [[a | e | c] d1]; simpl in *; auto.
  apply Hh, Hm.
Qed.

Lemma preserves_detached (m : M unit) : preserves P m -> preserves P (detached m).
Proof.
  intros Hm d H; unfold detached.
  specialize (Hm d H); destruct (m d) as [[a | e | c] d1]; simpl in *; auto.
Qed.

Lemma preserves_discard {A : Type} (m : M A) : preserves P m -> preserves P (discard m).
Proof. intro Hm; apply preserves_bind; [exact Hm | intro; apply preserves_ret]. Qed.

Lemma preserves_nullthrows {A : Type} (o : option A) : preserves P (nullthrows o).
Proof. destruct o; [apply preserves_ret | apply preserves_throw]. Qed.

Lemma preserves_invariant (b : bool) (msg : string) : preserves P (invariant b msg).
Proof. destruct b; [apply preserves_ret | apply preserves_throw]. Qed.

Lemma preserves_forEach {A : Type} (f : A -> M unit) (l : list A) :
  (forall x, preserves P (f x)) -> preserves P (forEach f l).
Proof.
  intro Hf; induction l as [| x rest IH]; simpl.
  - apply preserves_ret.
  - apply preserves_bind; [apply Hf | intro; exact IH].
Qed.

Lemma preserves_mapM {A B : Type} (f : A -> M B) (l : list A) :
  (forall x, preserves P (f x)) -> preserves P (mapM f l).
Proof.
  intro Hf; induction l as [| x rest IH]; simpl.
  - apply preserves_ret.
  - apply preserves_bind; [apply Hf | intro].
    apply preserves_bind; [exact IH | intro; apply preserves_ret].
Qed.

Lemma preserves_promiseAll (tasks : list (M unit)) :
  Forall (preserves P) tasks -> preserves P (promiseAll tasks).
Proof.
  induction 1 as [| task rest Htask _ IH]; simpl.
  - apply preserves_ret.
  - intros d H. specialize (Htask d H).
    destruct (task d) as [[a | e | c] d1]; simpl in *; auto.
    specialize (IH d1 Htask).
    destruct (promiseAll rest d1) as [[a | e' | c] d2]; simpl in *; auto.
Qed.

End Preservation.

(** ** What the methods leave alone *)

Lemma preserves_send (W : World) (P : Debugger -> Prop) (r : Request) :
  (forall e d, isExit e = false -> P d -> P (emit e d)) -> preserves P (send W r).
Proof.
  intros Hemit d H; unfold send.
  destruct (respond W (sentRequests d) r); simpl; apply Hemit; auto.
Qed.

Lemma preserves_process_exit (A : Type) (P : Debugger -> Prop) :
  (forall d, P d -> P (emit (ProcessExit 0) d)) -> preserves P (@process_exit A 0).
Proof. intros Hexit d H; simpl; auto. Qed.

Create HintDb frame.

(** The premises of the lemmas of this section, for a property at hand. *)
Ltac stable := solve [ auto | intros; cbn in *; auto ].

Ltac frame_step :=
  lazymatch goal with
  | |- preserves _ (ret _) => apply preserves_ret
  | |- preserves _ get => apply preserves_get
  | |- preserves _ (throw _) => apply preserves_throw
  | |- preserves _ (nullthrows _) => apply preserves_nullthrows
  | |- preserves _ (invariant _ _) => apply preserves_invariant
  | |- preserves _ (send _ _) => apply preserves_send; stable
  | |- preserves _ (process_exit _) => apply preserves_process_exit; stable
  | |- preserves _ (modify _) =>
      apply preserves_modify; solve [ intros; eauto | intros; cbn in *; auto ]
  | |- preserves _ (detached _) => apply preserves_detached
  | |- preserves _ (discard _) => apply preserves_discard
  | |- preserves _ (bind _ _) => apply preserves_bind; [ | intro ]
  | |- preserves _ (try_catch _ _) => apply preserves_try_catch; [ | intro ]
  | |- preserves _ (forEach _ _) => apply preserves_forEach; intro
  | |- preserves _ (mapM _ _) => apply preserves_mapM; intro
  | |- preserves _ (let _ := _ in _) => cbv zeta
  | |- preserves _ (if ?b then _ else _) => destruct b
  | |- preserves _ (match ?x with _ => _ end) => destruct x
  | |- _ => solve [ auto with frame | intros ? ?; cbn; auto ]
  end.

Ltac frame := repeat frame_step.

(** A property of the debugger that no assignment but those to
    [_readyForEvaluations] can break, nor an effect other than leaving the
    process with a status that is not zero, and that [createSession] keeps,
    is kept by every method, hence along every execution. *)
Section Frame.

Variable W : World.
Variable P : Debugger -> Prop.

Hypothesis P_capabilities : forall v d, P d -> P (set_capabilities v d).
Hypothesis P_debugSession : forall v d, P d -> P (set_debugSession v d).
Hypothesis P_activeThread : forall v d, P d -> P (set_activeThread v d).
Hypothesis P_threads : forall v d, P d -> P (set_threads v d).
Hypothesis P_sourceFiles : forall v d, P d -> P (set_sourceFiles v d).
Hypothesis P_state : forall v d, P d -> P (set_state v d).
Hypothesis P_breakpoints : forall v d, P d -> P (set_breakpoints v d).
Hypothesis P_adapter : forall v d, P d -> P (set_adapter v d).
Hypothesis P_attachMode : forall v d, P d -> P (set_attachMode v d).
Hypothesis P_attached : forall v d, P d -> P (set_attached v d).
Hypothesis P_configured : forall v d, P d -> P (set_configured v d).
Hypothesis P_stoppedAt : forall v d, P d -> P (set_stoppedAtBreakpointId v d).
Hypothesis P_inputEnabled : forall v d, P d -> P (set_inputEnabled v d).
Hypothesis P_emit : forall e d, isExit e = false -> P d -> P (emit e d).
Hypothesis P_exit0 : forall d, P d -> P (emit (ProcessExit 0) d).
Hypothesis P_readyTrue : forall d, P d -> P (set_readyForEvaluations true d).
Hypothesis P_createSession : forall adapter, preserves P (createSession W adapter).

Lemma preserves_startInput : preserves P startInput.
Proof. unfold startInput; frame. Qed.

Lemma preserves_stopInput : preserves P stopInput.
Proof. unfold stopInput; frame. Qed.

Lemma preserves_outputLine (s : string) : preserves P (outputLine s).
Proof. unfold outputLine; frame. Qed.

Lemma preserves_output (s : string) : preserves P (output s).
Proof. unfold output; frame. Qed.

Lemma preserves_stderr_write (s : string) : preserves P (stderr_write s).
Proof. unfold stderr_write; frame. Qed.

Lemma preserves_updateBreakpoints (what : string)
    (f : BreakpointCollection.t -> option BreakpointCollection.t) :
  preserves P (updateBreakpoints what f).
Proof. unfold updateBreakpoints; frame. Qed.

Lemma preserves_updateThreadCollection (f : ThreadCollection.t -> ThreadCollection.t) :
  preserves P (updateThreadCollection f).
Proof. unfold updateThreadCollection; frame. Qed.

Lemma preserves_ensureDebugSession (b : bool) : preserves P (_ensureDebugSession b).
Proof. unfold _ensureDebugSession; frame. Qed.

Hint Resolve preserves_startInput preserves_stopInput preserves_outputLine
  preserves_output preserves_stderr_write preserves_updateBreakpoints
  preserves_updateThreadCollection preserves_ensureDebugSession : core.

Lemma preserves_getBreakpointByIndex (i : Z) : preserves P (getBreakpointByIndex i).
Proof. unfold getBreakpointByIndex; frame. Qed.

Lemma preserves_breakpoint_setEnabled (i : Z) (e : bool) :
  preserves P (breakpoint_setEnabled i e).
Proof. unfold breakpoint_setEnabled; frame. Qed.

Lemma preserves_getActiveThread : preserves P getActiveThread.
Proof. unfold getActiveThread; frame. Qed.

Lemma preserves_getStackTrace (t l : Z) : preserves P (getStackTrace W t l).
Proof. unfold getStackTrace, expectStackTrace; frame. Qed.

Hint Resolve preserves_getBreakpointByIndex preserves_breakpoint_setEnabled
  preserves_getActiveThread preserves_getStackTrace : core.

Lemma preserves_setSelectedStackFrame (t : Z) (i : nat) :
  preserves P (setSelectedStackFrame W t i).
Proof. unfold setSelectedStackFrame; frame. Qed.

Lemma preserves_getCurrentStackFrame : preserves P (getCurrentStackFrame W).
Proof. unfold getCurrentStackFrame; frame. Qed.

Lemma preserves_getSourceByReference (r : Z) : preserves P (_getSourceByReference W r).
Proof. unfold _getSourceByReference, expectSource; frame. Qed.

Hint Resolve preserves_getCurrentStackFrame preserves_getSourceByReference : core.

Lemma preserves_getFileDataByPath (p : string) : preserves P (getFileDataByPath W p).
Proof. unfold getFileDataByPath; frame. Qed.

Lemma preserves_getFileDataBySourceReference (r : Z) :
  preserves P (getFileDataBySourceReference W r).
Proof. unfold getFileDataBySourceReference; frame. Qed.

Hint Resolve preserves_getFileDataByPath preserves_getFileDataBySourceReference : core.

Lemma preserves_getSourceLines (s : Source) (a b : Z) : preserves P (getSourceLines W s a b).
Proof. unfold getSourceLines, sourceLines; frame. Qed.

Lemma preserves_updateBreakpoint (l : Breakpoint) (r : option AdapterBreakpoint) :
  preserves P (_updateBreakpoint l r).
Proof. unfold _updateBreakpoint; frame. Qed.

Hint Resolve preserves_getSourceLines preserves_updateBreakpoint : core.

Lemma preserves_reconcile (l : list (Breakpoint * option AdapterBreakpoint)) :
  preserves P (reconcile l).
Proof. unfold reconcile; frame. Qed.

Hint Resolve preserves_reconcile : core.

Lemma preserves_setSourceBreakpointsForPath (p : string) (i : option Z) :
  preserves P (_setSourceBreakpointsForPath W p i).
Proof. unfold _setSourceBreakpointsForPath, expectBreakpoints; frame. Qed.

Lemma preserves_setFunctionBreakpoints (i : Z) : preserves P (_setFunctionBreakpoints W i).
Proof. unfold _setFunctionBreakpoints, expectBreakpoints; frame. Qed.

Lemma preserves_resetAllFunctionBreakpoints : preserves P (_resetAllFunctionBreakpoints W).
Proof. unfold _resetAllFunctionBreakpoints, expectBreakpoints; frame. Qed.

Hint Resolve preserves_setSourceBreakpointsForPath preserves_setFunctionBreakpoints
  preserves_resetAllFunctionBreakpoints : core.

Lemma preserves_resetAllBreakpoints : preserves P (_resetAllBreakpoints W).
Proof.
  unfold _resetAllBreakpoints.
  apply preserves_bind; [auto | intros _].
  apply preserves_bind; [apply preserves_get | intro d0].
  apply preserves_promiseAll, Forall_app; split.
  - apply Forall_forall; intros task Hin.
    apply in_map_iff in Hin; destruct Hin as [entry [<- _]].
    unfold expectBreakpoints; frame.
  - constructor; [auto | constructor].
Qed.

Lemma preserves_cacheThreads : preserves P (_cacheThreads W).
Proof. unfold _cacheThreads, expectThreads; frame. Qed.

Lemma preserves_pauseAfterAttach : preserves P (_pauseAfterAttach W).
Proof. unfold _pauseAfterAttach; frame. Qed.

Hint Resolve preserves_resetAllBreakpoints preserves_cacheThreads
  preserves_pauseAfterAttach : core.

Lemma preserves_configurationDone : preserves P (_configurationDone W).
Proof. unfold _configurationDone; frame. Qed.

Lemma preserves_closeSession : preserves P (closeSession W).
Proof. unfold closeSession, SourceFileCache.flush; frame. Qed.

Hint Resolve preserves_configurationDone preserves_closeSession : core.

Lemma preserves_relaunch_session (a : ParsedVSAdapter) :
  preserves P (relaunch_session W a).
Proof. unfold relaunch_session; frame. Qed.

Hint Resolve preserves_relaunch_session : core.

Lemma preserves_relaunch : preserves P (relaunch W).
Proof. unfold relaunch; frame. Qed.

Hint Resolve preserves_relaunch : core.

Lemma preserves_launch (a : ParsedVSAdapter) : preserves P (launch W a).
Proof. unfold launch; frame. Qed.

Lemma preserves_startConfigurationInput : preserves P _startConfigurationInput.
Proof. unfold _startConfigurationInput; frame. Qed.

Hint Resolve preserves_startConfigurationInput : core.

Lemma preserves_onReadyForEvaluations : preserves P _onReadyForEvaluations.
Proof. unfold _onReadyForEvaluations; frame. Qed.

Lemma preserves_onInitialized : preserves P (_onInitialized W).
Proof. unfold _onInitialized; frame. Qed.

Lemma preserves_run : preserves P (run W).
Proof. unfold run; frame. Qed.

Lemma preserves_breakInto : preserves P (breakInto W).
Proof. unfold breakInto; frame. Qed.

Lemma preserves_stepIn : preserves P (stepIn W).
Proof. unfold stepIn; frame. Qed.

Lemma preserves_stepOver : preserves P (stepOver W).
Proof. unfold stepOver; frame. Qed.

Lemma preserves_continue_try : preserves P (continue_try W).
Proof. unfold continue_try; frame. Qed.

Hint Resolve preserves_continue_try : core.

Lemma preserves_continue : preserves P (continue W).
Proof. unfold continue; frame. Qed.

Lemma preserves_addBreakpoint (f : BreakpointCollection.t -> Z * BreakpointCollection.t) :
  preserves P (addBreakpoint f).
Proof. unfold addBreakpoint; frame. Qed.

Hint Resolve preserves_addBreakpoint : core.

Lemma preserves_setSourceBreakpoint (p : string) (l : Z) :
  preserves P (setSourceBreakpoint W p l).
Proof. unfold setSourceBreakpoint; frame. Qed.

Lemma preserves_setFunctionBreakpoint (f : string) : preserves P (setFunctionBreakpoint W f).
Proof. unfold setFunctionBreakpoint; frame. Qed.

Lemma preserves_setAllBreakpointsEnabled (e : bool) :
  preserves P (setAllBreakpointsEnabled W e).
Proof. unfold setAllBreakpointsEnabled; frame. Qed.

Lemma preserves_setBreakpointEnabled (i : Z) (e : bool) :
  preserves P (setBreakpointEnabled W i e).
Proof. unfold setBreakpointEnabled; frame. Qed.

Lemma preserves_toggleAllBreakpoints : preserves P (toggleAllBreakpoints W).
Proof. unfold toggleAllBreakpoints; frame. Qed.

Lemma preserves_toggleBreakpoint (i : Z) : preserves P (toggleBreakpoint W i).
Proof. unfold toggleBreakpoint; frame. Qed.

Lemma preserves_deleteAllBreakpoints : preserves P (deleteAllBreakpoints W).
Proof.
  unfold deleteAllBreakpoints.
  apply preserves_bind; [auto | intros _].
  apply preserves_bind; [apply preserves_get | intro d0].
  apply preserves_bind; [ | intros _; frame ].
  apply preserves_promiseAll, Forall_forall; intros task Hin.
  apply in_map_iff in Hin; destruct Hin as [path [<- _]]; frame.
Qed.

Lemma preserves_deleteBreakpoint (i : Z) : preserves P (deleteBreakpoint W i).
Proof. unfold deleteBreakpoint; frame. Qed.

Lemma preserves_evaluateExpression (e : string) : preserves P (evaluateExpression W e).
Proof. unfold evaluateExpression; frame. Qed.

Lemma preserves_onOutput (e : OutputEvent) : preserves P (_onOutput e).
Proof. unfold _onOutput; frame. Qed.

Lemma preserves_onContinued (e : ContinuedEvent) : preserves P (_onContinued e).
Proof. unfold _onContinued; frame. Qed.

Lemma preserves_getTopOfStackSourceInfo (t : Z) : preserves P (_getTopOfStackSourceInfo W t).
Proof. unfold _getTopOfStackSourceInfo; frame. Qed.

Lemma preserves_setFocusThread (t : Z) : preserves P (setFocusThread t).
Proof. unfold setFocusThread; frame. Qed.

Hint Resolve preserves_getTopOfStackSourceInfo preserves_setFocusThread : core.

Lemma preserves_onStopped (e : StoppedEvent) : preserves P (_onStopped W e).
Proof. unfold _onStopped; frame. Qed.

Lemma preserves_onThread (e : ThreadEvent) : preserves P (_onThread W e).
Proof. unfold _onThread; frame. Qed.

Lemma preserves_onExitedDebugee (c : Z) : preserves P (_onExitedDebugee W c).
Proof. unfold _onExitedDebugee; frame. Qed.

Lemma preserves_onTerminatedDebugee : preserves P (_onTerminatedDebugee W).
Proof. unfold _onTerminatedDebugee; frame. Qed.

Lemma preserves_onAdapterExited : preserves P (_onAdapterExited W).
Proof. unfold _onAdapterExited; frame. Qed.

Lemma preserves_onBreakpointEvent (e : BreakpointEvent) : preserves P (_onBreakpointEvent e).
Proof. unfold _onBreakpointEvent; frame. Qed.

Lemma preserves_onCustomEvent (e : string) : preserves P (_onCustomEvent e).
Proof. unfold _onCustomEvent; frame; apply preserves_onReadyForEvaluations. Qed.

(** Every command and every event handler keeps [P]. *)
Lemma preserves_step (l : Label) : preserves P (step W l).
Proof.
  destruct l; simpl;
    try apply preserves_discard; try apply preserves_detached;
    auto using preserves_launch, preserves_run, preserves_breakInto,
      preserves_stepIn, preserves_stepOver, preserves_continue,
      preserves_setSelectedStackFrame, preserves_setSourceBreakpoint,
      preserves_setFunctionBreakpoint, preserves_setAllBreakpointsEnabled,
      preserves_setBreakpointEnabled, preserves_toggleAllBreakpoints,
      preserves_toggleBreakpoint, preserves_deleteAllBreakpoints,
      preserves_deleteBreakpoint, preserves_evaluateExpression,
      preserves_onInitialized, preserves_onOutput, preserves_onContinued,
      preserves_onStopped, preserves_onThread, preserves_onExitedDebugee,
      preserves_onTerminatedDebugee, preserves_onAdapterExited,
      preserves_onBreakpointEvent, preserves_onCustomEvent.
Qed.

(** So [P] holds all along an execution that starts where it holds. *)
Lemma preserves_execute (ls : list Label) (d : Debugger) :
  P d -> P (execute W ls d).
Proof.
  revert d; induction ls as [| l rest IH]; intros d H; simpl; [exact H |].
  pose proof (preserves_step l d H) as Hl.
  destruct (step W l d) as [[a | e | c] d1]; simpl in Hl; auto.
Qed.

End Frame.

(** [createSession] keeps a property that no assignment it makes can
    break. *)
Section FrameCreateSession.

Variable W : World.
Variable P : Debugger -> Prop.

Hypothesis P_capabilities : forall v d, P d -> P (set_capabilities v d).
Hypothesis P_debugSession : forall v d, P d -> P (set_debugSession v d).
Hypothesis P_threads : forall v d, P d -> P (set_threads v d).
Hypothesis P_readyForEvaluations : forall v d, P d -> P (set_readyForEvaluations v d).
Hypothesis P_inputEnabled : forall v d, P d -> P (set_inputEnabled v d).
Hypothesis P_emit : forall e d, isExit e = false -> P d -> P (emit e d).

Lemma preserves_createSession (adapter : ParsedVSAdapter) :
  preserves P (createSession W adapter).
Proof.
  unfold createSession, stopInput, _ensureDebugSession, expectInitialize; frame.
Qed.

End FrameCreateSession.

(** The same lemmas, for a property at hand. *)
#[export] Hint Extern 1 (preserves _ (_ensureDebugSession _)) =>
  apply preserves_ensureDebugSession; stable : frame.
#[export] Hint Extern 1 (preserves _ startInput) =>
  apply preserves_startInput; stable : frame.
#[export] Hint Extern 1 (preserves _ stopInput) =>
  apply preserves_stopInput; stable : frame.
#[export] Hint Extern 1 (preserves _ (outputLine _)) =>
  apply preserves_outputLine; stable : frame.
#[export] Hint Extern 1 (preserves _ (stderr_write _)) =>
  apply preserves_stderr_write; stable : frame.
#[export] Hint Extern 1 (preserves _ (updateThreadCollection _)) =>
  apply preserves_updateThreadCollection; stable : frame.
#[export] Hint Extern 1 (preserves _ (setFocusThread _)) =>
  apply preserves_setFocusThread; stable : frame.
#[export] Hint Extern 1 (preserves _ (_getTopOfStackSourceInfo _ _)) =>
  apply preserves_getTopOfStackSourceInfo; stable : frame.
#[export] Hint Extern 1 (preserves _ (_pauseAfterAttach _)) =>
  apply preserves_pauseAfterAttach; stable : frame.
#[export] Hint Extern 1 (preserves _ (_resetAllBreakpoints _)) =>
  apply preserves_resetAllBreakpoints; stable : frame.
#[export] Hint Extern 1 (preserves _ (_cacheThreads _)) =>
  apply preserves_cacheThreads; stable : frame.
#[export] Hint Extern 1 (preserves _ (closeSession _)) =>
  apply preserves_closeSession; stable : frame.
#[export] Hint Extern 1 (preserves _ (getActiveThread)) =>
  apply preserves_getActiveThread; stable : frame.

(** ** Source listing *)

Lemma sliceSourceLines_beyond (lines : list string) (start length : Z) :
  start > Z.of_nat (List.length lines) -> sliceSourceLines lines start length = [].
Proof.
  intro H; unfold sliceSourceLines.
  destruct (Z.gtb_spec start (Z.of_nat (List.length lines))); [reflexivity | lia].
Qed.

Lemma sliceSourceLines_spec (lines : list string) (start length : Z) :
  1 <= start -> 0 <= length ->
  sliceSourceLines lines start length = specSourceLines lines start length.
Proof.
  intros Hs Hl; unfold sliceSourceLines, specSourceLines, js_slice, span.
  set (total := Z.of_nat (List.length lines)).
  destruct (Z.gtb_spec start total) as [Hgt | Hle]; [reflexivity |].
  assert (Hneg1 : (start - 1 <? 0) = false) by (apply Z.ltb_ge; lia).
  assert (Hneg2 : (Z.min (start + length - 1) total <? 0) = false)
    by (apply Z.ltb_ge; lia).
  rewrite Hneg1, Hneg2.
  replace (Z.min (Z.min (start + length - 1) total) total)
    with (Z.min (start - 1 + length) total) by lia.
  replace (Z.min (start - 1) total) with (start - 1) by lia.
  rewrite Z2Nat.inj_sub by lia; reflexivity.
Qed.

(** The session check and a request neither end the process nor, the check,
    change the debugger. *)
Lemma ensureDebugSession_cases (b : bool) (d : Debugger) :
  (exists s, _ensureDebugSession b d = (Ret s, d)) \/
  (exists e, _ensureDebugSession b d = (Throw e, d)).
Proof.
  unfold _ensureDebugSession, bind, get, ret, throw.
  destruct (_debugSession d); [| right; eauto].
  match goal with |- context [if ?c then _ else _] => destruct c end;
    [right | left]; eauto.
Qed.

Lemma send_cases (W : World) (r : Request) (d : Debugger) :
  (exists resp, send W r d = (Ret resp, emit (Send r) d)) \/
  (exists e, send W r d = (Throw e, emit (Send r) d)).
Proof.
  unfold send; destruct (respond W (sentRequests d) r); [right | left]; eauto.
Qed.

(** The look-ups of the source cache always produce lines. *)
Lemma getSourceByReference_returns (W : World) (r : Z) (d : Debugger) :
  exists content d', _getSourceByReference W r d = (Ret content, d').
Proof.
  unfold _getSourceByReference, try_catch, bind.
  destruct (ensureDebugSession_cases false d) as [[s ->] | [e ->]];
    [| unfold ret; eauto].
  destruct (send_cases W (ReqSource r) d) as [[resp ->] | [e ->]];
    [| unfold ret; eauto].
  destruct resp; unfold expectSource, ret, throw; eauto.
Qed.

Lemma sourceLines_returns (W : World) (source : Source) (d : Debugger) :
  exists lines d', sourceLines W source d = (Ret lines, d').
Proof.
  assert (Hpath : forall p, exists lines d', getFileDataByPath W p d = (Ret lines, d')).
  { intro p; unfold getFileDataByPath, bind, get, ret, modify.
    destruct (SourceFileCache.lookup _ _); [eauto |].
    destruct (readFile W p); eauto. }
  assert (Href : forall r, exists lines d',
             getFileDataBySourceReference W r d = (Ret lines, d')).
  { intro r; unfold getFileDataBySourceReference, bind, get.
    destruct (SourceFileCache.lookup _ _); [unfold ret; eauto |].
    destruct (getSourceByReference_returns W r d) as (content & d' & ->).
    unfold modify, ret; eauto. }
  unfold sourceLines.
  destruct (source_sourceReference source) as [r |].
  - destruct (negb (r =? 0)); [apply Href |].
    destruct (source_path source); [apply Hpath | unfold ret; eauto].
  - destruct (source_path source); [apply Hpath | unfold ret; eauto].
Qed.

(** C8.  For every source, start and length, [getSourceLines] returns: once
    the lines of the source are there, the result is empty whenever [start]
    exceeds their number, and for a 1-based [start] and a length that is
    not negative it is the slice from [start - 1] up to
    [min (start - 1 + length) totalLines] (all lines from [start] on when
    the length exceeds the file). *)
Theorem getSourceLines_slice (W : World) (d : Debugger) (source : Source)
    (start length : Z) :
  (exists lines d', sourceLines W source d = (Ret lines, d')) /\
  forall lines d', sourceLines W source d = (Ret lines, d') ->
    (start > Z.of_nat (List.length lines) ->
     getSourceLines W source start length d = (Ret [], d')) /\
    (1 <= start -> 0 <= length ->
     getSourceLines W source start length d
     = (Ret (specSourceLines lines start length), d')) /\
    (1 <= start -> Z.of_nat (List.length lines) < start + length ->
     getSourceLines W source start length d
     = (Ret (skipn (Z.to_nat (start - 1)) lines), d')).
Proof.
  split; [apply sourceLines_returns |].
  intros lines d' Hlines; unfold getSourceLines.
  rewrite bind_Ret with (1 := Hlines); unfold ret.
  split; [| split].
  - intro H; rewrite sliceSourceLines_beyond by exact H; reflexivity.
  - intros Hs Hl; rewrite sliceSourceLines_spec by assumption; reflexivity.
  - intros Hs Hl.
    destruct (Z_gt_le_dec start (Z.of_nat (List.length lines))) as [Hgt | Hle].
    + rewrite sliceSourceLines_beyond by exact Hgt.
      rewrite skipn_all2 by lia; reflexivity.
    + rewrite sliceSourceLines_spec by lia.
      unfold specSourceLines, span.
      destruct (Z.gtb_spec start (Z.of_nat (List.length lines))); [lia |].
      replace (Z.min (start - 1 + length) (Z.of_nat (List.length lines)))
        with (Z.of_nat (List.length lines)) by lia.
      rewrite Nat2Z.id, firstn_all2; [reflexivity |].
      rewrite length_skipn; lia.
Qed.

(** ** The breakpoint reconciler *)

Lemma updateItems_lookup (i : Z) (f : Breakpoint -> Breakpoint) (l : list Breakpoint)
    (b : Breakpoint) :
  (forall x, bp_index (f x) = bp_index x) ->
  find (fun x => bp_index x =? i) l = Some b ->
  find (fun x => bp_index x =? i) (BreakpointCollection.updateItems i f l) = Some (f b).
Proof.
  intros Hf; induction l as [| x rest IH]; simpl; [discriminate |].
  destruct (bp_index x =? i) eqn:E; simpl.
  - intro H; injection H as <-. rewrite Hf, E; reflexivity.
  - rewrite E; exact IH.
Qed.

Lemma updateItems_lookup_other (i j : Z) (f : Breakpoint -> Breakpoint)
    (l : list Breakpoint) :
  (forall x, bp_index (f x) = bp_index x) -> i <> j ->
  find (fun x => bp_index x =? j) (BreakpointCollection.updateItems i f l)
  = find (fun x => bp_index x =? j) l.
Proof.
  intros Hf Hij; induction l as [| x rest IH]; simpl; [reflexivity |].
  destruct (bp_index x =? i) eqn:E; simpl.
  - rewrite Hf. apply Z.eqb_eq in E.
    destruct (bp_index x =? j) eqn:E'; [apply Z.eqb_eq in E'; congruence | reflexivity].
  - destruct (bp_index x =? j); [reflexivity | exact IH].
Qed.

Lemma sameButBreakpoints_refl (d : Debugger) : sameButBreakpoints d d.
Proof. destruct d; reflexivity. Qed.

Lemma sameButBreakpoints_trans (d1 d2 d3 : Debugger) :
  sameButBreakpoints d1 d2 -> sameButBreakpoints d2 d3 -> sameButBreakpoints d1 d3.
Proof. unfold sameButBreakpoints; intros H12 H23; rewrite H23, H12; reflexivity. Qed.

(** An update of a stored breakpoint succeeds, replaces that breakpoint and
    leaves the others and the rest of the debugger as they were. *)
Lemma updateBreakpoints_stored (what : string) (i : Z) (f : Breakpoint -> Breakpoint)
    (d : Debugger) (b : Breakpoint) :
  (forall x, bp_index (f x) = bp_index x) ->
  stored i d = Some b ->
  exists d',
    updateBreakpoints what (BreakpointCollection.update i f) d = (Ret tt, d') /\
    stored i d' = Some (f b) /\
    (forall j, i <> j -> stored j d' = stored j d) /\
    sameButBreakpoints d d'.
Proof.
  intros Hf Hb; unfold updateBreakpoints, bind, get, BreakpointCollection.update.
  unfold stored in Hb; rewrite Hb; unfold modify.
  eexists; split; [reflexivity |]; unfold stored; simpl.
  split; [| split].
  - apply updateItems_lookup; assumption.
  - intros j Hij; apply updateItems_lookup_other; assumption.
  - reflexivity.
Qed.

Lemma returns_ret {A : Type} (Pre : Debugger -> Prop) (a : A)
    (Post : A -> Debugger -> Prop) :
  (forall d, Pre d -> Post a d) -> returns Pre (ret a) Post.
Proof. intros H d Hd; exists a, d; split; [reflexivity | apply H, Hd]. Qed.

Lemma returns_bind {A B : Type} (Pre : Debugger -> Prop) (m : M A)
    (Mid : A -> Debugger -> Prop) (k : A -> M B) (Post : B -> Debugger -> Prop) :
  returns Pre m Mid -> (forall a, returns (Mid a) (k a) Post) ->
  returns Pre (bind m k) Post.
Proof.
  intros Hm Hk d Hd.
  destruct (Hm d Hd) as (a & d1 & Hrun & Hmid).
  destruct (Hk a d1 Hmid) as (b & d' & Hrun' & Hpost).
  exists b, d'; split; [| exact Hpost].
  rewrite bind_Ret with (1 := Hrun); exact Hrun'.
Qed.

Lemma returns_updateBreakpoints (what : string) (i : Z) (f : Breakpoint -> Breakpoint)
    (b : Breakpoint) (d0 : Debugger) :
  (forall x, bp_index (f x) = bp_index x) ->
  returns (held i b d0)
    (updateBreakpoints what (BreakpointCollection.update i f))
    (fun _ => held i (f b) d0).
Proof.
  intros Hf d (Hb & Ho & Hs).
  destruct (updateBreakpoints_stored what i f d b Hf Hb) as (d' & Hrun & Hb' & Ho' & Hs').
  exists tt, d'; split; [exact Hrun |].
  split; [exact Hb' | split].
  - intros j Hij; rewrite Ho' by exact Hij; apply Ho, Hij.
  - eapply sameButBreakpoints_trans; eassumption.
Qed.

Lemma held_start (i : Z) (b : Breakpoint) (d : Debugger) :
  stored i d = Some b -> held i b d d.
Proof.
  intro H; split; [exact H | split; [reflexivity | apply sameButBreakpoints_refl]].
Qed.

Lemma returns_skip {A : Type} (Pre : Debugger -> Prop) (a : A) :
  returns Pre (ret a) (fun _ => Pre).
Proof. apply returns_ret; auto. Qed.

Ltac reconcile_step :=
  lazymatch goal with
  | |- returns _ (bind _ _) _ =>
      eapply returns_bind; [ reconcile_step | intros ?; cbv beta; reconcile_step ]
  | |- returns _ (updateBreakpoints _ _) _ =>
      apply returns_updateBreakpoints; intro; reflexivity
  | |- returns _ (ret tt) _ => apply returns_skip
  end.

Ltac reconcile_steps :=
  repeat lazymatch goal with
         | |- returns _ (bind _ _) _ =>
             eapply returns_bind; [ reconcile_step | intros ?; cbv beta ]
         end.

(** What [_updateBreakpoint] does to a breakpoint of the collection and to
    the adapter's breakpoint. *)
Lemma updateBreakpoint_records (d : Debugger) (local : Breakpoint)
    (remote : AdapterBreakpoint) :
  stored (bp_index local) d = Some local ->
  exists remote' d' b',
    _updateBreakpoint local (Some remote) d = (Ret remote', d') /\
    held (bp_index local) b' d d' /\
    (forall id, ab_id remote = Some id ->
       bp_id b' = Some id /\
       (forall v, ab_verified remote = Some v -> bp_verified b' = v)) /\
    (ab_id remote = None -> bp_verified b' = true) /\
    (forall func source path line,
       bp_func local = Some func -> ab_source remote = Some source ->
       source_path source = Some path -> ab_line remote = Some line ->
       bp_kind b' = FunctionBreakpoint func (Some path) (Some line)) /\
    (bp_func local = None -> bp_kind b' = bp_kind local) /\
    (truthy (ab_verified remote) = false ->
     ab_message remote = None \/ ab_message remote = Some "" ->
     remote' = ab_with_message couldNotSetMessage remote /\
     ab_message remote' = Some couldNotSetMessage) /\
    (truthy (ab_verified remote) = true \/
     (exists m, ab_message remote = Some m /\ m <> "") ->
     remote' = remote) /\
    bp_message b' = bp_message local /\
    bp_enabled b' = bp_enabled local.
Proof.
  intro Hstored.
  cut (returns (held (bp_index local) local d) (_updateBreakpoint local (Some remote))
         (fun remote' d' => exists b',
            held (bp_index local) b' d d' /\
            (forall id, ab_id remote = Some id ->
               bp_id b' = Some id /\
               (forall v, ab_verified remote = Some v -> bp_verified b' = v)) /\
            (ab_id remote = None -> bp_verified b' = true) /\
            (forall func source path line,
               bp_func local = Some func -> ab_source remote = Some source ->
               source_path source = Some path -> ab_line remote = Some line ->
               bp_kind b' = FunctionBreakpoint func (Some path) (Some line)) /\
            (bp_func local = None -> bp_kind b' = bp_kind local) /\
            (truthy (ab_verified remote) = false ->
             ab_message remote = None \/ ab_message remote = Some "" ->
             remote' = ab_with_message couldNotSetMessage remote /\
             ab_message remote' = Some couldNotSetMessage) /\
            (truthy (ab_verified remote) = true \/
             (exists m, ab_message remote = Some m /\ m <> "") ->
             remote' = remote) /\
            bp_message b' = bp_message local /\
            bp_enabled b' = bp_enabled local)).
  { intro H. destruct (H d (held_start _ _ _ Hstored)) as (r & d' & Hrun & b' & Hb').
    exists r, d', b'; split; assumption. }
  clear Hstored.
  destruct local as [index kind enabled lid lverified lmessage].
  destruct remote as [rid rverified rmessage rsource rline].
  unfold _updateBreakpoint, bp_func; cbn [bp_index bp_kind ab_id ab_verified ab_message
    ab_source ab_line].
  destruct rid as [id |], rverified as [[|] |], kind as [p l | f rp rl],
    rsource as [[sp sn sr] |], rline as [line |];
    try destruct sp as [path |];
    cbn [source_path truthy negb andb];
    reconcile_steps;
    (destruct rmessage as [m |]; [destruct (String.eqb_spec m "") as [-> | Hm] |]);
    cbn [negb andb];
    apply returns_ret; intros d' Hheld;
    (eexists; split; [exact Hheld |]);
    cbn [bp_id bp_verified bp_kind bp_message bp_enabled bp_setId bp_setVerified
         bp_setPathAndLine ab_with_message ab_message];
    repeat split; intros;
    repeat match goal with
           | H : _ \/ _ |- _ => destruct H
           | H : exists _, _ |- _ => destruct H
           | H : _ /\ _ |- _ => destruct H
           | H : Some _ = Some _ |- _ => inversion H; clear H; subst
           end;
    cbn [source_path] in *;
    congruence.
Qed.


(** The result of [_updateBreakpoint] is the adapter's breakpoint, with the
    message made up when it lacks one. *)
Lemma updateBreakpoint_hands_back (local : Breakpoint) (remote : AdapterBreakpoint)
    (d d' : Debugger) (r : AdapterBreakpoint) :
  _updateBreakpoint local (Some remote) d = (Ret r, d') -> r = handedBack remote.
Proof.
  unfold _updateBreakpoint; cbv zeta; intro H.
  do 2 (apply bind_inv_Ret in H; destruct H as (? & ? & _ & H)).
  unfold handedBack.
  destruct (negb (truthy (ab_verified remote)) && _); injection H as <- _; reflexivity.
Qed.

(** The pairs the reconciler returns: each local breakpoint with the
    breakpoint the adapter returned at its position, as handed back. *)
Lemma reconcile_hands_back (locals : list Breakpoint) :
  forall (remotes : list AdapterBreakpoint) (d d' : Debugger)
         (paired : list (Breakpoint * AdapterBreakpoint)),
    reconcile (pairWith locals remotes) d = (Ret paired, d') ->
    paired = map (fun p => (fst p, handedBack (snd p))) (combine locals remotes).
Proof.
  unfold reconcile.
  induction locals as [| local rest IH]; intros remotes d d' paired H; simpl in H.
  - injection H as <- _; reflexivity.
  - apply bind_inv_Ret in H; destruct H as (y & d1 & Hfirst & H).
    apply bind_inv_Ret in H; destruct H as (ys & d2 & Hrest & H).
    injection H as <- _.
    apply bind_inv_Ret in Hfirst; destruct Hfirst as (r & d0 & Hupdate & Hfirst).
    injection Hfirst as <- _.
    destruct remotes as [| remote remotes]; [discriminate Hupdate |].
    simpl in Hupdate, Hrest |- *.
    rewrite (updateBreakpoint_hands_back _ _ _ _ _ Hupdate).
    rewrite (IH _ _ _ _ Hrest); reflexivity.
Qed.

Lemma find_handed_back (index : Z) (l : list (Breakpoint * AdapterBreakpoint)) :
  find (fun p => bp_index (fst p) =? index)
    (map (fun p => (fst p, handedBack (snd p))) l)
  = option_map (fun p => (fst p, handedBack (snd p)))
      (find (fun p => bp_index (fst p) =? index) l).
Proof.
  induction l as [| p rest IH]; simpl; [reflexivity |].
  destruct (bp_index (fst p) =? index); [reflexivity | exact IH].
Qed.

(** What [_setSourceBreakpointsForPath] hands back for the breakpoint of
    interest. *)
Lemma setSourceBreakpointsForPath_hands_back (W : World) (path : string) (index : Z)
    (d d' : Debugger) (result : option AdapterBreakpoint) :
  _setSourceBreakpointsForPath W path (Some index) d = (Ret result, d') ->
  exists remotes,
    respond W (sentRequests d)
      (ReqSetBreakpoints path
         (map bp_line
            (BreakpointCollection.getAllEnabledBreakpointsForSource path
               (_breakpoints d))))
    = inr (RespBreakpoints remotes) /\
    result
    = option_map (fun p => handedBack (snd p))
        (find (fun p => bp_index (fst p) =? index)
           (combine
              (BreakpointCollection.getAllEnabledBreakpointsForSource path
                 (_breakpoints d))
              remotes)).
Proof.
  unfold _setSourceBreakpointsForPath; intro H.
  rewrite bind_Ret with (a := d) (d1 := d) in H by reflexivity; cbv zeta in H.
  apply bind_inv_Ret in H; destruct H as (resp & d1 & Hsend & H).
  apply bind_inv_Ret in H; destruct H as (remotes & d2 & Hexpect & H).
  apply bind_inv_Ret in H; destruct H as (paired & d3 & Hreconcile & H).
  injection H as <- _.
  unfold send in Hsend.
  destruct (respond W (sentRequests d) _) as [e | resp'] eqn:E;
    [discriminate Hsend | injection Hsend as <- _].
  destruct resp'; try discriminate Hexpect.
  injection Hexpect as <- _.
  eexists; split; [reflexivity |].
  rewrite (reconcile_hands_back _ _ _ _ _ Hreconcile).
  unfold ofInterest; rewrite find_handed_back.
  destruct (find _ (combine _ _)); reflexivity.
Qed.

Lemma handedBack_explains (remote : AdapterBreakpoint) :
  truthy (ab_verified (handedBack remote)) = false ->
  exists m, ab_message (handedBack remote) = Some m /\ m <> "".
Proof.
  unfold handedBack.
  destruct (truthy (ab_verified remote)) eqn:Hv; cbn [negb andb];
    [intro H; rewrite Hv in H; discriminate H | intros _].
  destruct (ab_message remote) as [m |] eqn:Hm.
  - destruct (String.eqb_spec m "") as [-> | Hne].
    + exists couldNotSetMessage; split; [reflexivity | discriminate].
    + exists m; split; [exact Hm | exact Hne].
  - exists couldNotSetMessage; split; [reflexivity | discriminate].
Qed.

(** C3, as amended.  When a local breakpoint, stored under its index, is
    paired with the breakpoint the adapter returned for it,
    [_updateBreakpoint] returns and, changing nothing but that breakpoint
    of the collection: the returned id is recorded, and with it the
    returned verified flag; without an id the breakpoint is marked
    verified; a function breakpoint gets the returned source path and
    line when both are there; and if the returned breakpoint is not
    verified and has no message (none, or an empty one) the message is
    substituted on the adapter's breakpoint, which is the result -- not on
    the local breakpoint, whose message, like its enabled flag, stays.
    And when [_setSourceBreakpointsForPath] returns, what it hands back
    for the breakpoint of interest is that result: the breakpoint the
    adapter returned at the position of the first enabled breakpoint of
    the path with that index, with the substituted message when it is not
    verified and brought none; so a breakpoint handed back unverified
    carries a message that is not empty. *)
Theorem updateBreakpoint_reconciles (W : World) (d : Debugger) (local : Breakpoint)
    (remote : AdapterBreakpoint) :
  (stored (bp_index local) d = Some local ->
   exists remote' d' b',
     _updateBreakpoint local (Some remote) d = (Ret remote', d') /\
     held (bp_index local) b' d d' /\
     (forall id, ab_id remote = Some id ->
        bp_id b' = Some id /\
        (forall v, ab_verified remote = Some v -> bp_verified b' = v)) /\
     (ab_id remote = None -> bp_verified b' = true) /\
     (forall func source path line,
        bp_func local = Some func -> ab_source remote = Some source ->
        source_path source = Some path -> ab_line remote = Some line ->
        bp_kind b' = FunctionBreakpoint func (Some path) (Some line)) /\
     (bp_func local = None -> bp_kind b' = bp_kind local) /\
     (truthy (ab_verified remote) = false ->
      ab_message remote = None \/ ab_message remote = Some "" ->
      remote' = ab_with_message couldNotSetMessage remote /\
      ab_message remote' = Some couldNotSetMessage) /\
     (truthy (ab_verified remote) = true \/
      (exists m, ab_message remote = Some m /\ m <> "") ->
      remote' = remote) /\
     bp_message b' = bp_message local /\
     bp_enabled b' = bp_enabled local /\
     remote' = handedBack remote) /\
  (forall path index result d',
     _setSourceBreakpointsForPath W path (Some index) d = (Ret result, d') ->
     exists remotes,
       respond W (sentRequests d)
         (ReqSetBreakpoints path
            (map bp_line
               (BreakpointCollection.getAllEnabledBreakpointsForSource path
                  (_breakpoints d))))
       = inr (RespBreakpoints remotes) /\
       result
       = option_map (fun p => handedBack (snd p))
           (find (fun p => bp_index (fst p) =? index)
              (combine
                 (BreakpointCollection.getAllEnabledBreakpointsForSource path
                    (_breakpoints d))
                 remotes)) /\
       (forall r, result = Some r -> truthy (ab_verified r) = false ->
                  exists m, ab_message r = Some m /\ m <> "")).
Proof.
  split.
  - intro Hstored.
    destruct (updateBreakpoint_records d local remote Hstored)
      as (remote' & d' & b' & Hrun & H1 & H2 & H3 & H4 & H5 & H6 & H7 & H8 & H9).
    exists remote', d', b'.
    repeat match goal with |- _ /\ _ => split end; try assumption.
    exact (updateBreakpoint_hands_back _ _ _ _ _ Hrun).
  - intros path index result d' H.
    destruct (setSourceBreakpointsForPath_hands_back W path index d d' result H)
      as (remotes & Hresp & Hresult).
    exists remotes; split; [exact Hresp | split; [exact Hresult |]].
    intros r Hr; rewrite Hresult in Hr.
    destruct (find _ _) as [p |]; [| discriminate Hr].
    injection Hr as <-; apply handedBack_explains.
Qed.

(** ** Enabling and disabling a breakpoint *)

Lemma getBreakpointByIndex_stored (i : Z) (b : Breakpoint) (d : Debugger) :
  stored i d = Some b -> getBreakpointByIndex i d = (Ret b, d).
Proof.
  unfold stored, getBreakpointByIndex, bind, get; intros ->; reflexivity.
Qed.

Lemma breakpoint_setEnabled_stored (i : Z) (e : bool) (b : Breakpoint) (d : Debugger) :
  stored i d = Some b ->
  exists d1, breakpoint_setEnabled i e d = (Ret tt, d1) /\
             held i (bp_setEnabled e b) d d1.
Proof.
  intro Hb; unfold breakpoint_setEnabled, BreakpointCollection.setEnabled.
  destruct (returns_updateBreakpoints ("#" ++ string_of_Z i) i (bp_setEnabled e) b d
              (fun x => eq_refl) d (held_start i b d Hb)) as ([] & d1 & Hrun & Hheld).
  exists d1; split; assumption.
Qed.

Lemma updateItems_enabled (i j : Z) (f : Breakpoint -> Breakpoint) (l : list Breakpoint) :
  (forall x, bp_index (f x) = bp_index x) ->
  (forall x, bp_enabled (f x) = bp_enabled x) ->
  option_map bp_enabled
    (find (fun x => bp_index x =? j) (BreakpointCollection.updateItems i f l))
  = option_map bp_enabled (find (fun x => bp_index x =? j) l).
Proof.
  intros Hi He; induction l as [| x rest IH]; simpl; [reflexivity |].
  destruct (bp_index x =? i) eqn:E; simpl.
  - rewrite Hi. destruct (bp_index x =? j); simpl; [rewrite He |]; reflexivity.
  - destruct (bp_index x =? j); simpl; [reflexivity | exact IH].
Qed.

(** The reconciler does not touch enabled flags. *)
Lemma preserves_enabled_update (j : Z) (e : bool) (what : string) (i : Z)
    (f : Breakpoint -> Breakpoint) :
  (forall x, bp_index (f x) = bp_index x) ->
  (forall x, bp_enabled (f x) = bp_enabled x) ->
  preserves (enabledIs j e) (updateBreakpoints what (BreakpointCollection.update i f)).
Proof.
  intros Hi He d H; unfold updateBreakpoints, bind, get, BreakpointCollection.update.
  destruct (BreakpointCollection.getBreakpointByIndex i (_breakpoints d)); simpl;
    [| exact H].
  unfold enabledIs, stored, BreakpointCollection.getBreakpointByIndex in *; simpl.
  rewrite updateItems_enabled by assumption; exact H.
Qed.

Lemma preserves_enabled_updateBreakpoint (j : Z) (e : bool) (local : Breakpoint)
    (remote : option AdapterBreakpoint) :
  preserves (enabledIs j e) (_updateBreakpoint local remote).
Proof.
  unfold _updateBreakpoint.
  repeat lazymatch goal with
         | |- preserves _ (bind _ _) => apply preserves_bind; [ | intro ]
         | |- preserves _ (ret _) => apply preserves_ret
         | |- preserves _ (throw _) => apply preserves_throw
         | |- preserves _ (updateBreakpoints _ _) =>
             apply preserves_enabled_update; intro; reflexivity
         | |- preserves _ (if ?c then _ else _) => destruct c
         | |- preserves _ (match ?x with _ => _ end) => destruct x
         end.
Qed.

Lemma enabledIs_emit (j : Z) (e : bool) (x : Effect) (d : Debugger) :
  enabledIs j e d -> enabledIs j e (emit x d).
Proof. intro H; exact H. Qed.

Lemma preserves_enabled_setSourceBreakpointsForPath (W : World) (j : Z) (e : bool)
    (path : string) (indexOfInterest : option Z) :
  preserves (enabledIs j e) (_setSourceBreakpointsForPath W path indexOfInterest).
Proof.
  unfold _setSourceBreakpointsForPath, reconcile, expectBreakpoints.
  apply preserves_bind; [apply preserves_get | intro d0; cbv zeta].
  apply preserves_bind.
  { intros d H; unfold send.
    destruct (respond W (sentRequests d) _); simpl; apply enabledIs_emit, H. }
  intro r; apply preserves_bind;
    [destruct r; first [apply preserves_ret | apply preserves_throw] | intro l].
  apply preserves_bind; [| intro; apply preserves_ret].
  apply preserves_mapM; intro pr.
  apply preserves_bind; [apply preserves_enabled_updateBreakpoint | intro; apply preserves_ret].
Qed.

Lemma enabledIs_stored (i : Z) (e : bool) (d : Debugger) :
  enabledIs i e d -> exists b, stored i d = Some b /\ bp_enabled b = e.
Proof.
  unfold enabledIs; destruct (stored i d) as [b |]; simpl; [| discriminate].
  intro H; injection H as H; exists b; split; [reflexivity | exact H].
Qed.

Lemma held_enabledIs (i : Z) (b : Breakpoint) (d0 d : Debugger) :
  held i b d0 d -> enabledIs i (bp_enabled b) d.
Proof. intros (H & _); unfold enabledIs; rewrite H; reflexivity. Qed.

Lemma held_sentRequests (i : Z) (b : Breakpoint) (d0 d : Debugger) :
  held i b d0 d -> sentRequests d = sentRequests d0.
Proof. intros (_ & _ & H); rewrite H; reflexivity. Qed.

(** When the request is rejected, so is [_setSourceBreakpointsForPath], with
    the adapter's error and nothing changed but the trace. *)
Lemma setSourceBreakpointsForPath_rejected (W : World) (path : string)
    (indexOfInterest : option Z) (e : string) (d : Debugger) :
  (forall lines, respond W (sentRequests d) (ReqSetBreakpoints path lines) = inl e) ->
  exists lines,
    _setSourceBreakpointsForPath W path indexOfInterest d
    = (Throw e, emit (Send (ReqSetBreakpoints path lines)) d).
Proof.
  intro H.
  exists (map bp_line
            (BreakpointCollection.getAllEnabledBreakpointsForSource path (_breakpoints d))).
  unfold _setSourceBreakpointsForPath, bind, get, send; rewrite H; reflexivity.
Qed.

Lemma negb_of_eqb_false (a b : bool) : Bool.eqb a b = false -> negb b = a.
Proof. destruct a, b; simpl; intro H; try reflexivity; discriminate H. Qed.

Lemma setBreakpointEnabled_restores (W : World) (d : Debugger) (index : Z)
    (enabled : bool) (b : Breakpoint) (p : string) :
  stored index d = Some b -> bp_path b = Some p ->
  forall e d', setBreakpointEnabled W index enabled d = (Throw e, d') ->
               enabledIs index (bp_enabled b) d'.
Proof.
  intros Hb Hp e d'; unfold setBreakpointEnabled.
  destruct (ensureDebugSession_cases false d) as [[s Hs] | [e0 Hs]].
  2: { rewrite bind_Throw with (1 := Hs); intro H; injection H as _ <-.
       unfold enabledIs; rewrite Hb; reflexivity. }
  rewrite bind_Ret with (1 := Hs).
  rewrite bind_Ret with (1 := getBreakpointByIndex_stored index b d Hb).
  cbv zeta; rewrite Hp.
  destruct (Bool.eqb (bp_enabled b) enabled) eqn:E; [discriminate |].
  destruct (breakpoint_setEnabled_stored index enabled b d Hb) as (d1 & Hrun1 & Hheld1).
  rewrite bind_Ret with (1 := Hrun1); unfold try_catch.
  pose proof (preserves_enabled_setSourceBreakpointsForPath W index enabled p
                (Some index) d1 (held_enabledIs _ _ _ _ Hheld1)) as Hkept.
  destruct (_setSourceBreakpointsForPath W p (Some index) d1) as [[r | e2 | c] d2] eqn:Hrun2;
    simpl in Hkept.
  - rewrite bind_Ret with (1 := Hrun2); discriminate.
  - rewrite bind_Throw with (1 := Hrun2).
    destruct (enabledIs_stored _ _ _ Hkept) as (b2 & Hb2 & _).
    destruct (breakpoint_setEnabled_stored index (negb enabled) b2 d2 Hb2)
      as (d3 & Hrun3 & Hheld3).
    rewrite bind_Ret with (1 := Hrun3); intro H; injection H as _ <-.
    apply held_enabledIs in Hheld3; simpl in Hheld3.
    rewrite (negb_of_eqb_false _ _ E) in Hheld3; exact Hheld3.
  - rewrite bind_Exit with (1 := Hrun2); discriminate.
Qed.

Lemma toggleBreakpoint_restores (W : World) (d : Debugger) (index : Z)
    (b : Breakpoint) (p : string) :
  stored index d = Some b -> bp_path b = Some p ->
  forall e d', toggleBreakpoint W index d = (Throw e, d') ->
               enabledIs index (bp_enabled b) d'.
Proof.
  intros Hb Hp e d'; unfold toggleBreakpoint.
  destruct (ensureDebugSession_cases false d) as [[s Hs] | [e0 Hs]].
  2: { rewrite bind_Throw with (1 := Hs); intro H; injection H as _ <-.
       unfold enabledIs; rewrite Hb; reflexivity. }
  rewrite bind_Ret with (1 := Hs).
  rewrite bind_Ret with (1 := getBreakpointByIndex_stored index b d Hb).
  cbv zeta; rewrite Hp.
  destruct (breakpoint_setEnabled_stored index (negb (bp_enabled b)) b d Hb)
    as (d1 & Hrun1 & Hheld1).
  rewrite bind_Ret with (1 := Hrun1); unfold try_catch.
  pose proof (preserves_enabled_setSourceBreakpointsForPath W index (negb (bp_enabled b)) p
                (Some index) d1 (held_enabledIs _ _ _ _ Hheld1)) as Hkept.
  destruct (_setSourceBreakpointsForPath W p (Some index) d1) as [[r | e2 | c] d2] eqn:Hrun2;
    simpl in Hkept.
  - rewrite bind_Ret with (1 := Hrun2); discriminate.
  - rewrite bind_Throw with (1 := Hrun2).
    destruct (enabledIs_stored _ _ _ Hkept) as (b2 & Hb2 & He2).
    rewrite bind_Ret with (1 := getBreakpointByIndex_stored index b2 d2 Hb2).
    destruct (breakpoint_setEnabled_stored index (negb (bp_enabled b2)) b2 d2 Hb2)
      as (d3 & Hrun3 & Hheld3).
    rewrite bind_Ret with (1 := Hrun3); intro H; injection H as _ <-.
    apply held_enabledIs in Hheld3; simpl in Hheld3.
    rewrite He2, negb_involutive in Hheld3; exact Hheld3.
  - rewrite bind_Exit with (1 := Hrun2); discriminate.
Qed.

(** With a session that runs, a rejection of the request does reach the
    caller, as the adapter's error. *)
Lemma setBreakpointEnabled_rejected (W : World) (d : Debugger) (index : Z)
    (enabled : bool) (b : Breakpoint) (p : string) (s : VsDebugSession) (e : string) :
  stored index d = Some b -> bp_path b = Some p ->
  _ensureDebugSession false d = (Ret s, d) ->
  bp_enabled b <> enabled ->
  (forall lines, respond W (sentRequests d) (ReqSetBreakpoints p lines) = inl e) ->
  exists d', setBreakpointEnabled W index enabled d = (Throw e, d').
Proof.
  intros Hb Hp Hs Hne Hrej; unfold setBreakpointEnabled.
  rewrite bind_Ret with (1 := Hs).
  rewrite bind_Ret with (1 := getBreakpointByIndex_stored index b d Hb).
  cbv zeta; rewrite Hp.
  destruct (Bool.eqb (bp_enabled b) enabled) eqn:E;
    [apply Bool.eqb_prop in E; contradiction |].
  destruct (breakpoint_setEnabled_stored index enabled b d Hb) as (d1 & Hrun1 & Hheld1).
  rewrite bind_Ret with (1 := Hrun1); unfold try_catch.
  rewrite <- (held_sentRequests _ _ _ _ Hheld1) in Hrej.
  destruct (setSourceBreakpointsForPath_rejected W p (Some index) e d1 Hrej)
    as (lines & Hrun2).
  rewrite bind_Throw with (1 := Hrun2).
  destruct Hheld1 as (Hb1 & _).
  destruct (breakpoint_setEnabled_stored index (negb enabled) _
              (emit (Send (ReqSetBreakpoints p lines)) d1) Hb1) as (d3 & Hrun3 & _).
  rewrite bind_Ret with (1 := Hrun3); eexists; reflexivity.
Qed.

Lemma toggleBreakpoint_rejected (W : World) (d : Debugger) (index : Z)
    (b : Breakpoint) (p : string) (s : VsDebugSession) (e : string) :
  stored index d = Some b -> bp_path b = Some p ->
  _ensureDebugSession false d = (Ret s, d) ->
  (forall lines, respond W (sentRequests d) (ReqSetBreakpoints p lines) = inl e) ->
  exists d', toggleBreakpoint W index d = (Throw e, d').
Proof.
  intros Hb Hp Hs Hrej; unfold toggleBreakpoint.
  rewrite bind_Ret with (1 := Hs).
  rewrite bind_Ret with (1 := getBreakpointByIndex_stored index b d Hb).
  cbv zeta; rewrite Hp.
  destruct (breakpoint_setEnabled_stored index (negb (bp_enabled b)) b d Hb)
    as (d1 & Hrun1 & Hheld1).
  rewrite bind_Ret with (1 := Hrun1); unfold try_catch.
  rewrite <- (held_sentRequests _ _ _ _ Hheld1) in Hrej.
  destruct (setSourceBreakpointsForPath_rejected W p (Some index) e d1 Hrej)
    as (lines & Hrun2).
  rewrite bind_Throw with (1 := Hrun2).
  destruct Hheld1 as (Hb1 & _).
  assert (Hb2 : stored index (emit (Send (ReqSetBreakpoints p lines)) d1)
                = Some (bp_setEnabled (negb (bp_enabled b)) b)) by exact Hb1.
  rewrite bind_Ret with (1 := getBreakpointByIndex_stored index _ _ Hb2).
  destruct (breakpoint_setEnabled_stored index
              (negb (bp_enabled (bp_setEnabled (negb (bp_enabled b)) b))) _ _ Hb2)
    as (d3 & Hrun3 & _).
  rewrite bind_Ret with (1 := Hrun3); eexists; reflexivity.
Qed.

(** C10.  For a breakpoint with a path, stored under [index]: whenever
    [setBreakpointEnabled] or [toggleBreakpoint] throws, the enabled flag
    of the breakpoint is the one it had before the call; a rejection of
    the [setBreakpoints] request is the error that is thrown; and
    [setBreakpointEnabled] with the flag the breakpoint already has changes
    nothing and sends nothing, and returns when the session runs. *)
Theorem setBreakpointEnabled_atomic (W : World) (d : Debugger) (index : Z)
    (b : Breakpoint) (p : string) :
  stored index d = Some b -> bp_path b = Some p ->
  (forall enabled e d',
     setBreakpointEnabled W index enabled d = (Throw e, d') ->
     enabledIs index (bp_enabled b) d') /\
  (forall e d',
     toggleBreakpoint W index d = (Throw e, d') ->
     enabledIs index (bp_enabled b) d') /\
  (forall s e,
     _ensureDebugSession false d = (Ret s, d) ->
     (forall lines, respond W (sentRequests d) (ReqSetBreakpoints p lines) = inl e) ->
     (exists d', setBreakpointEnabled W index (negb (bp_enabled b)) d = (Throw e, d')) /\
     (exists d', toggleBreakpoint W index d = (Throw e, d'))) /\
  snd (setBreakpointEnabled W index (bp_enabled b) d) = d /\
  (forall s, _ensureDebugSession false d = (Ret s, d) ->
             setBreakpointEnabled W index (bp_enabled b) d = (Ret tt, d)).
Proof.
  intros Hb Hp; split; [| split; [| split; [| split]]].
  - intros enabled; apply setBreakpointEnabled_restores with (p := p); assumption.
  - apply toggleBreakpoint_restores with (p := p); assumption.
  - intros s e Hs Hrej; split.
    + apply setBreakpointEnabled_rejected with (b := b) (p := p) (s := s);
        try assumption.
      destruct (bp_enabled b); discriminate.
    + apply toggleBreakpoint_rejected with (b := b) (p := p) (s := s); assumption.
  - unfold setBreakpointEnabled.
    destruct (ensureDebugSession_cases false d) as [[s Hs] | [e0 Hs]].
    + rewrite bind_Ret with (1 := Hs).
      rewrite bind_Ret with (1 := getBreakpointByIndex_stored index b d Hb).
      cbv zeta; rewrite Bool.eqb_reflx; reflexivity.
    + rewrite bind_Throw with (1 := Hs); reflexivity.
  - intros s Hs; unfold setBreakpointEnabled.
    rewrite bind_Ret with (1 := Hs).
    rewrite bind_Ret with (1 := getBreakpointByIndex_stored index b d Hb).
    cbv zeta; rewrite Bool.eqb_reflx; reflexivity.
Qed.

(** ** Launch and relaunch *)

Lemma try_catch_inv_Ret {A : Type} (m : M A) (h : string -> M A) (d d' : Debugger) (a : A) :
  try_catch m h d = (Ret a, d') ->
  m d = (Ret a, d') \/ exists e d1, m d = (Throw e, d1) /\ h e d1 = (Ret a, d').
Proof.
  unfold try_catch; destruct (m d) as [[x | e | c] d1]; intro H;
    [left; exact H | right; exists e, d1; split; [reflexivity | exact H] | discriminate H].
Qed.

Lemma closeSession_flushes (W : World) (d d' : Debugger) :
  closeSession W d = (Ret tt, d') ->
  _sourceFiles d' = match _debugSession d with
                    | Some _ => SourceFileCache.empty
                    | None => _sourceFiles d
                    end.
Proof.
  unfold closeSession, bind at 1, get.
  destruct (_debugSession d).
  - destruct (send_cases W ReqDisconnect d) as [[resp Hs] | [e Hs]].
    + rewrite bind_Ret with (1 := Hs); intro H; injection H as <-; reflexivity.
    + rewrite bind_Throw with (1 := Hs); discriminate.
  - intro H; injection H as <-; reflexivity.
Qed.

(** Whatever becomes of it, [createSession] starts from a new thread
    collection and does not touch the source cache. *)
Lemma createSession_fresh (W : World) (adapter : ParsedVSAdapter) (d : Debugger) :
  freshSession (_sourceFiles d) (snd (createSession W adapter d)).
Proof.
  unfold createSession, stopInput.
  rewrite bind_Ret
    with (a := tt) (d1 := emit StopInput (set_inputEnabled false d)) by reflexivity.
  rewrite bind_Ret
    with (a := tt)
         (d1 := set_threads ThreadCollection.empty
                  (emit StopInput (set_inputEnabled false d))) by reflexivity.
  match goal with
  | |- freshSession ?s (snd (?m ?d2)) =>
      cut (preserves (freshSession s) m);
        [ intro Hm; apply Hm; split; reflexivity | ]
  end.
  unfold _ensureDebugSession, expectInitialize, freshSession; frame.
Qed.

Lemma relaunch_fresh (W : World) (d d' : Debugger) :
  relaunch W d = (Ret tt, d') ->
  freshSession (match _debugSession d with
                | Some _ => SourceFileCache.empty
                | None => _sourceFiles d
                end) d'.
Proof.
  unfold relaunch, bind at 1, get.
  destruct (_adapter d) as [adapter |]; [| discriminate].
  intro H; apply bind_inv_Ret in H; destruct H as (attached & d1 & Hbody & Htail).
  set (S := match _debugSession d with
            | Some _ => SourceFileCache.empty
            | None => _sourceFiles d
            end).
  assert (Hd1 : freshSession S d1).
  { apply try_catch_inv_Ret in Hbody.
    destruct Hbody as [Hbody | (e & d0 & _ & Hexit)]; [| discriminate Hexit].
    unfold relaunch_session in Hbody.
    rewrite bind_Ret with (a := tt) (d1 := set_state INITIALIZING d) in Hbody
      by reflexivity.
    rewrite bind_Ret with (a := tt) (d1 := set_configured false (set_state INITIALIZING d))
      in Hbody by reflexivity.
    rewrite bind_Ret
      with (a := tt)
           (d1 := set_attached false (set_configured false (set_state INITIALIZING d)))
      in Hbody by reflexivity.
    apply bind_inv_Ret in Hbody; destruct Hbody as ([] & dC & Hclose & Hbody).
    apply closeSession_flushes in Hclose; cbn in Hclose; fold S in Hclose.
    apply bind_inv_Ret in Hbody; destruct Hbody as ([] & dS & Hcreate & Hbody).
    pose proof (createSession_fresh W adapter dC) as Hfresh.
    rewrite Hcreate, Hclose in Hfresh; cbn in Hfresh.
    match type of Hbody with
    | ?m dS = _ =>
        assert (Hm : preserves (freshSession S) m)
          by (unfold freshSession; frame)
    end.
    specialize (Hm dS Hfresh); rewrite Hbody in Hm; exact Hm. }
  destruct attached.
  - pose proof (preserves_pauseAfterAttach W (freshSession S)) as Hp.
    unfold freshSession in Hp.
    specialize (Hp ltac:(stable) ltac:(stable) d1 Hd1).
    rewrite Htail in Hp; exact Hp.
  - injection Htail as <-; exact Hd1.
Qed.

Lemma relaunch_keeps_breakpoints (W : World) (d : Debugger) :
  _breakpoints (snd (relaunch W d)) = _breakpoints d.
Proof.
  apply (preserves_relaunch W (fun x => _breakpoints x = _breakpoints d)); try stable.
  intro adapter; apply preserves_createSession; stable.
Qed.

(** C7.  [launch] replaces the breakpoint collection with a new, empty one;
    [relaunch] leaves the collection as it is, every breakpoint with its
    index, path, line and flags; and the session that [relaunch] (hence
    [launch]) sets up has a new thread collection and a source cache that
    was flushed when the session before it was closed. *)
Theorem launch_resets_breakpoints_relaunch_keeps_them (W : World) (d : Debugger) :
  (forall adapter,
     _breakpoints (snd (launch W adapter d)) = BreakpointCollection.empty) /\
  _breakpoints (snd (relaunch W d)) = _breakpoints d /\
  (forall index, stored index (snd (relaunch W d)) = stored index d) /\
  (forall d', relaunch W d = (Ret tt, d') ->
     _threads d' = ThreadCollection.empty /\
     _sourceFiles d' = match _debugSession d with
                       | Some _ => SourceFileCache.empty
                       | None => _sourceFiles d
                       end) /\
  (forall adapter d', launch W adapter d = (Ret tt, d') ->
     _threads d' = ThreadCollection.empty).
Proof.
  split; [| split; [| split; [| split]]].
  - intro adapter; unfold launch.
    rewrite bind_Ret with (a := tt) (d1 := set_adapter (Some adapter) d) by reflexivity.
    rewrite bind_Ret
      with (a := tt)
           (d1 := set_breakpoints BreakpointCollection.empty
                    (set_adapter (Some adapter) d)) by reflexivity.
    apply relaunch_keeps_breakpoints.
  - apply relaunch_keeps_breakpoints.
  - intro index; unfold stored; rewrite relaunch_keeps_breakpoints; reflexivity.
  - intros d' H; exact (relaunch_fresh W d d' H).
  - intros adapter d'; unfold launch.
    rewrite bind_Ret with (a := tt) (d1 := set_adapter (Some adapter) d) by reflexivity.
    rewrite bind_Ret
      with (a := tt)
           (d1 := set_breakpoints BreakpointCollection.empty
                    (set_adapter (Some adapter) d)) by reflexivity.
    intro H; apply relaunch_fresh in H; apply H.
Qed.

(** ** The run command *)

Lemma detached_never_throws (m : M unit) (d : Debugger) (e : string) (d' : Debugger) :
  detached m d <> (Throw e, d').
Proof. unfold detached; destruct (m d) as [[[] | e0 | c] d1]; discriminate. Qed.


(** ** The end of the debuggee *)

Lemma bind_try_modify {A B : Type} (f : Debugger -> Debugger) (m : unit -> M A)
    (h : string -> M A) (k : A -> M B) (d : Debugger) :
  bind (try_catch (bind (modify f) m) h) k d = bind (try_catch (m tt) h) k (f d).
Proof. reflexivity. Qed.

(** With an adapter to relaunch, [relaunch] leaves the state
    Initializing. *)
Lemma relaunch_initializing (W : World) (d : Debugger) (adapter : ParsedVSAdapter) :
  _adapter d = Some adapter -> _state (snd (relaunch W d)) = INITIALIZING.
Proof.
  intro Ha; unfold relaunch, bind at 1, get; rewrite Ha.
  unfold relaunch_session; rewrite bind_try_modify.
  match goal with
  | |- _state (snd (?m ?d1)) = _ =>
      cut (preserves (fun x => _state x = INITIALIZING) m);
        [ intro Hm; apply Hm; reflexivity | ]
  end.
  frame; apply preserves_createSession; stable.
Qed.

Lemma detached_snd (m : M unit) (d : Debugger) : snd (detached m d) = snd (m d).
Proof. unfold detached; destruct (m d) as [[[] | e | c] d1]; reflexivity. Qed.

(** What the handlers of the terminated and exited events do, state by
    state and mode by mode. *)
Lemma ending_events (W : World) (d : Debugger)
    (adapter : ParsedVSAdapter) :
  _adapter d = Some adapter ->
  (_state d = TERMINATED \/ _state d = INITIALIZING \/ _state d = CONFIGURING ->
   _onTerminatedDebugee W d = (Ret tt, d)) /\
  (_state d = RUNNING -> _attachMode d = false ->
   _onTerminatedDebugee W d
   = detached (relaunch W)
       (emit StartInput
          (set_inputEnabled true
             (emit (OutputLine "The target has exited.") (set_state TERMINATED d)))) /\
   _state (snd (_onTerminatedDebugee W d)) = INITIALIZING /\
   _onTerminatedDebugee W (snd (_onTerminatedDebugee W d))
   = (Ret tt, snd (_onTerminatedDebugee W d))) /\
  (_state d = RUNNING -> _attachMode d = true ->
   _onTerminatedDebugee W d
   = (Exit 0,
      emit (ProcessExit 0)
        (emit (OutputLine "The target has exited.") (set_state TERMINATED d)))) /\
  (forall exitCode, _attachMode d = false ->
   _onExitedDebugee W exitCode d
   = detached (relaunch W)
       (emit StartInput
          (set_inputEnabled true
             (emit (OutputLine ("Target exited with status " ++ string_of_Z exitCode))
                (set_state TERMINATED d))))) /\
  (forall exitCode, _attachMode d = true ->
   _onExitedDebugee W exitCode d
   = (Exit 0,
      emit (ProcessExit 0)
        (emit (OutputLine ("Target exited with status " ++ string_of_Z exitCode))
           (set_state TERMINATED d)))).
Proof.
  intro Hadapter.
  assert (Hignored : forall x,
             _state x = TERMINATED \/ _state x = INITIALIZING \/ _state x = CONFIGURING ->
             _onTerminatedDebugee W x = (Ret tt, x)).
  { intros x Hx; unfold _onTerminatedDebugee, bind at 1, get.
    destruct Hx as [-> | [-> | ->]]; reflexivity. }
  assert (Hlaunched : _state d = RUNNING -> _attachMode d = false ->
            _onTerminatedDebugee W d
            = detached (relaunch W)
                (emit StartInput
                   (set_inputEnabled true
                      (emit (OutputLine "The target has exited.")
                         (set_state TERMINATED d))))).
  { intros Hs Hm; unfold _onTerminatedDebugee, bind at 1, get.
    rewrite Hs, Hadapter, Hm; reflexivity. }
  split; [exact (Hignored d) | split; [| split; [| split]]].
  - intros Hs Hm; split; [exact (Hlaunched Hs Hm) |].
    assert (Hinit : _state (snd (_onTerminatedDebugee W d)) = INITIALIZING).
    { rewrite (Hlaunched Hs Hm), detached_snd.
      apply relaunch_initializing with (adapter := adapter); exact Hadapter. }
    split; [exact Hinit | apply Hignored; auto].
  - intros Hs Hm; unfold _onTerminatedDebugee, bind at 1, get.
    rewrite Hs, Hadapter, Hm; reflexivity.
  - intros exitCode Hm; unfold _onExitedDebugee.
    rewrite bind_Ret with (a := tt) (d1 := set_state TERMINATED d) by reflexivity.
    rewrite bind_Ret
      with (a := tt)
           (d1 := emit (OutputLine ("Target exited with status " ++ string_of_Z exitCode))
                    (set_state TERMINATED d)) by reflexivity.
    unfold bind at 1, get; cbn [_adapter _attachMode emit set_effects set_state].
    rewrite Hadapter, Hm; reflexivity.
  - intros exitCode Hm; unfold _onExitedDebugee.
    rewrite bind_Ret with (a := tt) (d1 := set_state TERMINATED d) by reflexivity.
    rewrite bind_Ret
      with (a := tt)
           (d1 := emit (OutputLine ("Target exited with status " ++ string_of_Z exitCode))
                    (set_state TERMINATED d)) by reflexivity.
    unfold bind at 1, get; cbn [_adapter _attachMode emit set_effects set_state].
    rewrite Hadapter, Hm; reflexivity.
Qed.


(** The guard of [_onTerminatedDebugee] lets the event through in the
    state Running only. *)
Lemma terminated_ignored_unless_running (W : World) (d : Debugger) :
  _state d <> RUNNING -> _onTerminatedDebugee W d = (Ret tt, d).
Proof.
  intro Hs; unfold _onTerminatedDebugee, bind at 1, get.
  destruct (_state d); try reflexivity; contradiction.
Qed.

(** C4, on the code.  In the session of the scenario, a launched program
    that runs, the terminated event and the exited event that follows it
    are both processed: two status lines, console input enabled twice, two
    relaunches; [_onExitedDebugee] has no guard and acts whenever it is
    called.  [_onTerminatedDebugee] has a guard, on the state Running and
    not on the state Terminated: in the session stopped at its breakpoint,
    and in the session resumed by [continue] (which leaves the state
    Stopped), the first terminated event is ignored, with no status line,
    no relaunch and the state left Stopped; it is ignored in every state
    but Running.  The last part says what the two handlers do, state by
    state. *)
Theorem terminated_once_exited_always :
  _state Scenario.running = RUNNING /\
  _attachMode Scenario.running = false /\
  rev (effects (execute Scenario.world [EventTerminated; EventExited 0] Scenario.running))
  = (rev (effects Scenario.running)
     ++ [OutputLine "The target has exited."; StartInput; Send ReqDisconnect; StopInput;
         Send ReqInitialize; Send (ReqLaunch "prog.py");
         OutputLine "Target exited with status 0"; StartInput; Send ReqDisconnect;
         StopInput; Send ReqInitialize; Send (ReqLaunch "prog.py")])%list /\
  _state Scenario.stopped = STOPPED /\
  _onTerminatedDebugee Scenario.world Scenario.stopped = (Ret tt, Scenario.stopped) /\
  _state Examples.continued = STOPPED /\
  _onTerminatedDebugee Scenario.world Examples.continued
  = (Ret tt, Examples.continued) /\
  (forall W d, _state d <> RUNNING -> _onTerminatedDebugee W d = (Ret tt, d)) /\
  (forall W d adapter,
     _adapter d = Some adapter ->
     (_state d = TERMINATED \/ _state d = INITIALIZING \/ _state d = CONFIGURING ->
      _onTerminatedDebugee W d = (Ret tt, d)) /\
     (_state d = RUNNING -> _attachMode d = false ->
      _onTerminatedDebugee W d
      = detached (relaunch W)
          (emit StartInput
             (set_inputEnabled true
                (emit (OutputLine "The target has exited.") (set_state TERMINATED d)))) /\
      _state (snd (_onTerminatedDebugee W d)) = INITIALIZING /\
      _onTerminatedDebugee W (snd (_onTerminatedDebugee W d))
      = (Ret tt, snd (_onTerminatedDebugee W d))) /\
     (_state d = RUNNING -> _attachMode d = true ->
      _onTerminatedDebugee W d
      = (Exit 0,
         emit (ProcessExit 0)
           (emit (OutputLine "The target has exited.") (set_state TERMINATED d)))) /\
     (forall exitCode, _attachMode d = false ->
      _onExitedDebugee W exitCode d
      = detached (relaunch W)
          (emit StartInput
             (set_inputEnabled true
                (emit (OutputLine ("Target exited with status " ++ string_of_Z exitCode))
                   (set_state TERMINATED d))))) /\
     (forall exitCode, _attachMode d = true ->
      _onExitedDebugee W exitCode d
      = (Exit 0,
         emit (ProcessExit 0)
           (emit (OutputLine ("Target exited with status " ++ string_of_Z exitCode))
              (set_state TERMINATED d))))).
Proof.
  split; [vm_compute; reflexivity |].
  split; [vm_compute; reflexivity |].
  split; [vm_compute; reflexivity |].
  assert (Hstopped : _state Scenario.stopped = STOPPED) by (vm_compute; reflexivity).
  assert (Hcontinued : _state Examples.continued = STOPPED)
    by (vm_compute; reflexivity).
  split; [exact Hstopped |].
  split; [apply terminated_ignored_unless_running; rewrite Hstopped; discriminate |].
  split; [exact Hcontinued |].
  split; [apply terminated_ignored_unless_running; rewrite Hcontinued; discriminate |].
  split; [exact terminated_ignored_unless_running | exact ending_events].
Qed.

(** ** Leaving the process *)

Lemma leftWithZero_emit (e : Effect) (d : Debugger) :
  isExit e = false -> leftWithZero d -> leftWithZero (emit e d).
Proof.
  intros He H; unfold leftWithZero; cbn; constructor; [| exact H].
  destruct e; trivial; discriminate He.
Qed.

Lemma leftWithZero_exit0 (d : Debugger) :
  leftWithZero d -> leftWithZero (emit (ProcessExit 0) d).
Proof. intro H; unfold leftWithZero; cbn; constructor; [reflexivity | exact H]. Qed.

(** All along an execution the process is left with status 0 only. *)
Lemma leftWithZero_execute (W : World) (ls : list Label) (d : Debugger) :
  leftWithZero d -> leftWithZero (execute W ls d).
Proof.
  apply preserves_execute;
    try exact leftWithZero_emit; try exact leftWithZero_exit0; try stable.
  intro adapter; apply preserves_createSession;
    try exact leftWithZero_emit; stable.
Qed.

(** Where the process is left, and with what status. *)
Lemma exits_with_status_zero (W : World) (d : Debugger)
    (adapter : ParsedVSAdapter) :
  _adapter d = Some adapter ->
  (_attachMode d = true ->
   (forall exitCode, fst (_onExitedDebugee W exitCode d) = Exit 0) /\
   (_state d = RUNNING -> fst (_onTerminatedDebugee W d) = Exit 0) /\
   (_state d <> INITIALIZING -> fst (_onAdapterExited W d) = Exit 0)) /\
  (forall e d1,
     relaunch_session W adapter d = (Throw e, d1) ->
     relaunch W d
     = (Exit 0, emit (ProcessExit 0) (emit (Stderr (failedToDebug e)) d1))) /\
  (forall s d1 r e,
     _ensureDebugSession true d = (Ret s, d) ->
     _resetAllBreakpoints W (set_state RUNNING d) = (Ret tt, d1) ->
     respond W (sentRequests d1) ReqSetExceptionBreakpoints = inr r ->
     truthy (supportsConfigurationDoneRequest (_capabilities d1)) = true ->
     respond W (ReqSetExceptionBreakpoints :: sentRequests d1) ReqConfigurationDone
     = inl e ->
     _configurationDone W d
     = (Exit 0,
        emit (ProcessExit 0)
          (emit (Stderr (failedToDebug e))
             (emit (Send ReqConfigurationDone)
                (emit (Send ReqSetExceptionBreakpoints) d1))))) /\
  (forall ls code,
     leftWithZero d -> In (ProcessExit code) (effects (execute W ls d)) -> code = 0).
Proof.
  intro Hadapter; split; [| split; [| split]].
  - intro Hattach; split; [| split].
    + intro exitCode; unfold _onExitedDebugee.
      rewrite bind_Ret with (a := tt) (d1 := set_state TERMINATED d) by reflexivity.
      rewrite bind_Ret
        with (a := tt)
             (d1 := emit (OutputLine ("Target exited with status " ++ string_of_Z exitCode))
                      (set_state TERMINATED d)) by reflexivity.
      unfold bind at 1, get; cbn [_adapter _attachMode emit set_effects set_state].
      rewrite Hadapter, Hattach; reflexivity.
    + intro Hs; unfold _onTerminatedDebugee, bind at 1, get.
      rewrite Hs, Hadapter, Hattach; reflexivity.
    + intro Hs; unfold _onAdapterExited, bind at 1, get.
      destruct (_state d) eqn:E; try contradiction;
        rewrite Hadapter, Hattach; reflexivity.
  - intros e d1 Hthrow; unfold relaunch, bind at 1, get; rewrite Hadapter.
    unfold bind, try_catch; rewrite Hthrow; reflexivity.
  - intros s d1 r e Hsession Hreset Hexc Hcap Hdone; unfold _configurationDone.
    rewrite bind_Ret with (1 := Hsession).
    rewrite bind_Ret with (a := tt) (d1 := set_state RUNNING d) by reflexivity.
    rewrite bind_Ret with (1 := Hreset).
    rewrite bind_Ret
      with (a := r) (d1 := emit (Send ReqSetExceptionBreakpoints) d1)
      by (unfold send; rewrite Hexc; reflexivity).
    unfold bind at 1, get; cbn [_capabilities emit set_effects]; rewrite Hcap.
    unfold bind, try_catch, send; cbn [sentRequests effects emit set_effects flat_map app].
    fold (sentRequests d1); rewrite Hdone; reflexivity.
  - intros ls code Hzero Hin.
    pose proof (leftWithZero_execute W ls d Hzero) as H.
    unfold leftWithZero in H; rewrite Forall_forall in H.
    exact (H _ Hin).
Qed.


(** C9, on the code.  The session of the scenario is attached to a process
    and stopped by the pause that follows the attach: a terminated event
    returns there without leaving the process, and without a trace:
    [_onTerminatedDebugee] leaves the process in the state Running only,
    and ignores the event in every other state.  While the attached
    process runs, the exited, terminated and adapter-exited events leave
    the process with status 0, and so does [relaunch] when setting up the
    session fails.  The last part: in attach mode the process is left with
    status 0 by an exited event, by a terminated event in the state
    Running and by an adapter-exited event outside the state Initializing;
    by [relaunch] when setting up the session throws, after "Failed to
    debug target: ..." on the error stream; and by [_configurationDone]
    when the adapter supports the configurationDone request and rejects
    it; and no execution leaves the process with another status. *)
Theorem process_exits_with_status_zero :
  _adapter Examples.attachedStopped = Some Scenario.attaching /\
  _attachMode Examples.attachedStopped = true /\
  _state Examples.attachedStopped = STOPPED /\
  existsb isExit (effects Examples.attachedStopped) = false /\
  _onTerminatedDebugee Scenario.world Examples.attachedStopped
  = (Ret tt, Examples.attachedStopped) /\
  (forall W d, _state d <> RUNNING -> _onTerminatedDebugee W d = (Ret tt, d)) /\
  _attachMode Scenario.attached = true /\
  _state Scenario.attached = RUNNING /\
  fst (_onExitedDebugee Scenario.world 0 Scenario.attached) = Exit 0 /\
  fst (_onTerminatedDebugee Scenario.world Scenario.attached) = Exit 0 /\
  fst (_onAdapterExited Scenario.world Scenario.attached) = Exit 0 /\
  fst (relaunch Scenario.broken Examples.beforeLaunch) = Exit 0 /\
  (forall W d adapter,
     _adapter d = Some adapter ->
     (_attachMode d = true ->
      (forall exitCode, fst (_onExitedDebugee W exitCode d) = Exit 0) /\
      (_state d = RUNNING -> fst (_onTerminatedDebugee W d) = Exit 0) /\
      (_state d <> INITIALIZING -> fst (_onAdapterExited W d) = Exit 0)) /\
     (forall e d1,
        relaunch_session W adapter d = (Throw e, d1) ->
        relaunch W d
        = (Exit 0, emit (ProcessExit 0) (emit (Stderr (failedToDebug e)) d1))) /\
     (forall s d1 r e,
        _ensureDebugSession true d = (Ret s, d) ->
        _resetAllBreakpoints W (set_state RUNNING d) = (Ret tt, d1) ->
        respond W (sentRequests d1) ReqSetExceptionBreakpoints = inr r ->
        truthy (supportsConfigurationDoneRequest (_capabilities d1)) = true ->
        respond W (ReqSetExceptionBreakpoints :: sentRequests d1) ReqConfigurationDone
        = inl e ->
        _configurationDone W d
        = (Exit 0,
           emit (ProcessExit 0)
             (emit (Stderr (failedToDebug e))
                (emit (Send ReqConfigurationDone)
                   (emit (Send ReqSetExceptionBreakpoints) d1))))) /\
     (forall ls code,
        leftWithZero d -> In (ProcessExit code) (effects (execute W ls d)) -> code = 0)).
Proof.
  assert (Hstopped : _state Examples.attachedStopped = STOPPED)
    by (vm_compute; reflexivity).
  split; [vm_compute; reflexivity |].
  split; [vm_compute; reflexivity |].
  split; [exact Hstopped |].
  split; [vm_compute; reflexivity |].
  split; [apply terminated_ignored_unless_running; rewrite Hstopped; discriminate |].
  split; [exact terminated_ignored_unless_running |].
  split; [vm_compute; reflexivity |].
  split; [vm_compute; reflexivity |].
  split; [vm_compute; reflexivity |].
  split; [vm_compute; reflexivity |].
  split; [vm_compute; reflexivity |].
  split; [vm_compute; reflexivity | exact exits_with_status_zero].
Qed.

(** ** Console input and the readyForEvaluations flag *)

Lemma bind_cases {A B : Type} (P : Debugger -> Prop) (m : M A) (k : A -> M B)
    (d : Debugger) :
  preserves P m -> P d ->
  (exists a d1, P d1 /\ bind m k d = k a d1) \/ P (snd (bind m k d)).
Proof.
  intros Hm Hd; specialize (Hm d Hd); unfold bind.
  destruct (m d) as [[a | e | c] d1]; simpl in *; [left; eauto | right .. ]; exact Hm.
Qed.

(** Without the capability, [createSession] leaves the flag raised. *)
Lemma createSession_keeps_ready (W : World) (adapter : ParsedVSAdapter) :
  withoutReadyForEvaluations W ->
  preserves (fun d => _readyForEvaluations d = true) (createSession W adapter).
Proof.
  intros HW d Hd; unfold createSession, stopInput.
  rewrite bind_Ret
    with (a := tt) (d1 := emit StopInput (set_inputEnabled false d)) by reflexivity.
  rewrite bind_Ret
    with (a := tt)
         (d1 := set_threads ThreadCollection.empty
                  (emit StopInput (set_inputEnabled false d))) by reflexivity.
  match goal with
  | |- context [bind (modify ?f) ?k ?d0] =>
      rewrite (@bind_Ret unit unit (modify f) k d0 (f d0) tt) by reflexivity
  end.
  match goal with
  | |- context [bind (_ensureDebugSession true) ?k ?d0] =>
      destruct (ensureDebugSession_cases true d0) as [[s Hs] | [e Hs]];
        [ rewrite bind_Ret with (1 := Hs) | rewrite bind_Throw with (1 := Hs); exact Hd ]
  end.
  match goal with
  | |- context [bind (send W ReqInitialize) ?k ?d0] =>
      unfold bind at 1, send;
        destruct (respond W (sentRequests d0) ReqInitialize) as [e | resp] eqn:E;
        [ exact Hd | ]
  end.
  destruct resp as [| [body |] | | | | |]; cbn; try exact Hd; try reflexivity.
  rewrite (HW _ _ E); reflexivity.
Qed.

Lemma createSession_without_capability (W : World) (adapter : ParsedVSAdapter)
    (d : Debugger) (body : Capabilities) :
  respond W (sentRequests d) ReqInitialize = inr (RespInitialize (Some body)) ->
  truthy (supportsReadyForEvaluationsEvent body) = false ->
  createSession W adapter d
  = (Ret tt,
     set_readyForEvaluations true
       (set_capabilities body
          (set_capabilities noCapabilities
             (emit (Send ReqInitialize)
                (set_debugSession (Some {| session_adapterType := adapter_type adapter |})
                   (set_threads ThreadCollection.empty
                      (emit StopInput (set_inputEnabled false d)))))))).
Proof.
  intros Hresp Hcap; unfold createSession, stopInput.
  rewrite bind_Ret
    with (a := tt) (d1 := emit StopInput (set_inputEnabled false d)) by reflexivity.
  rewrite bind_Ret
    with (a := tt)
         (d1 := set_threads ThreadCollection.empty
                  (emit StopInput (set_inputEnabled false d))) by reflexivity.
  match goal with
  | |- context [bind (modify ?f) ?k ?d0] =>
      rewrite (@bind_Ret unit unit (modify f) k d0 (f d0) tt) by reflexivity
  end.
  match goal with
  | |- context [bind (_ensureDebugSession true) ?k ?d0] =>
      rewrite (@bind_Ret _ _ (_ensureDebugSession true) k d0 d0
                 {| session_adapterType := adapter_type adapter |})
        by (unfold _ensureDebugSession, bind, get; cbn;
            rewrite andb_false_r; reflexivity)
  end.
  match goal with
  | |- context [bind (send W ReqInitialize) ?k ?d0] =>
      rewrite (@bind_Ret _ _ (send W ReqInitialize) k d0
                 (emit (Send ReqInitialize) d0) (RespInitialize (Some body)))
        by (unfold send; change (sentRequests d0) with (sentRequests d);
            rewrite Hresp; reflexivity)
  end.
  cbn; rewrite Hcap; reflexivity.
Qed.

(** So, once raised, the flag stays raised all along an execution. *)
Lemma ready_execute (W : World) (ls : list Label) (d : Debugger) :
  withoutReadyForEvaluations W ->
  _readyForEvaluations d = true -> _readyForEvaluations (execute W ls d) = true.
Proof.
  intro HW; apply (preserves_execute W (fun x => _readyForEvaluations x = true));
    try stable.
  intro adapter; apply createSession_keeps_ready; exact HW.
Qed.

(** ** Evaluation and stepping *)

(** Facts about a session of the scenarios hold by running it. *)
Ltac by_computation :=
  repeat match goal with |- _ /\ _ => split end; vm_compute; reflexivity.


Lemma evaluateExpression_stopped (W : World) (d : Debugger) (expression : string) :
  _state d = STOPPED ->
  evaluateExpression W expression d
  = bind (_ensureDebugSession true)
      (fun _ => send W (ReqEvaluate expression "repl" None)) d.
Proof.
  intro Hs; unfold evaluateExpression.
  destruct (ensureDebugSession_cases true d) as [[s Hd] | [e Hd]].
  - rewrite !bind_Ret with (1 := Hd).
    rewrite bind_Ret with (a := d) (d1 := d) by reflexivity.
    rewrite Hs; reflexivity.
  - rewrite !bind_Throw with (1 := Hd); reflexivity.
Qed.

(** C2, on the code.  In the session of the scenario the program is
    stopped and the selected frame of the focus thread is frame 1000, yet
    the evaluate request, with context "repl", carries no frame id: in the
    state Stopped [evaluateExpression] never attaches one.  It looks for the
    frame in the state Running, where the scenario has no focus thread and
    the call throws; were there a focus thread in that state, its frame id
    would be attached. *)
Theorem evaluate_attaches_frame_when_running_only :
  _state Scenario.stopped = STOPPED /\
  fst (getCurrentStackFrame Scenario.world Scenario.stopped)
  = Ret (Some Scenario.mainFrame) /\
  evaluateExpression Scenario.world "x" Scenario.stopped
  = (Ret (RespEvaluate "7"),
     emit (Send (ReqEvaluate "x" "repl" None)) Scenario.stopped) /\
  (forall W d expression,
     _state d = STOPPED ->
     evaluateExpression W expression d
     = bind (_ensureDebugSession true)
         (fun _ => send W (ReqEvaluate expression "repl" None)) d) /\
  _state Scenario.running = RUNNING /\
  evaluateExpression Scenario.world "x" Scenario.running
  = (Throw "Got unexpected null or undefined", Scenario.running) /\
  evaluateExpression Scenario.world "x" (set_state RUNNING Scenario.stopped)
  = (Ret (RespEvaluate "7"),
     emit (Send (ReqEvaluate "x" "repl" (Some 1000)))
       (emit (Send (ReqStackTrace 1 1)) (set_state RUNNING Scenario.stopped))).
Proof.
  split; [reflexivity |].
  split; [reflexivity |].
  split; [reflexivity |].
  split; [exact evaluateExpression_stopped |].
  split; [reflexivity |].
  split; reflexivity.
Qed.

(** [stepIn] and [stepOver] never touch the console. *)
Lemma step_requests_keep_input (W : World) (d : Debugger) :
  inputEnabled (snd (stepIn W d)) = inputEnabled d /\
  inputEnabled (snd (stepOver W d)) = inputEnabled d.
Proof.
  split.
  - apply (preserves_stepIn W (fun x => inputEnabled x = inputEnabled d)); stable.
  - apply (preserves_stepOver W (fun x => inputEnabled x = inputEnabled d)); stable.
Qed.

(** The [try] block of [continue] hands over to the configuration only in
    attach mode and in the state Configuring. *)
Lemma continue_try_configures (W : World) (d d' : Debugger) :
  continue_try W d = (Ret true, d') -> _state d = CONFIGURING /\ _attachMode d = true.
Proof.
  unfold continue_try, stopInput.
  set (d1 := emit StopInput (set_inputEnabled false d)).
  rewrite bind_Ret with (a := tt) (d1 := d1) by reflexivity.
  destruct (ensureDebugSession_cases true d1) as [[s Hs] | [e Hs]];
    [rewrite bind_Ret with (1 := Hs) | rewrite bind_Throw with (1 := Hs); discriminate].
  rewrite bind_Ret with (a := tt) (d1 := set_stoppedAtBreakpointId None d1)
    by reflexivity.
  rewrite bind_Ret
    with (a := set_stoppedAtBreakpointId None d1) (d1 := set_stoppedAtBreakpointId None d1)
    by reflexivity.
  cbn [_state _attachMode set_stoppedAtBreakpointId d1 emit set_effects set_inputEnabled].
  destruct (_state d), (_attachMode d); cbn; intro H; try discriminate H; auto;
    apply bind_inv_Ret in H; destruct H as (? & ? & _ & H);
    apply bind_inv_Ret in H; destruct H as (? & ? & _ & H); discriminate H.
Qed.

(** An error of [continue] leaves console input enabled, unless it is an
    error of the configuration that [continue] hands over to, in attach
    mode and in the state Configuring. *)
Lemma continue_error_enables_input (W : World) (d : Debugger) (e : string)
    (d' : Debugger) :
  ~ (_state d = CONFIGURING /\ _attachMode d = true) ->
  continue W d = (Throw e, d') ->
  inputEnabled d' = true /\ hd_error (effects d') = Some StartInput.
Proof.
  intros Hnot; unfold continue, bind at 1, try_catch.
  destruct (continue_try W d) as [[configure | x | c] d1] eqn:Htry.
  - destruct configure; [destruct (Hnot (continue_try_configures W d d1 Htry)) |].
    discriminate.
  - cbn; intro H; injection H as _ <-; split; reflexivity.
  - discriminate.
Qed.

(** [continue] disables console input before anything else. *)
Lemma continue_disables_input_first (W : World) (d : Debugger) :
  exists rest, effects (snd (continue_try W d)) = (rest ++ StopInput :: effects d)%list.
Proof.
  unfold continue_try, stopInput.
  set (d1 := emit StopInput (set_inputEnabled false d)).
  rewrite bind_Ret with (a := tt) (d1 := d1) by reflexivity.
  pose (P := fun x : Debugger =>
               exists rest, effects x = (rest ++ StopInput :: effects d)%list).
  assert (Hemit : forall e x, isExit e = false -> P x -> P (emit e x)).
  { intros e x _ [rest Hrest]; exists (e :: rest); cbn; rewrite Hrest; reflexivity. }
  assert (Hstopped : forall v x, P x -> P (set_stoppedAtBreakpointId v x))
    by (intros v x H; exact H).
  match goal with
  | |- context [snd (?m d1)] => cut (preserves P m)
  end.
  - intro Hm; apply Hm; exists []; reflexivity.
  - frame.
Qed.

(** C6, on the code.  In the session of the scenario, stopped with console
    input enabled, [stepIn] and [stepOver] send their request and nothing
    else: console input is still enabled when the request goes out, and
    afterwards; [continue], in the same state, disables console input before
    its request.  [stepIn] and [stepOver] never switch the console. *)
Theorem step_requests_sent_with_input_enabled :
  inputEnabled Scenario.stopped = true /\
  stepIn Scenario.world Scenario.stopped
  = (Ret tt, emit (Send (ReqStepIn 1)) Scenario.stopped) /\
  stepOver Scenario.world Scenario.stopped
  = (Ret tt, emit (Send (ReqNext 1)) Scenario.stopped) /\
  inputEnabled (snd (stepIn Scenario.world Scenario.stopped)) = true /\
  inputEnabled (snd (stepOver Scenario.world Scenario.stopped)) = true /\
  continue Scenario.world Scenario.stopped
  = (Ret tt,
     emit (Send (ReqContinue 1))
       (set_stoppedAtBreakpointId None
          (emit StopInput (set_inputEnabled false Scenario.stopped)))) /\
  (forall W d,
     inputEnabled (snd (stepIn W d)) = inputEnabled d /\
     inputEnabled (snd (stepOver W d)) = inputEnabled d).
Proof.
  split; [reflexivity |].
  split; [reflexivity |].
  split; [reflexivity |].
  split; [reflexivity |].
  split; [reflexivity |].
  split; [reflexivity | exact step_requests_keep_input].
Qed.

(** ** Steps shared by the proofs below *)

(** The lemma of the section on frames that fits a step, and its
    premises for a property at hand. *)
Ltac frame_premises :=
  first [ stable | intro; apply preserves_createSession; stable ].

Ltac frame_label :=
  first
    [ apply preserves_launch | apply preserves_relaunch | apply preserves_run
    | apply preserves_breakInto | apply preserves_stepIn | apply preserves_stepOver
    | apply preserves_continue | apply preserves_setSelectedStackFrame
    | apply preserves_setAllBreakpointsEnabled | apply preserves_setBreakpointEnabled
    | apply preserves_toggleAllBreakpoints | apply preserves_toggleBreakpoint
    | apply preserves_deleteAllBreakpoints | apply preserves_deleteBreakpoint
    | apply preserves_closeSession | apply preserves_onOutput
    | apply preserves_onContinued | apply preserves_onThread
    | apply preserves_onExitedDebugee | apply preserves_onTerminatedDebugee
    | apply preserves_onAdapterExited | apply preserves_onBreakpointEvent
    | apply preserves_onCustomEvent
    | apply preserves_discard;
      first [ apply preserves_setSourceBreakpoint | apply preserves_setFunctionBreakpoint
            | apply preserves_getSourceLines | apply preserves_evaluateExpression ]
    | apply preserves_detached;
      first [ apply preserves_onInitialized | apply preserves_onStopped ] ];
  frame_premises.

Lemma ensureDebugSession_allowed (d : Debugger) (s : VsDebugSession) :
  _debugSession d = Some s -> _ensureDebugSession true d = (Ret s, d).
Proof.
  intro H; unfold _ensureDebugSession, bind, get; rewrite H.
  rewrite andb_false_r; reflexivity.
Qed.

Lemma bind_inv_Ret_preserves {A B : Type} (P : Debugger -> Prop) (m : M A)
    (k : A -> M B) (d d' : Debugger) (b : B) :
  preserves P m -> P d -> bind m k d = (Ret b, d') ->
  exists a d1, P d1 /\ k a d1 = (Ret b, d').
Proof.
  intros Hm Hd H; apply bind_inv_Ret in H; destruct H as (a & d1 & H1 & H2).
  exists a, d1; split; [| exact H2].
  specialize (Hm d Hd); rewrite H1 in Hm; exact Hm.
Qed.

(** The first part of a computation that returned, and what it kept. *)
Ltac returned P H :=
  let a := fresh "a" in
  let d1 := fresh "d" in
  let Hp := fresh "Hp" in
  apply bind_inv_Ret_preserves with (P := P) in H;
    [ destruct H as (a & d1 & Hp & H) | solve [unfold P; frame] | assumption ].

Lemma run_configures (W : World) (d : Debugger) :
  _state d = CONFIGURING -> _attachMode d = false ->
  run W d = _configurationDone W (set_stoppedAtBreakpointId None d).
Proof.
  intros Hs Ha; unfold run, bind at 1, get; rewrite Ha.
  rewrite bind_Ret with (a := tt) (d1 := set_stoppedAtBreakpointId None d)
    by reflexivity.
  rewrite Hs; reflexivity.
Qed.

Lemma relaunch_with_adapter (W : World) (d : Debugger) (adapter : ParsedVSAdapter) :
  _adapter d = Some adapter ->
  relaunch W d
  = bind (try_catch (relaunch_session W adapter)
            (fun message => bind (stderr_write (failedToDebug message))
                              (fun _ => process_exit 0)))
      (fun attached : bool => if attached then _pauseAfterAttach W else ret tt) d.
Proof.
  intro Ha; unfold relaunch; unfold bind at 1; unfold get; rewrite Ha; reflexivity.
Qed.

Lemma continue_keeps_state (W : World) (d : Debugger) :
  ~ (_state d = CONFIGURING /\ _attachMode d = true) ->
  _state (snd (continue W d)) = _state d.
Proof.
  intro Hnot.
  pose proof (preserves_continue_try W (fun x => _state x = _state d)) as Htry.
  specialize (Htry ltac:(stable) ltac:(stable) ltac:(stable) d eq_refl).
  unfold continue; unfold bind at 1; unfold try_catch.
  destruct (continue_try W d) as [[configure | e | c] d1] eqn:E; simpl in Htry.
  - destruct configure; [| exact Htry].
    destruct (Hnot (continue_try_configures W d d1 E)).
  - exact Htry.
  - exact Htry.
Qed.


(** ** Console input and the state *)

Lemma inputRule_same (d d' : Debugger) :
  _state d' = _state d -> inputEnabled d' = inputEnabled d ->
  _readyForEvaluations d' = _readyForEvaluations d ->
  inputRule d -> inputRule d'.
Proof. unfold inputRule; intros -> -> ->; auto. Qed.

Lemma inputRule_stopped (d : Debugger) :
  _state d = STOPPED -> inputEnabled d = true -> inputRule d.
Proof. unfold inputRule; intros Hs Hi; split; auto. Qed.

Lemma inputRule_disabled (d : Debugger) :
  inputEnabled d = false ->
  _state d = INITIALIZING \/ _state d = RUNNING \/ _state d = TERMINATED ->
  inputRule d.
Proof.
  unfold inputRule; intros Hi Hs; rewrite Hi; split; [discriminate |].
  intros [H | [H _]]; destruct Hs as [Hs | [Hs | Hs]]; rewrite Hs in H; discriminate H.
Qed.

(** [createSession] starts by disabling console input, and does not enable
    it again. *)
Lemma createSession_disables_input (W : World) (adapter : ParsedVSAdapter)
    (d : Debugger) :
  inputEnabled (snd (createSession W adapter d)) = false.
Proof.
  unfold createSession, stopInput.
  rewrite bind_Ret
    with (a := tt) (d1 := emit StopInput (set_inputEnabled false d)) by reflexivity.
  match goal with
  | |- inputEnabled (snd (?m ?x)) = _ =>
      cut (preserves (fun y => inputEnabled y = false) m);
        [ intro H; apply H; reflexivity | ]
  end.
  unfold _ensureDebugSession, expectInitialize; frame.
Qed.

(** The initialized event of a launched program, in a session just
    created (console input is disabled): the state becomes Configuring, and
    console input is enabled if the flag is raised. *)
Lemma onInitialized_configuring (W : World) (d : Debugger) :
  _adapter d <> None -> _attachMode d = false -> inputEnabled d = false ->
  _state (snd (_onInitialized W d)) = CONFIGURING /\
  inputRule (snd (_onInitialized W d)).
Proof.
  intros Ha Hm Hi; unfold _onInitialized.
  rewrite bind_Ret with (a := d) (d1 := d) by reflexivity.
  destruct (_adapter d); [| contradiction].
  rewrite bind_Ret with (a := tt) (d1 := d) by reflexivity.
  rewrite Hm.
  rewrite bind_Ret with (a := tt) (d1 := set_state CONFIGURING d) by reflexivity.
  unfold _startConfigurationInput.
  rewrite bind_Ret with (a := set_state CONFIGURING d) (d1 := set_state CONFIGURING d)
    by reflexivity.
  cbn [_readyForEvaluations _state set_state SessionState_eqb].
  destruct (_readyForEvaluations d) eqn:Hf; cbn; (split; [reflexivity |]);
    unfold inputRule; cbn; rewrite ?Hf, ?Hi; split; auto.
  intros [H | [_ H]]; discriminate H.
Qed.

(** When the run command returns in the state Configuring, the state is
    Running and console input is disabled. *)
Lemma run_returns_running (W : World) (d d' : Debugger) :
  _state d = CONFIGURING -> _attachMode d = false -> run W d = (Ret tt, d') ->
  _state d' = RUNNING /\ inputEnabled d' = false.
Proof.
  intros Hs Ha H; rewrite run_configures in H by assumption.
  unfold _configurationDone in H.
  apply bind_inv_Ret in H; destruct H as (s & d0 & Hsession & H).
  destruct (ensureDebugSession_cases true (set_stoppedAtBreakpointId None d))
    as [[s' Hs'] | [e Hs']]; rewrite Hs' in Hsession;
    [injection Hsession as _ <- | discriminate Hsession].
  rewrite bind_Ret
    with (a := tt) (d1 := set_state RUNNING (set_stoppedAtBreakpointId None d)) in H
    by reflexivity.
  pose (P := fun x : Debugger => _state x = RUNNING /\ _attachMode x = false).
  assert (H1 : P (set_state RUNNING (set_stoppedAtBreakpointId None d)))
    by (split; [reflexivity | exact Ha]).
  do 5 returned P H.
  unfold bind, get in H.
  match type of H with
  | context [_attachMode ?x] =>
      match goal with
      | Hq : P x |- _ => destruct Hq as [Hstate Hmode]; rewrite Hmode in H
      end
  end.
  injection H as <-; split; [exact Hstate | reflexivity].
Qed.

(** What the handler of a stopped event leaves: the state Stopped with
    console input enabled, or state and console input as they were. *)
Lemma onStopped_outcome (W : World) (event : StoppedEvent) (d : Debugger) :
  _readyForEvaluations (snd (_onStopped W event d)) = _readyForEvaluations d /\
  ((_state (snd (_onStopped W event d)) = STOPPED /\
    inputEnabled (snd (_onStopped W event d)) = true) \/
   (_state (snd (_onStopped W event d)) = _state d /\
    inputEnabled (snd (_onStopped W event d)) = inputEnabled d)).
Proof.
  pose (Q := fun x : Debugger =>
               _readyForEvaluations x = _readyForEvaluations d /\
               ((_state x = STOPPED /\ inputEnabled x = true) \/
                (_state x = _state d /\ inputEnabled x = inputEnabled d))).
  change (Q (snd (_onStopped W event d))).
  unfold _onStopped.
  rewrite bind_Ret
    with (a := tt) (d1 := set_stoppedAtBreakpointId (stopped_breakpointId event) d)
    by reflexivity.
  set (d1 := set_stoppedAtBreakpointId (stopped_breakpointId event) d).
  rewrite bind_Ret with (a := d1) (d1 := d1) by reflexivity; cbv zeta.
  set (P := fun x : Debugger =>
              _state x = _state d /\ inputEnabled x = inputEnabled d
              /\ _readyForEvaluations x = _readyForEvaluations d).
  assert (Hd1 : P d1) by (repeat split).
  assert (Hno : forall x, P x -> Q x)
    by (unfold P, Q; intros x (Hs & Hi & Hf); auto).
  match goal with
  | |- context [bind ?m ?k d1] =>
      destruct (bind_cases P m k d1) as [(a & d2 & Hd2 & ->) | Hend];
        [ unfold P; frame | exact Hd1 | | exact (Hno _ Hend) ]
  end.
  match goal with
  | |- context [bind ?m ?k d2] =>
      destruct (bind_cases P m k d2) as [(a3 & d3 & Hd3 & ->) | Hend];
        [ unfold P; frame | exact Hd2 | | exact (Hno _ Hend) ]
  end.
  destruct (ThreadCollection.allThreadsRunning (_threads d1)); [| exact (Hno _ Hd3)].
  match goal with
  | |- context [bind ?m ?k d3] =>
      destruct (bind_cases P m k d3) as [(a4 & d4 & Hd4 & ->) | Hend];
        [ unfold P; frame | exact Hd3 | | exact (Hno _ Hend) ]
  end.
  match goal with
  | |- context [bind ?m ?k d4] =>
      destruct (bind_cases P m k d4) as [(a5 & d5 & Hd5 & ->) | Hend];
        [ unfold P; frame | exact Hd4 | | exact (Hno _ Hend) ]
  end.
  destruct Hd5 as (_ & _ & Hf).
  split; [exact Hf | left; split; reflexivity].
Qed.

(** A first stop whose handler returns leaves the state Stopped with
    console input enabled, whatever the state was. *)
Lemma onStopped_first_stop (W : World) (event : StoppedEvent) (d d' : Debugger) :
  ThreadCollection.allThreadsRunning (_threads d) = true ->
  _onStopped W event d = (Ret tt, d') ->
  _state d' = STOPPED /\ inputEnabled d' = true.
Proof.
  intros Hfirst H; unfold _onStopped in H.
  rewrite bind_Ret
    with (a := tt) (d1 := set_stoppedAtBreakpointId (stopped_breakpointId event) d) in H
    by reflexivity.
  rewrite bind_Ret
    with (a := set_stoppedAtBreakpointId (stopped_breakpointId event) d)
         (d1 := set_stoppedAtBreakpointId (stopped_breakpointId event) d) in H
    by reflexivity.
  cbv zeta in H.
  change (_threads (set_stoppedAtBreakpointId (stopped_breakpointId event) d))
    with (_threads d) in H.
  rewrite Hfirst in H.
  do 4 (apply bind_inv_Ret in H; destruct H as (? & ? & _ & H)).
  injection H as <-; split; reflexivity.
Qed.

(** The readyForEvaluations event raises the flag, keeps the state, and
    enables console input in the state Configuring only. *)
Lemma onCustomEvent_ready (d : Debugger) :
  _readyForEvaluations (snd (_onCustomEvent "readyForEvaluations" d)) = true /\
  _state (snd (_onCustomEvent "readyForEvaluations" d)) = _state d /\
  (inputEnabled (snd (_onCustomEvent "readyForEvaluations" d)) = true <->
   inputEnabled d = true \/ _state d = CONFIGURING).
Proof.
  change (_onCustomEvent "readyForEvaluations" d)
    with (_startConfigurationInput (set_readyForEvaluations true d)).
  unfold _startConfigurationInput.
  rewrite bind_Ret
    with (a := set_readyForEvaluations true d) (d1 := set_readyForEvaluations true d)
    by reflexivity.
  cbn [_readyForEvaluations _state set_readyForEvaluations andb].
  destruct (SessionState_eqb (_state d) CONFIGURING) eqn:E; cbn.
  - apply SessionState_eqb_eq in E.
    split; [reflexivity | split; [reflexivity |]]; split; auto.
  - split; [reflexivity | split; [reflexivity |]]; split; [auto |].
    intros [H | H]; [exact H | rewrite H in E; discriminate E].
Qed.

Lemma onCustomEvent_keeps_inputRule (event : string) (d : Debugger) :
  inputRule d -> inputRule (snd (_onCustomEvent event d)).
Proof.
  intro Hrule; unfold _onCustomEvent.
  destruct (String.eqb_spec event "readyForEvaluations") as [-> | _]; [| exact Hrule].
  destruct (onCustomEvent_ready d) as (Hf & Hs & Hi).
  change (_onReadyForEvaluations d) with (_onCustomEvent "readyForEvaluations" d).
  unfold inputRule in *; rewrite Hf, Hs, Hi, Hrule.
  destruct (_state d); split; intro H;
    repeat match goal with
           | H : _ \/ _ |- _ => destruct H
           | H : _ /\ _ |- _ => destruct H
           end;
    try discriminate; auto.
Qed.

(** Every command and event but [launch], [relaunch], [run], [continue]
    and the initialized, continued, exited, terminated and adapter-exited
    events keeps the equivalence of console input and state. *)
Lemma step_keeps_inputRule (W : World) (l : Label) (d : Debugger) :
  keepsInputRule l = true -> inputRule d -> inputRule (snd (step W l d)).
Proof.
  intros Hl Hrule.
  pose (P := fun x : Debugger =>
               _state x = _state d /\ inputEnabled x = inputEnabled d
               /\ _readyForEvaluations x = _readyForEvaluations d).
  assert (Hquiet : preserves P (step W l) -> inputRule (snd (step W l d))).
  { intro H; destruct (H d) as (Hs & Hi & Hf); [repeat split |].
    exact (inputRule_same d _ Hs Hi Hf Hrule). }
  destruct l; simpl in Hl; try discriminate Hl;
    try (apply Hquiet; unfold P; simpl; frame_label).
  - simpl; rewrite detached_snd.
    destruct (onStopped_outcome W event d) as (Hf & [[Hs Hi] | [Hs Hi]]).
    + apply inputRule_stopped; assumption.
    + exact (inputRule_same d _ Hs Hi Hf Hrule).
  - simpl; apply onCustomEvent_keeps_inputRule; exact Hrule.
Qed.

Lemma execute_keeps_inputRule (W : World) (ls : list Label) (d : Debugger) :
  forallb keepsInputRule ls = true -> inputRule d -> inputRule (execute W ls d).
Proof.
  revert d; induction ls as [| l rest IH]; intros d Hls Hrule; simpl in *;
    [exact Hrule |].
  apply andb_prop in Hls; destruct Hls as [Hl Hrest].
  pose proof (step_keeps_inputRule W l d Hl Hrule) as Hstep.
  destruct (step W l d) as [[[] | e | c] d1]; simpl in Hstep;
    try apply IH; assumption.
Qed.

(** [continue] in the state Stopped disables console input and leaves the
    state Stopped. *)
Lemma continue_stopped_disables_input (W : World) (d d' : Debugger) :
  _state d = STOPPED -> continue W d = (Ret tt, d') ->
  _state d' = STOPPED /\ inputEnabled d' = false.
Proof.
  intros Hs H.
  pose (P := fun x : Debugger => _state x = STOPPED /\ inputEnabled x = false).
  assert (Htry : P (snd (continue_try W d))).
  { unfold continue_try, stopInput.
    rewrite bind_Ret
      with (a := tt) (d1 := emit StopInput (set_inputEnabled false d)) by reflexivity.
    match goal with
    | |- P (snd (?m ?x)) =>
        cut (preserves P m); [intro Hm; apply Hm; split; [exact Hs | reflexivity] |]
    end.
    unfold P; frame. }
  unfold continue, try_catch in H.
  apply bind_inv_Ret in H; destruct H as (configure & d1 & Hc & H).
  destruct (continue_try W d) as [[c | e | c] d2] eqn:E; simpl in Htry;
    [injection Hc as -> -> | discriminate Hc | discriminate Hc].
  destruct configure; [| injection H as <-; exact Htry].
  destruct (continue_try_configures W d d1 E) as [Hconf _].
  rewrite Hs in Hconf; discriminate Hconf.
Qed.


(** ** The claims on sessions *)



(** C3, against the claim as it stands: the breakpoint that was added
    before the launch is paired with a returned breakpoint that is not
    verified and has no message; afterwards the local breakpoint, an
    enabled source breakpoint that the adapter did not confirm, has the id
    and still no message: the message is on the returned breakpoint. *)
Lemma reconciled_breakpoint_has_no_message :
  stored 1 Scenario.configuring = Some Examples.pending /\
  _updateBreakpoint Examples.pending (Some Scenario.unplaced) Scenario.configuring
  = (Ret (ab_with_message couldNotSetMessage Scenario.unplaced),
     snd (_updateBreakpoint Examples.pending (Some Scenario.unplaced)
            Scenario.configuring)) /\
  stored 1 (snd (_updateBreakpoint Examples.pending (Some Scenario.unplaced)
                   Scenario.configuring))
  = Some Examples.reconciled /\
  bp_enabled Examples.reconciled = true /\
  bp_verified Examples.reconciled = false /\
  bp_message Examples.reconciled = None /\
  stored 1 Scenario.running = Some Examples.reconciled.
Proof. by_computation. Qed.

Lemma updateBreakpoint_reconciles_witness :
  stored (bp_index Examples.pending) Scenario.configuring = Some Examples.pending /\
  (exists remote' d' b',
     _updateBreakpoint Examples.pending (Some Scenario.unplaced) Scenario.configuring
     = (Ret remote', d') /\
     stored 1 d' = Some b' /\ bp_id b' = Some 42 /\ bp_verified b' = false /\
     ab_message remote' = Some couldNotSetMessage) /\
  (exists r m,
     fst (_setSourceBreakpointsForPath Scenario.world "/a.py" (Some 1) Scenario.stopped)
     = Ret (Some r) /\
     ab_message r = Some m /\ m <> "").
Proof.
  split; [vm_compute; reflexivity |].
  split.
  - destruct (updateBreakpoint_reconciles Scenario.world Scenario.configuring
                Examples.pending Scenario.unplaced) as (H & _).
    destruct (H ltac:(vm_compute; reflexivity))
      as (remote' & d' & b' & Hrun & (Hb & _) & Hid & _ & _ & _ & Hmsg & _).
    exists remote', d', b'.
    split; [exact Hrun |].
    split; [exact Hb |].
    destruct (Hid 42 eq_refl) as [Hid1 Hver].
    split; [exact Hid1 |].
    split; [exact (Hver false eq_refl) |].
    exact (proj2 (Hmsg eq_refl (or_introl eq_refl))).
  - assert (Hrun :
      _setSourceBreakpointsForPath Scenario.world "/a.py" (Some 1) Scenario.stopped
      = (Ret (Some (ab_with_message couldNotSetMessage Scenario.unplaced)),
         snd (_setSourceBreakpointsForPath Scenario.world "/a.py" (Some 1)
                Scenario.stopped)))
      by (vm_compute; reflexivity).
    destruct (updateBreakpoint_reconciles Scenario.world Scenario.stopped
                Examples.pending Scenario.unplaced) as (_ & H).
    destruct (H _ _ _ _ Hrun) as (remotes & _ & _ & Hexplained).
    destruct (Hexplained _ eq_refl eq_refl) as (m & Hm & Hne).
    exists (ab_with_message couldNotSetMessage Scenario.unplaced), m.
    split; [rewrite Hrun; reflexivity | split; [exact Hm | exact Hne]].
Defined.



Lemma launch_resets_breakpoints_relaunch_keeps_them_witness :
  _breakpoints (snd (launch Scenario.world Scenario.launching Scenario.stopped))
  = BreakpointCollection.empty /\
  stored 1 (snd (relaunch Scenario.world Scenario.stopped)) = Some Examples.reconciled /\
  relaunch Scenario.world Scenario.stopped
  = (Ret tt, snd (relaunch Scenario.world Scenario.stopped)) /\
  _threads (snd (relaunch Scenario.world Scenario.stopped)) = ThreadCollection.empty /\
  _sourceFiles (snd (relaunch Scenario.world Scenario.stopped)) = SourceFileCache.empty.
Proof.
  destruct (launch_resets_breakpoints_relaunch_keeps_them Scenario.world Scenario.stopped)
    as (Hlaunch & _ & Hstored & Hfresh & _).
  split; [exact (Hlaunch Scenario.launching) |].
  split; [rewrite Hstored; vm_compute; reflexivity |].
  assert (Hrun : relaunch Scenario.world Scenario.stopped
                 = (Ret tt, snd (relaunch Scenario.world Scenario.stopped)))
    by (vm_compute; reflexivity).
  split; [exact Hrun |].
  exact (Hfresh _ Hrun).
Defined.

Lemma getSourceLines_slice_witness :
  1 <= 2 /\ 0 <= 2 /\
  getSourceLines Scenario.world Scenario.pythonSource 2 2 Scenario.stopped
  = (Ret ["b"; "c"], snd (sourceLines Scenario.world Scenario.pythonSource Scenario.stopped)) /\
  getSourceLines Scenario.world Scenario.pythonSource 5 2 Scenario.stopped
  = (Ret [], snd (sourceLines Scenario.world Scenario.pythonSource Scenario.stopped)) /\
  getSourceLines Scenario.world Scenario.pythonSource 3 20 Scenario.stopped
  = (Ret ["c"; "d"], snd (sourceLines Scenario.world Scenario.pythonSource Scenario.stopped)).
Proof.
  assert (H1 : 1 <= 2) by lia.
  assert (H2 : 0 <= 2) by lia.
  split; [exact H1 |].
  split; [exact H2 |].
  destruct (getSourceLines_slice Scenario.world Scenario.stopped Scenario.pythonSource 2 2)
    as (_ & Ha).
  destruct (getSourceLines_slice Scenario.world Scenario.stopped Scenario.pythonSource 5 2)
    as (_ & Hb).
  destruct (getSourceLines_slice Scenario.world Scenario.stopped Scenario.pythonSource 3 20)
    as (_ & Hc).
  assert (Hlines : sourceLines Scenario.world Scenario.pythonSource Scenario.stopped
                   = (Ret ["a"; "b"; "c"; "d"],
                      snd (sourceLines Scenario.world Scenario.pythonSource
                             Scenario.stopped)))
    by (vm_compute; reflexivity).
  split; [| split].
  - destruct (Ha _ _ Hlines) as (_ & H & _). exact (H H1 H2).
  - destruct (Hb _ _ Hlines) as (H & _). apply H; cbn; lia.
  - destruct (Hc _ _ Hlines) as (_ & _ & H). apply H; cbn; lia.
Defined.

Lemma setBreakpointEnabled_atomic_witness :
  stored 1 Examples.stoppedRejecting = Some Examples.reconciled /\
  bp_path Examples.reconciled = Some "/a.py" /\
  fst (toggleBreakpoint Scenario.rejecting 1 Examples.stoppedRejecting)
  = Throw "setBreakpoints failed" /\
  enabledIs 1 true (snd (toggleBreakpoint Scenario.rejecting 1 Examples.stoppedRejecting)) /\
  fst (setBreakpointEnabled Scenario.rejecting 1 false Examples.stoppedRejecting)
  = Throw "setBreakpoints failed" /\
  enabledIs 1 true
    (snd (setBreakpointEnabled Scenario.rejecting 1 false Examples.stoppedRejecting)) /\
  setBreakpointEnabled Scenario.rejecting 1 true Examples.stoppedRejecting
  = (Ret tt, Examples.stoppedRejecting).
Proof.
  assert (Hb : stored 1 Examples.stoppedRejecting = Some Examples.reconciled)
    by (vm_compute; reflexivity).
  assert (Hp : bp_path Examples.reconciled = Some "/a.py") by reflexivity.
  split; [exact Hb |].
  split; [exact Hp |].
  destruct (setBreakpointEnabled_atomic Scenario.rejecting Examples.stoppedRejecting 1
              Examples.reconciled "/a.py" Hb Hp) as (Hset & Htoggle & _ & _ & Hsame).
  assert (Ht : toggleBreakpoint Scenario.rejecting 1 Examples.stoppedRejecting
               = (Throw "setBreakpoints failed",
                  snd (toggleBreakpoint Scenario.rejecting 1 Examples.stoppedRejecting)))
    by (vm_compute; reflexivity).
  assert (Hd : setBreakpointEnabled Scenario.rejecting 1 false Examples.stoppedRejecting
               = (Throw "setBreakpoints failed",
                  snd (setBreakpointEnabled Scenario.rejecting 1 false
                         Examples.stoppedRejecting)))
    by (vm_compute; reflexivity).
  assert (He : _ensureDebugSession false Examples.stoppedRejecting
               = (Ret {| session_adapterType := "python" |}, Examples.stoppedRejecting))
    by (vm_compute; reflexivity).
  split; [rewrite Ht; reflexivity |].
  split; [exact (Htoggle _ _ Ht) |].
  split; [rewrite Hd; reflexivity |].
  split; [exact (Hset false _ _ Hd) |].
  exact (Hsame _ He).
Defined.

(** * Further properties of the session core *)

(** ** Source listing, line by line *)

(** X1.  For a 1-based start and a length that is not negative, the lines
    [getSourceLines] returns are numbered from [start]: the result's i-th
    element (from 0) is line [start + i] of the source for [i < length],
    and there is none from [length] on; so it never returns more than
    [length] lines. *)
Theorem getSourceLines_numbering (W : World) (d d' : Debugger) (source : Source)
    (lines : list string) (start length : Z) :
  1 <= start -> 0 <= length ->
  sourceLines W source d = (Ret lines, d') ->
  exists result,
    getSourceLines W source start length d = (Ret result, d') /\
    (forall i : nat,
       nth_error result i
       = if Z.of_nat i <? length then nth_error lines (Z.to_nat (start - 1) + i)
         else None) /\
    Z.of_nat (List.length result) <= length.
Proof.
  intros Hs Hl Hlines.
  exists (sliceSourceLines lines start length).
  split; [unfold getSourceLines; rewrite bind_Ret with (1 := Hlines); reflexivity |].
  assert (Hnth : forall i : nat,
            nth_error (sliceSourceLines lines start length) i
            = if Z.of_nat i <? length then nth_error lines (Z.to_nat (start - 1) + i)
              else None).
  { intro i; rewrite sliceSourceLines_spec by assumption.
    unfold specSourceLines, span.
    destruct (Z.gtb_spec start (Z.of_nat (List.length lines))) as [Hgt | Hle].
    - replace (nth_error (@nil string) i) with (@None string)
        by (destruct i; reflexivity).
      destruct (Z.of_nat i <? length); [| reflexivity].
      symmetry; apply nth_error_None; lia.
    - rewrite nth_error_firstn, nth_error_skipn.
      destruct (Z.ltb_spec (Z.of_nat i) length) as [Hi | Hi];
        destruct (Nat.ltb_spec i
                    (Z.to_nat (Z.min (start - 1 + length) (Z.of_nat (List.length lines)))
                     - Z.to_nat (start - 1))) as [Hn | Hn];
        try reflexivity; try lia.
      symmetry; apply nth_error_None; lia. }
  split; [exact Hnth |].
  destruct (Z_le_gt_dec (Z.of_nat (List.length (sliceSourceLines lines start length)))
              length) as [H | H]; [exact H |].
  assert (Hsome : nth_error (sliceSourceLines lines start length) (Z.to_nat length) <> None)
    by (apply nth_error_Some; lia).
  rewrite Hnth in Hsome.
  destruct (Z.ltb_spec (Z.of_nat (Z.to_nat length)) length); [lia | congruence].
Qed.

Lemma getSourceLines_numbering_witness :
  1 <= 2 /\ 0 <= 2 /\
  exists result,
    getSourceLines Scenario.world Scenario.pythonSource 2 2 Scenario.stopped
    = (Ret result,
       snd (sourceLines Scenario.world Scenario.pythonSource Scenario.stopped)) /\
    nth_error result 0 = Some "b" /\ nth_error result 1 = Some "c" /\
    nth_error result 2 = None.
Proof.
  assert (H1 : 1 <= 2) by lia.
  assert (H2 : 0 <= 2) by lia.
  split; [exact H1 |].
  split; [exact H2 |].
  assert (Hlines : sourceLines Scenario.world Scenario.pythonSource Scenario.stopped
                   = (Ret ["a"; "b"; "c"; "d"],
                      snd (sourceLines Scenario.world Scenario.pythonSource
                             Scenario.stopped)))
    by (vm_compute; reflexivity).
  destruct (getSourceLines_numbering Scenario.world Scenario.stopped _
              Scenario.pythonSource _ 2 2 H1 H2 Hlines) as (result & Hrun & Hnth & _).
  exists result; split; [exact Hrun |].
  split; [rewrite Hnth; reflexivity |].
  split; rewrite Hnth; reflexivity.
Defined.

(** ** Fetching a source by reference *)

Lemma ensureDebugSession_none (b : bool) (d : Debugger) :
  _debugSession d = None -> _ensureDebugSession b d = (Throw noSessionMessage, d).
Proof. intro H; unfold _ensureDebugSession, bind, get; rewrite H; reflexivity. Qed.

Lemma ensureDebugSession_beforeRun (d : Debugger) :
  _debugSession d <> None -> beforeRun d ->
  _ensureDebugSession false d = (Throw notRunningMessage, d).
Proof.
  intros Hs Hb; unfold _ensureDebugSession, bind, get.
  destruct (_debugSession d); [| contradiction].
  destruct Hb as [-> | ->]; reflexivity.
Qed.

(** X2.  [_getSourceByReference] never throws: it returns the content the
    adapter sends, and when there is no session, when the program is yet to
    run or when the adapter rejects the source request, it returns the text
    "Failed to retrieve source: " followed by the error message. *)
Theorem getSourceByReference_reports_failure (W : World) (d : Debugger)
    (sourceReference : Z) :
  (exists content d', _getSourceByReference W sourceReference d = (Ret content, d')) /\
  (_debugSession d = None ->
   _getSourceByReference W sourceReference d
   = (Ret ("Failed to retrieve source: " ++ noSessionMessage), d)) /\
  (_debugSession d <> None -> beforeRun d ->
   _getSourceByReference W sourceReference d
   = (Ret ("Failed to retrieve source: " ++ notRunningMessage), d)) /\
  (forall s,
     _ensureDebugSession false d = (Ret s, d) ->
     (forall e,
        respond W (sentRequests d) (ReqSource sourceReference) = inl e ->
        _getSourceByReference W sourceReference d
        = (Ret ("Failed to retrieve source: " ++ e),
           emit (Send (ReqSource sourceReference)) d)) /\
     (forall content,
        respond W (sentRequests d) (ReqSource sourceReference) = inr (RespSource content) ->
        _getSourceByReference W sourceReference d
        = (Ret content, emit (Send (ReqSource sourceReference)) d))).
Proof.
  split; [apply getSourceByReference_returns |].
  split; [| split].
  - intro Hnone; unfold _getSourceByReference, try_catch.
    rewrite bind_Throw with (1 := ensureDebugSession_none false d Hnone); reflexivity.
  - intros Hsome Hbefore; unfold _getSourceByReference, try_catch.
    rewrite bind_Throw with (1 := ensureDebugSession_beforeRun d Hsome Hbefore).
    reflexivity.
  - intros s Hs; split.
    + intros e He; unfold _getSourceByReference, try_catch.
      rewrite bind_Ret with (1 := Hs).
      unfold bind, send; rewrite He; reflexivity.
    + intros content Hc; unfold _getSourceByReference, try_catch.
      rewrite bind_Ret with (1 := Hs).
      unfold bind, send; rewrite Hc; reflexivity.
Qed.

Lemma getSourceByReference_reports_failure_witness :
  _debugSession (newDebugger []) = None /\
  _getSourceByReference Scenario.world 9 (newDebugger [])
  = (Ret "Failed to retrieve source: There is no active debugging session.",
     newDebugger []) /\
  _getSourceByReference Scenario.world 9 Scenario.stopped
  = (Ret "a", emit (Send (ReqSource 9)) Scenario.stopped).
Proof.
  assert (Hnone : _debugSession (newDebugger []) = None) by reflexivity.
  split; [exact Hnone |].
  destruct (getSourceByReference_reports_failure Scenario.world (newDebugger []) 9)
    as (_ & H & _).
  split; [exact (H Hnone) |].
  destruct (getSourceByReference_reports_failure Scenario.world Scenario.stopped 9)
    as (_ & _ & _ & H').
  assert (Hs : _ensureDebugSession false Scenario.stopped
               = (Ret {| session_adapterType := "python" |}, Scenario.stopped))
    by (vm_compute; reflexivity).
  destruct (H' _ Hs) as (_ & Hok).
  apply Hok; reflexivity.
Defined.

(** ** Commands without a session, and before the program runs *)

Lemma closeSession_leaves_no_session (W : World) (d d' : Debugger) :
  closeSession W d = (Ret tt, d') -> _debugSession d' = None.
Proof.
  unfold closeSession, bind at 1, get.
  destruct (_debugSession d) eqn:E.
  - destruct (send_cases W ReqDisconnect d) as [[resp Hs] | [e Hs]].
    + rewrite bind_Ret with (1 := Hs); intro H; injection H as <-; reflexivity.
    + rewrite bind_Throw with (1 := Hs); discriminate.
  - intro H; injection H as <-; exact E.
Qed.

(** The loop of [setAllBreakpointsEnabled] and [toggleAllBreakpoints] over
    breakpoints the collection holds: it returns, and changes nothing but
    the collection. *)
Lemma forEach_setEnabled_returns (g : Breakpoint -> bool) (l : list Breakpoint)
    (d : Debugger) :
  (forall b, In b l -> stored (bp_index b) d <> None) ->
  exists d',
    forEach (fun bp => breakpoint_setEnabled (bp_index bp) (g bp)) l d = (Ret tt, d') /\
    sameButBreakpoints d d' /\
    (forall j, stored j d <> None -> stored j d' <> None).
Proof.
  revert d; induction l as [| b rest IH]; intros d Hl; simpl.
  - exists d; split; [reflexivity |]; split; [apply sameButBreakpoints_refl | auto].
  - destruct (stored (bp_index b) d) as [b0 |] eqn:Hb;
      [| destruct (Hl b (or_introl eq_refl) Hb)].
    destruct (breakpoint_setEnabled_stored (bp_index b) (g b) b0 d Hb)
      as (d1 & Hrun & Hheld).
    rewrite bind_Ret with (1 := Hrun).
    assert (Hkeeps : forall j, stored j d <> None -> stored j d1 <> None).
    { intros j Hj; destruct (Z.eq_dec (bp_index b) j) as [<- | Hne].
      - destruct Hheld as (-> & _); discriminate.
      - destruct Hheld as (_ & Hothers & _); rewrite Hothers by exact Hne; exact Hj. }
    destruct (IH d1) as (d' & Hrest & Hsame & Hstored).
    { intros x Hx; apply Hkeeps, Hl; right; exact Hx. }
    exists d'; split; [exact Hrest |]; split.
    + destruct Hheld as (_ & _ & Hsame1).
      exact (sameButBreakpoints_trans _ _ _ Hsame1 Hsame).
    + intros j Hj; apply Hstored, Hkeeps, Hj.
Qed.

Lemma items_are_stored (d : Debugger) (b : Breakpoint) :
  In b (BreakpointCollection.getAllBreakpoints (_breakpoints d)) ->
  stored (bp_index b) d <> None.
Proof.
  intros Hb Hnone; unfold stored, BreakpointCollection.getBreakpointByIndex in Hnone.
  apply (find_none _ _ Hnone) in Hb; rewrite Z.eqb_refl in Hb; discriminate Hb.
Qed.

(** The commands on every breakpoint set the flags, then reconcile: when
    the session check of the reconciler fails, the flags are set already. *)
Lemma all_flags_then_session_check (W : World) (g : Breakpoint -> bool) (d : Debugger)
    (message : string) :
  (forall x, sameButBreakpoints d x -> _ensureDebugSession false x = (Throw message, x)) ->
  exists d',
    (d0 <- get ;;
     forEach (fun bp => breakpoint_setEnabled (bp_index bp) (g bp))
       (BreakpointCollection.getAllBreakpoints (_breakpoints d0)) ;;
     _resetAllBreakpoints W) d = (Throw message, d') /\
    sameButBreakpoints d d'.
Proof.
  intro Hcheck.
  rewrite bind_Ret with (a := d) (d1 := d) by reflexivity.
  destruct (forEach_setEnabled_returns g
              (BreakpointCollection.getAllBreakpoints (_breakpoints d)) d
              (items_are_stored d)) as (d' & Hrun & Hsame & _).
  rewrite bind_Ret with (1 := Hrun).
  exists d'; split; [| exact Hsame].
  unfold _resetAllBreakpoints; apply bind_Throw, Hcheck, Hsame.
Qed.

Lemma sameButBreakpoints_session (d d' : Debugger) :
  sameButBreakpoints d d' ->
  _debugSession d' = _debugSession d /\ _state d' = _state d.
Proof. intro H; rewrite H; split; reflexivity. Qed.

(** X3.  Without a session (none was created yet, or [closeSession] has
    returned) [stepIn], [stepOver], [getThreads], [getActiveThread],
    [getCurrentStackFrame], [getStackTrace], [setSelectedStackFrame],
    [evaluateExpression], [setSourceBreakpoint], [setBreakpointEnabled],
    [toggleBreakpoint], [deleteBreakpoint] and [deleteAllBreakpoints] throw
    "There is no active debugging session." and do nothing else: no
    request, no change; [continue] throws the same after disabling console
    input and enabling it again.  [setAllBreakpointsEnabled] and
    [toggleAllBreakpoints] throw the same too, but after they have set the
    flags: the breakpoint collection is all that may have changed.
    [setFunctionBreakpoint] tests the capability first: with it, it throws
    the same and changes nothing; without it, it throws "The ... debugger
    does not support function breakpoints.". *)
Theorem commands_need_a_session (W : World) (d : Debugger) :
  _debugSession d = None \/ (exists d0, closeSession W d0 = (Ret tt, d)) ->
  stepIn W d = (Throw noSessionMessage, d) /\
  stepOver W d = (Throw noSessionMessage, d) /\
  getThreads d = (Throw noSessionMessage, d) /\
  getActiveThread d = (Throw noSessionMessage, d) /\
  getCurrentStackFrame W d = (Throw noSessionMessage, d) /\
  (forall thread levels, getStackTrace W thread levels d = (Throw noSessionMessage, d)) /\
  (forall thread frameIndex,
     setSelectedStackFrame W thread frameIndex d = (Throw noSessionMessage, d)) /\
  (forall expression, evaluateExpression W expression d = (Throw noSessionMessage, d)) /\
  (forall path line, setSourceBreakpoint W path line d = (Throw noSessionMessage, d)) /\
  (forall index enabled,
     setBreakpointEnabled W index enabled d = (Throw noSessionMessage, d)) /\
  (forall index, toggleBreakpoint W index d = (Throw noSessionMessage, d)) /\
  (forall index, deleteBreakpoint W index d = (Throw noSessionMessage, d)) /\
  deleteAllBreakpoints W d = (Throw noSessionMessage, d) /\
  continue W d
  = (Throw noSessionMessage,
     emit StartInput (set_inputEnabled true (emit StopInput (set_inputEnabled false d)))) /\
  (forall enabled,
     exists d', setAllBreakpointsEnabled W enabled d = (Throw noSessionMessage, d') /\
                sameButBreakpoints d d') /\
  (exists d', toggleAllBreakpoints W d = (Throw noSessionMessage, d') /\
              sameButBreakpoints d d') /\
  (forall func,
     truthy (supportsFunctionBreakpoints (_capabilities d)) = true ->
     setFunctionBreakpoint W func d = (Throw noSessionMessage, d)) /\
  (forall func adapter,
     truthy (supportsFunctionBreakpoints (_capabilities d)) = false ->
     _adapter d = Some adapter ->
     setFunctionBreakpoint W func d
     = (Throw ("The " ++ adapter_type adapter
               ++ " debugger does not support function breakpoints."), d)).
Proof.
  intro H.
  assert (Hnone : _debugSession d = None).
  { destruct H as [H | [d0 H]]; [exact H |].
    exact (closeSession_leaves_no_session W d0 d H). }
  clear H.
  pose proof (fun b => ensureDebugSession_none b d Hnone) as He.
  assert (Hcheck : forall x, sameButBreakpoints d x ->
            _ensureDebugSession false x = (Throw noSessionMessage, x)).
  { intros x Hx; apply ensureDebugSession_none.
    rewrite (proj1 (sameButBreakpoints_session d x Hx)); exact Hnone. }
  assert (Hst : forall thread levels,
            getStackTrace W thread levels d = (Throw noSessionMessage, d)).
  { intros; unfold getStackTrace; rewrite bind_Throw with (1 := He _); reflexivity. }
  repeat match goal with |- _ /\ _ => split end; intros;
    try (unfold setSelectedStackFrame; rewrite bind_Throw with (1 := Hst _ _);
         reflexivity);
    try (unfold stepIn, stepOver, getThreads, getCurrentStackFrame, getActiveThread,
           setSelectedStackFrame, getStackTrace, evaluateExpression, setSourceBreakpoint,
           setBreakpointEnabled, toggleBreakpoint, deleteBreakpoint, deleteAllBreakpoints;
         repeat rewrite bind_Throw with (1 := He _); reflexivity).
  assert (Htry : continue_try W d
                 = (Throw noSessionMessage, emit StopInput (set_inputEnabled false d))).
  { unfold continue_try, stopInput.
    rewrite bind_Ret
      with (a := tt) (d1 := emit StopInput (set_inputEnabled false d)) by reflexivity.
    rewrite bind_Throw
      with (1 := ensureDebugSession_none true
                   (emit StopInput (set_inputEnabled false d)) Hnone).
    reflexivity. }
  - unfold continue; unfold bind at 1; unfold try_catch; rewrite Htry; reflexivity.
  - exact (all_flags_then_session_check W (fun _ => enabled) d noSessionMessage Hcheck).
  - exact (all_flags_then_session_check W (fun bp => negb (bp_enabled bp)) d
             noSessionMessage Hcheck).
  - unfold setFunctionBreakpoint.
    rewrite bind_Ret with (a := d) (d1 := d) by reflexivity.
    match goal with H : truthy _ = true |- _ => rewrite H end.
    rewrite bind_Ret with (a := tt) (d1 := d) by reflexivity.
    rewrite bind_Throw with (1 := He _); reflexivity.
  - unfold setFunctionBreakpoint.
    rewrite bind_Ret with (a := d) (d1 := d) by reflexivity.
    match goal with H : truthy _ = false |- _ => rewrite H end.
    match goal with H : _adapter d = Some _ |- _ => rewrite H end.
    reflexivity.
Qed.

Lemma commands_need_a_session_witness :
  closeSession Scenario.world Scenario.stopped
  = (Ret tt, snd (closeSession Scenario.world Scenario.stopped)) /\
  fst (stepIn Scenario.world (snd (closeSession Scenario.world Scenario.stopped)))
  = Throw noSessionMessage /\
  fst (getThreads (newDebugger [])) = Throw noSessionMessage.
Proof.
  assert (Hclose : closeSession Scenario.world Scenario.stopped
                   = (Ret tt, snd (closeSession Scenario.world Scenario.stopped)))
    by (vm_compute; reflexivity).
  split; [exact Hclose |].
  split.
  - destruct (commands_need_a_session Scenario.world
                (snd (closeSession Scenario.world Scenario.stopped))
                (or_intror (ex_intro _ Scenario.stopped Hclose))) as (H & _).
    rewrite H; reflexivity.
  - destruct (commands_need_a_session Scenario.world (newDebugger [])
                (or_introl eq_refl)) as (_ & _ & H & _).
    rewrite H; reflexivity.
Defined.

(** X4.  With a session whose program is yet to run (state Initializing or
    Configuring) [stepIn], [stepOver], [getThreads], [getActiveThread],
    [getCurrentStackFrame], [getStackTrace], [setSelectedStackFrame],
    [setBreakpointEnabled], [toggleBreakpoint], [deleteBreakpoint] and
    [deleteAllBreakpoints] throw "The program is not yet running (use 'run'
    to start it)." and do nothing else, whereas an expression is evaluated,
    without a frame id, and in the state Configuring a source breakpoint
    is recorded as pending, with no request to the adapter, and so is a
    function breakpoint when the adapter supports them (without the
    capability [setFunctionBreakpoint] throws "The ... debugger does not
    support function breakpoints.").  [setAllBreakpointsEnabled] and
    [toggleAllBreakpoints] throw the first error too, but after they have
    set the flags: the breakpoint collection is all that may have changed.
    [continue], for a launched program in the state Configuring, throws
    "There is not yet a running process to continue." and leaves console
    input enabled. *)
Theorem commands_before_the_program_runs (W : World) (d : Debugger) :
  _debugSession d <> None -> beforeRun d ->
  stepIn W d = (Throw notRunningMessage, d) /\
  stepOver W d = (Throw notRunningMessage, d) /\
  getThreads d = (Throw notRunningMessage, d) /\
  getActiveThread d = (Throw notRunningMessage, d) /\
  getCurrentStackFrame W d = (Throw notRunningMessage, d) /\
  (forall thread levels, getStackTrace W thread levels d = (Throw notRunningMessage, d)) /\
  (forall thread frameIndex,
     setSelectedStackFrame W thread frameIndex d = (Throw notRunningMessage, d)) /\
  (forall index enabled,
     setBreakpointEnabled W index enabled d = (Throw notRunningMessage, d)) /\
  (forall index, toggleBreakpoint W index d = (Throw notRunningMessage, d)) /\
  (forall index, deleteBreakpoint W index d = (Throw notRunningMessage, d)) /\
  deleteAllBreakpoints W d = (Throw notRunningMessage, d) /\
  (forall expression,
     evaluateExpression W expression d = send W (ReqEvaluate expression "repl" None) d) /\
  (_state d = CONFIGURING ->
   forall path line,
     setSourceBreakpoint W path line d
     = (Ret {| result_index := BreakpointCollection.nextIndex (_breakpoints d);
               result_message := Some pendingMessage |},
        set_breakpoints
          (snd (BreakpointCollection.addSourceBreakpoint path line (_breakpoints d))) d)) /\
  (_state d = CONFIGURING -> _attachMode d = false ->
   continue W d
   = (Throw "There is not yet a running process to continue.",
      emit StartInput
        (set_inputEnabled true
           (set_stoppedAtBreakpointId None
              (emit StopInput (set_inputEnabled false d)))))) /\
  (forall enabled,
     exists d', setAllBreakpointsEnabled W enabled d = (Throw notRunningMessage, d') /\
                sameButBreakpoints d d') /\
  (exists d', toggleAllBreakpoints W d = (Throw notRunningMessage, d') /\
              sameButBreakpoints d d') /\
  (_state d = CONFIGURING ->
   truthy (supportsFunctionBreakpoints (_capabilities d)) = true ->
   forall func,
     setFunctionBreakpoint W func d
     = (Ret {| result_index := BreakpointCollection.nextIndex (_breakpoints d);
               result_message := Some pendingMessage |},
        set_breakpoints
          (snd (BreakpointCollection.addFunctionBreakpoint func (_breakpoints d))) d)) /\
  (forall func adapter,
     truthy (supportsFunctionBreakpoints (_capabilities d)) = false ->
     _adapter d = Some adapter ->
     setFunctionBreakpoint W func d
     = (Throw ("The " ++ adapter_type adapter
               ++ " debugger does not support function breakpoints."), d)).
Proof.
  intros Hsome Hbefore.
  pose proof (ensureDebugSession_beforeRun d Hsome Hbefore) as He.
  assert (Hcheck : forall x, sameButBreakpoints d x ->
            _ensureDebugSession false x = (Throw notRunningMessage, x)).
  { intros x Hx; destruct (sameButBreakpoints_session d x Hx) as [Hsession Hstate].
    apply ensureDebugSession_beforeRun.
    - rewrite Hsession; exact Hsome.
    - unfold beforeRun; rewrite Hstate; exact Hbefore. }
  assert (Hallowed : forall x, _debugSession x = _debugSession d ->
            exists s, _ensureDebugSession true x = (Ret s, x)).
  { intros x Hx; unfold _ensureDebugSession, bind, get; rewrite Hx.
    destruct (_debugSession d) as [s |]; [| contradiction].
    rewrite andb_false_r; exists s; reflexivity. }
  assert (Hst : forall thread levels,
            getStackTrace W thread levels d = (Throw notRunningMessage, d)).
  { intros; unfold getStackTrace; rewrite bind_Throw with (1 := He); reflexivity. }
  repeat match goal with |- _ /\ _ => split end; intros;
    try (unfold setSelectedStackFrame; rewrite bind_Throw with (1 := Hst _ _);
         reflexivity);
    try (unfold stepIn, stepOver, getThreads, getCurrentStackFrame, getActiveThread,
           getStackTrace, setBreakpointEnabled, toggleBreakpoint, deleteBreakpoint,
           deleteAllBreakpoints;
         repeat rewrite bind_Throw with (1 := He); reflexivity).
  - destruct (Hallowed d eq_refl) as [s Hs].
    unfold evaluateExpression.
    rewrite bind_Ret with (1 := Hs).
    rewrite bind_Ret with (a := d) (d1 := d) by reflexivity.
    destruct Hbefore as [Hb | Hb]; rewrite Hb; reflexivity.
  - destruct (Hallowed d eq_refl) as [s Hs].
    unfold setSourceBreakpoint, addBreakpoint.
    rewrite bind_Ret with (1 := Hs).
    unfold bind, get, modify; cbn.
    match goal with H : _state d = CONFIGURING |- _ => rewrite H end.
    reflexivity.
  - destruct (Hallowed (emit StopInput (set_inputEnabled false d)) eq_refl) as [s Hs].
    assert (Htry : continue_try W d
                   = (Throw "There is not yet a running process to continue.",
                      set_stoppedAtBreakpointId None
                        (emit StopInput (set_inputEnabled false d)))).
    { unfold continue_try, stopInput.
      rewrite bind_Ret
        with (a := tt) (d1 := emit StopInput (set_inputEnabled false d)) by reflexivity.
      rewrite bind_Ret with (1 := Hs).
      unfold bind, get, modify; cbn.
      repeat match goal with H : _ = _ |- _ => rewrite H end.
      reflexivity. }
    unfold continue; unfold bind at 1; unfold try_catch; rewrite Htry; reflexivity.
  - exact (all_flags_then_session_check W (fun _ => enabled) d notRunningMessage Hcheck).
  - exact (all_flags_then_session_check W (fun bp => negb (bp_enabled bp)) d
             notRunningMessage Hcheck).
  - destruct (Hallowed d eq_refl) as [s Hs].
    unfold setFunctionBreakpoint, addBreakpoint.
    rewrite bind_Ret with (a := d) (d1 := d) by reflexivity.
    match goal with H : truthy _ = true |- _ => rewrite H end.
    rewrite bind_Ret with (a := tt) (d1 := d) by reflexivity.
    rewrite bind_Ret with (1 := Hs).
    unfold bind, get, modify; cbn.
    match goal with H : _state d = CONFIGURING |- _ => rewrite H end.
    reflexivity.
  - unfold setFunctionBreakpoint.
    rewrite bind_Ret with (a := d) (d1 := d) by reflexivity.
    match goal with H : truthy _ = false |- _ => rewrite H end.
    match goal with H : _adapter d = Some _ |- _ => rewrite H end.
    reflexivity.
Qed.

Lemma commands_before_the_program_runs_witness :
  _debugSession Scenario.configuring <> None /\ beforeRun Scenario.configuring /\
  fst (stepIn Scenario.world Scenario.configuring) = Throw notRunningMessage /\
  setSourceBreakpoint Scenario.world "/b.py" 7 Scenario.configuring
  = (Ret {| result_index := 2; result_message := Some pendingMessage |},
     snd (setSourceBreakpoint Scenario.world "/b.py" 7 Scenario.configuring)) /\
  sentRequests (snd (setSourceBreakpoint Scenario.world "/b.py" 7 Scenario.configuring))
  = sentRequests Scenario.configuring.
Proof.
  assert (Hs : _debugSession Scenario.configuring <> None)
    by (vm_compute; discriminate).
  assert (Hc : _state Scenario.configuring = CONFIGURING) by (vm_compute; reflexivity).
  assert (Hb : beforeRun Scenario.configuring) by (right; exact Hc).
  split; [exact Hs |].
  split; [exact Hb |].
  destruct (commands_before_the_program_runs Scenario.world Scenario.configuring Hs Hb)
    as (Hstep & _ & _ & _ & _ & _ & _ & _ & _ & _ & _ & _ & Hset & _).
  split; [rewrite Hstep; reflexivity |].
  rewrite (Hset Hc "/b.py" 7).
  split; vm_compute; reflexivity.
Defined.

(** ** Relaunch never rejects *)

Lemma neverExits_ret {A : Type} (a : A) : neverExits (ret a).
Proof. intros d c d'; discriminate. Qed.

Lemma neverExits_get : neverExits get.
Proof. intros d c d'; discriminate. Qed.

Lemma neverExits_throw {A : Type} (e : string) : neverExits (@throw A e).
Proof. intros d c d'; discriminate. Qed.

Lemma neverExits_modify (f : Debugger -> Debugger) : neverExits (modify f).
Proof. intros d c d'; discriminate. Qed.

Lemma neverExits_nullthrows {A : Type} (o : option A) : neverExits (nullthrows o).
Proof. destruct o; [apply neverExits_ret | apply neverExits_throw]. Qed.

Lemma neverExits_invariant (b : bool) (msg : string) : neverExits (invariant b msg).
Proof. destruct b; [apply neverExits_ret | apply neverExits_throw]. Qed.

Lemma neverExits_send (W : World) (r : Request) : neverExits (send W r).
Proof.
  intros d c d'; destruct (send_cases W r d) as [[resp ->] | [e ->]]; discriminate.
Qed.

Lemma neverExits_ensureDebugSession (b : bool) : neverExits (_ensureDebugSession b).
Proof.
  intros d c d'; destruct (ensureDebugSession_cases b d) as [[s ->] | [e ->]];
    discriminate.
Qed.

Lemma neverExits_bind {A B : Type} (m : M A) (k : A -> M B) :
  neverExits m -> (forall a, neverExits (k a)) -> neverExits (bind m k).
Proof.
  intros Hm Hk d c d'; unfold bind.
  destruct (m d) as [[a | e | c0] d1] eqn:E; [apply Hk | discriminate |].
  destruct (Hm d c0 d1 E).
Qed.

Lemma neverExits_try_catch {A : Type} (m : M A) (h : string -> M A) :
  neverExits m -> (forall e, neverExits (h e)) -> neverExits (try_catch m h).
Proof.
  intros Hm Hh d c d'; unfold try_catch.
  destruct (m d) as [[a | e | c0] d1] eqn:E; [discriminate | apply Hh |].
  destruct (Hm d c0 d1 E).
Qed.

Lemma neverExits_detached (m : M unit) : neverExits m -> neverExits (detached m).
Proof.
  intros Hm d c d'; unfold detached.
  destruct (m d) as [[a | e | c0] d1] eqn:E; [discriminate | discriminate |].
  destruct (Hm d c0 d1 E).
Qed.

Lemma neverExits_forEach {A : Type} (f : A -> M unit) (l : list A) :
  (forall x, neverExits (f x)) -> neverExits (forEach f l).
Proof.
  intro Hf; induction l as [| x rest IH]; simpl;
    [apply neverExits_ret | apply neverExits_bind; [apply Hf | intro; exact IH]].
Qed.

Lemma neverExits_mapM {A B : Type} (f : A -> M B) (l : list A) :
  (forall x, neverExits (f x)) -> neverExits (mapM f l).
Proof.
  intro Hf; induction l as [| x rest IH]; simpl; [apply neverExits_ret |].
  apply neverExits_bind; [apply Hf | intro].
  apply neverExits_bind; [exact IH | intro; apply neverExits_ret].
Qed.

Lemma neverExits_promiseAll (tasks : list (M unit)) :
  Forall neverExits tasks -> neverExits (promiseAll tasks).
Proof.
  induction 1 as [| task rest Htask _ IH]; simpl; [apply neverExits_ret |].
  intros d c d'.
  destruct (task d) as [[a | e | c0] d1] eqn:E.
  - apply IH.
  - destruct (promiseAll rest d1) as [[a | e' | c1] d2] eqn:E';
      [discriminate | discriminate | destruct (IH d1 c1 d2 E')].
  - destruct (Htask d c0 d1 E).
Qed.

Create HintDb exits.

Ltac no_exit_step :=
  lazymatch goal with
  | |- neverExits (ret _) => apply neverExits_ret
  | |- neverExits get => apply neverExits_get
  | |- neverExits (throw _) => apply neverExits_throw
  | |- neverExits (modify _) => apply neverExits_modify
  | |- neverExits (nullthrows _) => apply neverExits_nullthrows
  | |- neverExits (invariant _ _) => apply neverExits_invariant
  | |- neverExits (send _ _) => apply neverExits_send
  | |- neverExits (_ensureDebugSession _) => apply neverExits_ensureDebugSession
  | |- neverExits (detached _) => apply neverExits_detached
  | |- neverExits (bind _ _) => apply neverExits_bind; [ | intro ]
  | |- neverExits (try_catch _ _) => apply neverExits_try_catch; [ | intro ]
  | |- neverExits (forEach _ _) => apply neverExits_forEach; intro
  | |- neverExits (mapM _ _) => apply neverExits_mapM; intro
  | |- neverExits (let _ := _ in _) => cbv zeta
  | |- neverExits (if ?b then _ else _) => destruct b
  | |- neverExits (match ?x with _ => _ end) => destruct x
  | |- _ => solve [ auto with exits ]
  end.

Ltac no_exit := repeat no_exit_step.

Lemma neverExits_closeSession (W : World) : neverExits (closeSession W).
Proof. unfold closeSession; no_exit. Qed.

Lemma neverExits_createSession (W : World) (adapter : ParsedVSAdapter) :
  neverExits (createSession W adapter).
Proof. unfold createSession, stopInput, expectInitialize; no_exit. Qed.

#[export] Hint Resolve neverExits_closeSession neverExits_createSession : exits.

Lemma neverExits_relaunch_session (W : World) (adapter : ParsedVSAdapter) :
  neverExits (relaunch_session W adapter).
Proof. unfold relaunch_session; no_exit. Qed.

(** For an adapter that launches a program, the [try] block of [relaunch]
    does not end at [return this._pauseAfterAttach()]. *)
Lemma relaunch_session_launches (W : World) (adapter : ParsedVSAdapter)
    (d d' : Debugger) (attached : bool) :
  adapter_action adapter = launchAction ->
  relaunch_session W adapter d = (Ret attached, d') -> attached = false.
Proof.
  intros Hl H; unfold relaunch_session in H; rewrite Hl in H.
  do 5 (apply bind_inv_Ret in H; destruct H as (? & ? & _ & H)).
  apply bind_inv_Ret in H; destruct H as (? & d6 & Hmode & H).
  injection Hmode as _ <-.
  apply bind_inv_Ret in H; destruct H as (s & d7 & Hsession & H).
  match type of Hsession with
  | _ensureDebugSession true ?x = _ =>
      destruct (ensureDebugSession_cases true x) as [[s' Hs'] | [e Hs']];
        rewrite Hs' in Hsession;
        [injection Hsession as _ <- | discriminate Hsession]
  end.
  match type of H with
  | bind get _ ?x = _ => rewrite bind_Ret with (a := x) (d1 := x) in H by reflexivity
  end.
  cbn [_attachMode set_attachMode] in H.
  do 2 (apply bind_inv_Ret in H; destruct H as (? & ? & _ & H)).
  injection H as <- _; reflexivity.
Qed.

(** X5.  With an adapter that launches a program, [relaunch] never throws:
    it returns, or, when setting up the session fails, it leaves the
    process with status 0; so the callers that drop its promise ([run] in
    the state Stopped, the handlers of the events that end a launched
    debuggee) lose no error.  (With an adapter that attaches, [relaunch]
    ends with [return this._pauseAfterAttach()], outside its [catch]: this
    says nothing of it.)  Without an adapter it throws "There is nothing
    to relaunch." and changes nothing. *)
Theorem relaunch_never_rejects (W : World) (d : Debugger) :
  (_adapter d = None -> relaunch W d = (Throw "There is nothing to relaunch.", d)) /\
  (forall adapter,
     _adapter d = Some adapter -> adapter_action adapter = launchAction ->
     (fst (relaunch W d) = Ret tt \/ fst (relaunch W d) = Exit 0) /\
     detached (relaunch W) d = relaunch W d).
Proof.
  split.
  - intro Hnone; unfold relaunch, bind, get; rewrite Hnone; reflexivity.
  - intros adapter Ha Hl.
    assert (Hout : fst (relaunch W d) = Ret tt \/ fst (relaunch W d) = Exit 0).
    { rewrite (relaunch_with_adapter W d adapter Ha).
      unfold bind, try_catch.
      destruct (relaunch_session W adapter d) as [[attached | e | c] d1] eqn:E.
      - rewrite (relaunch_session_launches W adapter d d1 attached Hl E).
        left; reflexivity.
      - right; reflexivity.
      - destruct (neverExits_relaunch_session W adapter d c d1 E). }
    split; [exact Hout |].
    unfold detached.
    destruct (relaunch W d) as [[[] | e | c] d1]; try reflexivity.
    destruct Hout as [Hout | Hout]; discriminate Hout.
Qed.

Lemma relaunch_never_rejects_witness :
  _adapter Scenario.stopped = Some Scenario.launching /\
  adapter_action Scenario.launching = launchAction /\
  fst (relaunch Scenario.world Scenario.stopped) = Ret tt /\
  fst (relaunch Scenario.broken Scenario.stopped) = Exit 0 /\
  detached (relaunch Scenario.broken) Scenario.stopped
  = relaunch Scenario.broken Scenario.stopped /\
  _adapter (newDebugger []) = None /\
  fst (relaunch Scenario.world (newDebugger [])) = Throw "There is nothing to relaunch.".
Proof.
  assert (Hs : _adapter Scenario.stopped = Some Scenario.launching)
    by (vm_compute; reflexivity).
  split; [exact Hs |].
  split; [reflexivity |].
  split; [vm_compute; reflexivity |].
  split; [vm_compute; reflexivity |].
  split.
  { destruct (relaunch_never_rejects Scenario.broken Scenario.stopped) as (_ & H).
    exact (proj2 (H Scenario.launching Hs eq_refl)). }
  split; [reflexivity |].
  destruct (relaunch_never_rejects Scenario.world (newDebugger [])) as (H0 & _).
  rewrite (H0 eq_refl); reflexivity.
Defined.

(** ** What a step leaves as it is *)

Lemma step_keeps_adapter (W : World) (l : Label) (d : Debugger) :
  isLaunch l = false -> _adapter (snd (step W l d)) = _adapter d.
Proof.
  intro Hl.
  cut (preserves (fun x => _adapter x = _adapter d) (step W l));
    [intro H; apply H; reflexivity |].
  destruct l; simpl in Hl; try discriminate Hl; simpl; frame_label.
Qed.

Lemma launch_sets_adapter (W : World) (adapter : ParsedVSAdapter) (d : Debugger) :
  _adapter (snd (launch W adapter d)) = Some adapter.
Proof.
  unfold launch.
  rewrite bind_Ret with (a := tt) (d1 := set_adapter (Some adapter) d) by reflexivity.
  rewrite bind_Ret
    with (a := tt)
         (d1 := set_breakpoints BreakpointCollection.empty (set_adapter (Some adapter) d))
    by reflexivity.
  apply (preserves_relaunch W (fun x => _adapter x = Some adapter));
    first [ reflexivity | frame_premises ].
Qed.

Lemma execute_without_launch (W : World) (ls : list Label) (d : Debugger) :
  forallb (fun l => negb (isLaunch l)) ls = true ->
  _adapter (execute W ls d) = _adapter d.
Proof.
  revert d; induction ls as [| l rest IH]; intros d Hls; simpl in *; [reflexivity |].
  apply andb_prop in Hls; destruct Hls as [Hl Hrest].
  apply negb_true_iff in Hl.
  pose proof (step_keeps_adapter W l d Hl) as Hstep.
  destruct (step W l d) as [[[] | e | c] d1]; simpl in Hstep;
    try (rewrite IH by exact Hrest); exact Hstep.
Qed.

Lemma execute_keeps_an_adapter (W : World) (ls : list Label) (d : Debugger) :
  _adapter d <> None -> _adapter (execute W ls d) <> None.
Proof.
  revert d; induction ls as [| l rest IH]; intros d Hd; simpl; [exact Hd |].
  assert (Hstep : _adapter (snd (step W l d)) <> None).
  { destruct (isLaunch l) eqn:Hl.
    - destruct l; try discriminate Hl; simpl.
      rewrite launch_sets_adapter; discriminate.
    - rewrite step_keeps_adapter by exact Hl; exact Hd. }
  destruct (step W l d) as [[[] | e | c] d1]; simpl in Hstep;
    try apply IH; exact Hstep.
Qed.

(** X6.  Only [launch] assigns the adapter: an execution without a launch
    leaves [_adapter] as it was, and no execution forgets an adapter once
    there is one; so after a launch the assertions on the adapter in the
    event handlers hold and [relaunch] has something to relaunch. *)
Theorem adapter_assigned_by_launch_only (W : World) (ls : list Label) (d : Debugger) :
  (forallb (fun l => negb (isLaunch l)) ls = true ->
   _adapter (execute W ls d) = _adapter d) /\
  (_adapter d <> None -> _adapter (execute W ls d) <> None) /\
  (forall adapter, _adapter (snd (launch W adapter d)) = Some adapter).
Proof.
  split; [apply execute_without_launch |].
  split; [apply execute_keeps_an_adapter |].
  intro adapter; apply launch_sets_adapter.
Qed.

Lemma adapter_assigned_by_launch_only_witness :
  _adapter Scenario.configuring <> None /\
  _adapter
    (execute Scenario.world [CallRun; EventExited 3; CallCloseSession]
       Scenario.configuring) <> None /\
  _adapter
    (execute Scenario.world [CallRun; EventExited 3; CallCloseSession]
       Scenario.configuring)
  = _adapter Scenario.configuring.
Proof.
  assert (Hs : _adapter Scenario.configuring <> None) by (vm_compute; discriminate).
  split; [exact Hs |].
  destruct (adapter_assigned_by_launch_only Scenario.world
              [CallRun; EventExited 3; CallCloseSession] Scenario.configuring)
    as (Hsame & Hkept & _).
  split; [exact (Hkept Hs) | apply Hsame; reflexivity].
Defined.

Lemma step_keeps_state (W : World) (l : Label) (d : Debugger) :
  keepsState l = true -> _state (snd (step W l d)) = _state d.
Proof.
  intro Hl.
  cut (preserves (fun x => _state x = _state d) (step W l));
    [intro H; apply H; reflexivity |].
  destruct l; simpl in Hl; try discriminate Hl; simpl; frame_label.
Qed.

(** X7.  The commands that step and the events that report progress assign
    no session state: [stepIn], [stepOver], the breakpoint commands,
    [evaluateExpression], [closeSession] and the output, continued, thread,
    breakpoint and custom events leave [_state] as it is, and so does
    [continue] unless it hands over to the configuration (state
    Configuring in attach mode).  So once the state is Stopped no sequence
    of them brings it back to Running. *)
Theorem stepping_keeps_the_state (W : World) (d : Debugger) :
  (forall l, keepsState l = true -> _state (snd (step W l d)) = _state d) /\
  (~ (_state d = CONFIGURING /\ _attachMode d = true) ->
   _state (snd (continue W d)) = _state d) /\
  (forall ls, forallb resumes ls = true -> _state d = STOPPED ->
              _state (execute W ls d) = STOPPED).
Proof.
  split; [intros l Hl; apply step_keeps_state; exact Hl |].
  split; [apply continue_keeps_state |].
  intro ls; revert d; induction ls as [| l rest IH]; intros d Hls Hd; simpl in *;
    [exact Hd |].
  apply andb_prop in Hls; destruct Hls as [Hl Hrest].
  assert (Hstep : _state (snd (step W l d)) = STOPPED).
  { destruct (keepsState l) eqn:Hk.
    - rewrite step_keeps_state by exact Hk; exact Hd.
    - destruct l; simpl in Hl, Hk; try discriminate.
      change (step W CallContinue d) with (continue W d).
      rewrite continue_keeps_state; [exact Hd |].
      rewrite Hd; intros [H _]; discriminate H. }
  destruct (step W l d) as [[[] | e | c] d1]; simpl in Hstep;
    try apply IH; assumption.
Qed.

Lemma stepping_keeps_the_state_witness :
  _state Scenario.stopped = STOPPED /\
  _state
    (execute Scenario.world
       [CallContinue;
        EventContinued {| continued_threadId := Some 1;
                          continued_allThreadsContinued := Some true |};
        CallStepIn; CallStepOver]
       Scenario.stopped) = STOPPED.
Proof.
  assert (Hs : _state Scenario.stopped = STOPPED) by (vm_compute; reflexivity).
  split; [exact Hs |].
  destruct (stepping_keeps_the_state Scenario.world Scenario.stopped) as (_ & _ & H).
  apply H; [reflexivity | exact Hs].
Defined.

(** ** The run command in the state Configuring *)



(** ** A stop while a thread is stopped already *)

(** X9.  A stopped event that arrives while some thread is stopped already
    is not a first stop: [_onStopped] records the breakpoint id of the event
    and the threads it stops, and leaves the state and console input as
    they are; it sends no request and prints nothing but the complaint
    about an event that names no thread. *)
Theorem later_stop_is_recorded_only (W : World) (event : StoppedEvent) (d : Debugger) :
  ThreadCollection.allThreadsRunning (_threads d) = false ->
  let d' := snd (_onStopped W event d) in
  _stoppedAtBreakpointId d' = stopped_breakpointId event /\
  _state d' = _state d /\
  inputEnabled d' = inputEnabled d /\
  _activeThread d' = _activeThread d /\
  (effects d' = effects d \/
   (stopped_threadId event = None /\
    effects d' = OutputLine "stop event with no thread information." :: effects d)).
Proof.
  intro H; unfold _onStopped.
  rewrite bind_Ret
    with (a := tt) (d1 := set_stoppedAtBreakpointId (stopped_breakpointId event) d)
    by reflexivity.
  unfold bind at 1; unfold get.
  destruct event as [description threadId allStopped breakpointId]; cbn.
  rewrite !H.
  destruct description as [description |], allStopped as [[] |],
        threadId as [threadId |];
    unfold bind, updateThreadCollection, outputLine, modify, ret, nullthrows, throw;
    cbn;
    try (match goal with |- context [find ?f ?l] => destruct (find f l) end; cbn);
    auto 10.
Qed.

Lemma later_stop_is_recorded_only_witness :
  ThreadCollection.allThreadsRunning (_threads Scenario.stopped) = false /\
  _state (snd (_onStopped Scenario.world Scenario.stoppedOnThread1 Scenario.stopped))
  = STOPPED.
Proof.
  assert (H : ThreadCollection.allThreadsRunning (_threads Scenario.stopped) = false)
    by (vm_compute; reflexivity).
  split; [exact H |].
  destruct (later_stop_is_recorded_only Scenario.world Scenario.stoppedOnThread1
              Scenario.stopped H) as (_ & Hstate & _).
  rewrite Hstate; vm_compute; reflexivity.
Defined.

(** ** Breakpoint events *)

Lemma getBreakpointById_has_index (id : Z) (c : BreakpointCollection.t) (b : Breakpoint) :
  BreakpointCollection.getBreakpointById id c = Some b ->
  BreakpointCollection.getBreakpointByIndex (bp_index b) c <> None.
Proof.
  unfold BreakpointCollection.getBreakpointById,
    BreakpointCollection.getBreakpointByIndex.
  intros Hid Hnone; apply find_some in Hid; destruct Hid as [Hin _].
  apply (find_none _ _ Hnone) in Hin; rewrite Z.eqb_refl in Hin; discriminate Hin.
Qed.

(** X10.  [_onBreakpointEvent] never throws.  It ignores an event without
    an id and one whose reason is neither "new" nor "changed"; for a
    breakpoint id the collection does not hold (a breakpoint the adapter
    reports as new, for one) it adds no breakpoint and prints "Failed to
    verify breakpoint."; and for an id the collection holds it prints
    nothing and changes the collection only. *)
Theorem breakpoint_event_reports_unknown_id (event : BreakpointEvent) (d : Debugger) :
  let r := _onBreakpointEvent event d in
  fst r = Ret tt /\
  (breakpoint_id event = None -> r = (Ret tt, d)) /\
  (breakpoint_reason event <> "new" -> breakpoint_reason event <> "changed" ->
   r = (Ret tt, d)) /\
  (forall id,
     breakpoint_id event = Some id ->
     breakpoint_reason event = "new" \/ breakpoint_reason event = "changed" ->
     match BreakpointCollection.getBreakpointById id (_breakpoints d) with
     | None => r = (Ret tt, emit (OutputLine "Failed to verify breakpoint.") d)
     | Some _ => sameButBreakpoints d (snd r)
     end).
Proof.
  unfold _onBreakpointEvent.
  destruct event as [reason [id |] verified]; cbn [breakpoint_id breakpoint_reason
                                                    breakpoint_verified].
  2: { repeat split; try reflexivity; intros; discriminate. }
  assert (Hcaught :
    forall d,
      match BreakpointCollection.getBreakpointById id (_breakpoints d) with
      | None =>
          try_catch
            (d <- get ;;
             match BreakpointCollection.getBreakpointById id (_breakpoints d) with
             | Some breakpoint =>
                 updateBreakpoints "for this id"
                   (BreakpointCollection.setBreakpointVerified (bp_index breakpoint)
                      verified)
             | None => throw "There is no breakpoint for this id"
             end)
            (fun _ => outputLine "Failed to verify breakpoint.") d
          = (Ret tt, emit (OutputLine "Failed to verify breakpoint.") d)
      | Some b =>
          exists c,
          try_catch
            (d <- get ;;
             match BreakpointCollection.getBreakpointById id (_breakpoints d) with
             | Some breakpoint =>
                 updateBreakpoints "for this id"
                   (BreakpointCollection.setBreakpointVerified (bp_index breakpoint)
                      verified)
             | None => throw "There is no breakpoint for this id"
             end)
            (fun _ => outputLine "Failed to verify breakpoint.") d
          = (Ret tt, set_breakpoints c d)
      end).
  { intro x; unfold try_catch.
    rewrite bind_Ret with (a := x) (d1 := x) by reflexivity.
    destruct (BreakpointCollection.getBreakpointById id (_breakpoints x)) as [b |] eqn:E;
      [| reflexivity].
    pose proof (getBreakpointById_has_index _ _ _ E) as Hindex.
    unfold updateBreakpoints.
    rewrite bind_Ret with (a := x) (d1 := x) by reflexivity.
    unfold BreakpointCollection.setBreakpointVerified, BreakpointCollection.update.
    destruct (BreakpointCollection.getBreakpointByIndex (bp_index b) (_breakpoints x));
      [| contradiction].
    eexists; reflexivity. }
  specialize (Hcaught d).
  split; [| split; [| split]].
  - destruct (_ || _); [| reflexivity].
    destruct (BreakpointCollection.getBreakpointById id (_breakpoints d));
      [destruct Hcaught as [c ->] | rewrite Hcaught]; reflexivity.
  - intro H; discriminate H.
  - intros Hnew Hchanged.
    apply String.eqb_neq in Hnew, Hchanged; rewrite Hnew, Hchanged; reflexivity.
  - intros id' Hid Hreason; injection Hid as <-.
    replace (String.eqb reason "new" || String.eqb reason "changed") with true
      by (destruct Hreason as [-> | ->]; reflexivity).
    destruct (BreakpointCollection.getBreakpointById id (_breakpoints d));
      [destruct Hcaught as [c ->]; destruct d; reflexivity | exact Hcaught].
Qed.

Lemma breakpoint_event_reports_unknown_id_witness :
  _onBreakpointEvent
    {| breakpoint_reason := "new"; breakpoint_id := Some 7; breakpoint_verified := true |}
    Scenario.stopped
  = (Ret tt, emit (OutputLine "Failed to verify breakpoint.") Scenario.stopped).
Proof.
  destruct (breakpoint_event_reports_unknown_id
              {| breakpoint_reason := "new"; breakpoint_id := Some 7;
                 breakpoint_verified := true |} Scenario.stopped)
    as (_ & _ & _ & H).
  specialize (H 7 eq_refl (or_introl eq_refl)).
  assert (E : BreakpointCollection.getBreakpointById 7 (_breakpoints Scenario.stopped)
              = None) by (vm_compute; reflexivity).
  rewrite E in H; exact H.
Defined.

(** ** Deleting breakpoints *)

Lemma ensureDebugSession_running (d : Debugger) :
  _debugSession d <> None -> ~ beforeRun d ->
  exists s, _ensureDebugSession false d = (Ret s, d).
Proof.
  intros Hs Hb; unfold _ensureDebugSession, bind, get.
  destruct (_debugSession d) as [s |]; [| contradiction].
  exists s; destruct (_state d) eqn:E; try reflexivity;
    destruct Hb; unfold beforeRun; auto.
Qed.

Lemma sentRequests_emit_Send (r : Request) (d : Debugger) :
  sentRequests (emit (Send r) d) = r :: sentRequests d.
Proof. reflexivity. Qed.

(** A request whose response is dropped: it is sent, and returns or
    throws. *)
Lemma send_discarded (W : World) (r : Request) (d : Debugger) :
  exists o, (o = Ret tt \/ exists e, o = Throw e) /\
            (send W r ;; ret tt) d = (o, emit (Send r) d).
Proof.
  destruct (send_cases W r d) as [[resp H] | [e H]].
  - exists (Ret tt); split; [left; reflexivity |].
    rewrite bind_Ret with (1 := H); reflexivity.
  - exists (Throw e); split; [right; eauto |].
    rewrite bind_Throw with (1 := H); reflexivity.
Qed.

(** The requests of [deleteAllBreakpoints] are all sent, whatever the
    answers. *)
Lemma promiseAll_clears_every_path (W : World) (paths : list string) (d : Debugger) :
  exists o d',
    promiseAll (map (fun path => send W (ReqSetBreakpoints path []) ;; ret tt) paths) d
    = (o, d') /\
    (o = Ret tt \/ exists e, o = Throw e) /\
    _breakpoints d' = _breakpoints d /\
    sentRequests d'
    = (rev (map (fun path => ReqSetBreakpoints path []) paths) ++ sentRequests d)%list.
Proof.
  revert d; induction paths as [| path rest IH]; intro d; simpl.
  - exists (Ret tt), d; auto.
  - destruct (send_discarded W (ReqSetBreakpoints path []) d) as (o & Ho & ->).
    destruct (IH (emit (Send (ReqSetBreakpoints path [])) d))
      as (o' & d' & -> & Ho' & Hb & Hsent).
    assert (Hsent' :
      sentRequests d'
      = ((rev (map (fun path => ReqSetBreakpoints path []) rest)
          ++ [ReqSetBreakpoints path []]) ++ sentRequests d)%list).
    { rewrite Hsent, sentRequests_emit_Send, <- app_assoc; reflexivity. }
    destruct Ho as [-> | [e ->]].
    + exists o', d'; auto.
    + destruct Ho' as [-> | [e' ->]]; exists (Throw e), d'; eauto 6.
Qed.



Lemma find_filter_other (index : Z) (l : list Breakpoint) :
  find (fun b => bp_index b =? index)
    (filter (fun b => negb (bp_index b =? index)) l) = None.
Proof.
  induction l as [| b rest IH]; simpl; [reflexivity |].
  destruct (bp_index b =? index) eqn:E; simpl; [exact IH |].
  rewrite E; exact IH.
Qed.

(** X12.  [deleteBreakpoint], with a running session, for a breakpoint the
    collection holds: the breakpoint is deleted from the collection before
    the adapter is told, and the deletion is not undone when the request is
    rejected.  For a breakpoint with a path the request lists the enabled
    breakpoints that are left for the path; for a function breakpoint no
    request is sent: the adapter keeps the breakpoint. *)
Theorem deleteBreakpoint_is_not_undone (W : World) (d : Debugger) (index : Z)
    (b : Breakpoint) :
  _debugSession d <> None -> ~ beforeRun d -> stored index d = Some b ->
  let r := deleteBreakpoint W index d in
  stored index (snd r) = None /\
  match bp_path b with
  | Some path =>
      sentRequests (snd r)
      = ReqSetBreakpoints path
          (map bp_line
             (BreakpointCollection.getAllEnabledBreakpointsForSource path
                (_breakpoints (snd r))))
        :: sentRequests d
  | None => fst r = Ret tt /\ effects (snd r) = effects d
  end.
Proof.
  intros Hs Hb Hstored; cbv zeta.
  destruct (ensureDebugSession_running d Hs Hb) as [s Hsession].
  unfold deleteBreakpoint.
  rewrite bind_Ret with (1 := Hsession).
  unfold stored in Hstored.
  rewrite bind_Ret with (a := b) (d1 := d)
    by (unfold getBreakpointByIndex, bind, get; rewrite Hstored; reflexivity).
  set (c := {| BreakpointCollection.items :=
                 filter (fun b => negb (bp_index b =? index))
                   (BreakpointCollection.items (_breakpoints d));
               BreakpointCollection.nextIndex :=
                 BreakpointCollection.nextIndex (_breakpoints d) |}).
  rewrite bind_Ret with (a := tt) (d1 := set_breakpoints c d)
    by (unfold updateBreakpoints, bind, get, BreakpointCollection.deleteBreakpoint;
        rewrite Hstored; reflexivity).
  assert (Hgone : stored index (set_breakpoints c d) = None)
    by (apply find_filter_other).
  destruct (bp_path b) as [path |]; [| split; [exact Hgone | split; reflexivity]].
  rewrite bind_Ret with (a := set_breakpoints c d) (d1 := set_breakpoints c d)
    by reflexivity.
  match goal with
  | |- context [send W ?r] =>
      destruct (send_discarded W r (set_breakpoints c d)) as (o & _ & ->)
  end.
  split; [exact Hgone | reflexivity].
Qed.

Lemma deleteBreakpoint_is_not_undone_witness :
  _debugSession Scenario.stopped <> None /\ ~ beforeRun Scenario.stopped /\
  stored 1 Scenario.stopped <> None /\
  fst (deleteBreakpoint Scenario.rejecting 1 Scenario.stopped)
  = Throw "setBreakpoints failed" /\
  stored 1 (snd (deleteBreakpoint Scenario.rejecting 1 Scenario.stopped)) = None.
Proof.
  assert (Hs : _debugSession Scenario.stopped <> None) by (vm_compute; discriminate).
  assert (Hb : ~ beforeRun Scenario.stopped)
    by (intros [H | H]; vm_compute in H; discriminate H).
  destruct (stored 1 Scenario.stopped) as [b |] eqn:Hstored;
    [| vm_compute in Hstored; discriminate Hstored].
  split; [exact Hs |]; split; [exact Hb |]; split; [discriminate |].
  split; [vm_compute; reflexivity |].
  exact (proj1 (deleteBreakpoint_is_not_undone Scenario.rejecting Scenario.stopped 1 b
                  Hs Hb Hstored)).
Defined.

(** ** A breakpoint the adapter rejects *)

(** X13.  [setSourceBreakpoint], once the program was started: the
    breakpoint is added to the collection before the adapter is told, the
    request lists its line, and when the adapter rejects the request the
    command throws the adapter's message and the breakpoint stays in the
    collection, enabled, under an index the command has not returned. *)
Theorem setSourceBreakpoint_rejected_stays (W : World) (d : Debugger) (path : string)
    (line : Z) (e : string) :
  let added := BreakpointCollection.addSourceBreakpoint path line (_breakpoints d) in
  let request :=
    ReqSetBreakpoints path
      (map bp_line
         (BreakpointCollection.getAllEnabledBreakpointsForSource path (snd added))) in
  _debugSession d <> None -> _state d <> CONFIGURING ->
  respond W (sentRequests d) request = inl e ->
  setSourceBreakpoint W path line d
  = (Throw e, emit (Send request) (set_breakpoints (snd added) d)) /\
  In {| bp_index := fst added; bp_kind := SourceBreakpoint path line;
        bp_enabled := true; bp_id := None; bp_verified := false; bp_message := None |}
     (BreakpointCollection.getAllEnabledBreakpointsForSource path (snd added)).
Proof.
  cbv zeta; intros Hs Hc Hrejected; split.
  - destruct (_debugSession d) as [s |] eqn:E; [| contradiction].
    unfold setSourceBreakpoint.
    rewrite bind_Ret with (a := s) (d1 := d)
      by (apply ensureDebugSession_allowed; exact E).
    rewrite bind_Ret
      with (a := fst (BreakpointCollection.addSourceBreakpoint path line (_breakpoints d)))
           (d1 := set_breakpoints
                    (snd (BreakpointCollection.addSourceBreakpoint path line
                            (_breakpoints d))) d)
      by reflexivity.
    unfold bind at 1; unfold get; cbn [_state set_breakpoints].
    replace (SessionState_eqb (_state d) CONFIGURING) with false
      by (destruct (_state d); try reflexivity; contradiction).
    cbn [negb].
    unfold _setSourceBreakpointsForPath.
    rewrite bind_Throw with (e := e)
      (d1 := emit
               (Send
                  (ReqSetBreakpoints path
                     (map bp_line
                        (BreakpointCollection.getAllEnabledBreakpointsForSource path
                           (snd (BreakpointCollection.addSourceBreakpoint path line
                                   (_breakpoints d)))))))
               (set_breakpoints
                  (snd (BreakpointCollection.addSourceBreakpoint path line
                          (_breakpoints d))) d));
      [reflexivity |].
    unfold bind at 1; unfold get; cbn [_breakpoints set_breakpoints].
    apply bind_Throw; unfold send.
    change (sentRequests (set_breakpoints ?c d)) with (sentRequests d).
    rewrite Hrejected; reflexivity.
  - unfold BreakpointCollection.getAllEnabledBreakpointsForSource,
      BreakpointCollection.addSourceBreakpoint, BreakpointCollection.add; cbn [snd fst
      BreakpointCollection.items].
    apply filter_In; split; [apply in_or_app; right; left; reflexivity |].
    cbn; apply String.eqb_refl.
Qed.

Lemma setSourceBreakpoint_rejected_stays_witness :
  _debugSession Scenario.stopped <> None /\ _state Scenario.stopped <> CONFIGURING /\
  fst (setSourceBreakpoint Scenario.rejecting "/a.py" 4 Scenario.stopped)
  = Throw "setBreakpoints failed" /\
  option_map bp_enabled
    (stored 2 (snd (setSourceBreakpoint Scenario.rejecting "/a.py" 4 Scenario.stopped)))
  = Some true.
Proof.
  assert (Hs : _debugSession Scenario.stopped <> None) by (vm_compute; discriminate).
  assert (Hc : _state Scenario.stopped <> CONFIGURING) by (vm_compute; discriminate).
  split; [exact Hs |]; split; [exact Hc |].
  assert (Hrejected :
    respond Scenario.rejecting (sentRequests Scenario.stopped)
      (ReqSetBreakpoints "/a.py"
         (map bp_line
            (BreakpointCollection.getAllEnabledBreakpointsForSource "/a.py"
               (snd (BreakpointCollection.addSourceBreakpoint "/a.py" 4
                       (_breakpoints Scenario.stopped))))))
    = inl "setBreakpoints failed") by (vm_compute; reflexivity).
  destruct (setSourceBreakpoint_rejected_stays Scenario.rejecting Scenario.stopped
              "/a.py" 4 "setBreakpoints failed" Hs Hc Hrejected) as [-> _].
  split; [reflexivity | vm_compute; reflexivity].
Defined.

(** ** Events never throw *)

Lemma neverThrows_ret {A : Type} (a : A) : neverThrows (ret a).
Proof. intros d e d'; discriminate. Qed.

Lemma neverThrows_get : neverThrows get.
Proof. intros d e d'; discriminate. Qed.

Lemma neverThrows_modify (f : Debugger -> Debugger) : neverThrows (modify f).
Proof. intros d e d'; discriminate. Qed.

Lemma neverThrows_process_exit {A : Type} (c : Z) : neverThrows (@process_exit A c).
Proof. intros d e d'; discriminate. Qed.

Lemma neverThrows_detached (m : M unit) : neverThrows (detached m).
Proof. intros d e d'; apply detached_never_throws. Qed.

Lemma neverThrows_bind {A B : Type} (m : M A) (k : A -> M B) :
  neverThrows m -> (forall a, neverThrows (k a)) -> neverThrows (bind m k).
Proof.
  intros Hm Hk d e d'; unfold bind.
  destruct (m d) as [[a | e0 | c] d1] eqn:E; [apply Hk | | discriminate].
  destruct (Hm d e0 d1 E).
Qed.

Lemma neverThrows_try_catch {A : Type} (m : M A) (h : string -> M A) :
  (forall e, neverThrows (h e)) -> neverThrows (try_catch m h).
Proof.
  intros Hh d e d'; unfold try_catch.
  destruct (m d) as [[a | e0 | c] d1]; [discriminate | apply Hh | discriminate].
Qed.

Ltac no_throw_step :=
  lazymatch goal with
  | |- neverThrows (ret _) => apply neverThrows_ret
  | |- neverThrows get => apply neverThrows_get
  | |- neverThrows (modify _) => apply neverThrows_modify
  | |- neverThrows (process_exit _) => apply neverThrows_process_exit
  | |- neverThrows (detached _) => apply neverThrows_detached
  | |- neverThrows (bind _ _) => apply neverThrows_bind; [ | intro ]
  | |- neverThrows (try_catch _ _) => apply neverThrows_try_catch; intro
  | |- neverThrows (let _ := _ in _) => cbv zeta
  | |- neverThrows (if ?b then _ else _) => destruct b
  | |- neverThrows (match ?x with _ => _ end) => destruct x
  end.

Ltac no_throw := repeat no_throw_step.

(** The handlers of the events that end the debuggee assert that there is
    an adapter, and drop the promise of [relaunch]. *)
Lemma ending_never_throws (W : World) (d : Debugger) :
  _adapter d <> None ->
  neverThrows
    (invariant (isSome (_adapter d)) "AssertionError" ;;
     if negb (_attachMode d) then startInput ;; detached (relaunch W)
     else process_exit 0).
Proof.
  intro Ha; destruct (_adapter d); [| contradiction].
  unfold invariant, isSome, startInput; no_throw.
Qed.

Lemma neverThrows_onOutput (event : OutputEvent) : neverThrows (_onOutput event).
Proof. unfold _onOutput, output; no_throw. Qed.

Lemma neverThrows_onBreakpointEvent (event : BreakpointEvent) :
  neverThrows (_onBreakpointEvent event).
Proof. unfold _onBreakpointEvent, outputLine; no_throw. Qed.

Lemma neverThrows_onCustomEvent (event : string) : neverThrows (_onCustomEvent event).
Proof.
  unfold _onCustomEvent, _onReadyForEvaluations, _startConfigurationInput, startInput;
    no_throw.
Qed.

Lemma event_never_throws (W : World) (l : Label) (d : Debugger) :
  isGuardedEvent l = true -> _adapter d <> None ->
  forall e d', step W l d <> (Throw e, d').
Proof.
  intros Hl Ha.
  destruct l; simpl in Hl; try discriminate Hl; clear Hl;
    unfold step.
  - apply neverThrows_detached.
  - apply neverThrows_onOutput.
  - apply neverThrows_detached.
  - unfold _onExitedDebugee.
    rewrite bind_Ret with (a := tt) (d1 := set_state TERMINATED d) by reflexivity.
    match goal with
    | |- context [bind (outputLine ?t) ?k ?x] =>
        rewrite (@bind_Ret unit unit (outputLine t) k x (emit (OutputLine t) x) tt)
          by reflexivity
    end.
    unfold bind at 1; unfold get.
    apply ending_never_throws; exact Ha.
  - unfold _onTerminatedDebugee, bind at 1; unfold get.
    destruct (negb (SessionState_eqb (_state d) RUNNING)); [discriminate |].
    rewrite bind_Ret with (a := tt) (d1 := set_state TERMINATED d) by reflexivity.
    rewrite bind_Ret
      with (a := tt)
           (d1 := emit (OutputLine "The target has exited.") (set_state TERMINATED d))
      by reflexivity.
    apply ending_never_throws; exact Ha.
  - unfold _onAdapterExited, bind at 1; unfold get.
    destruct (SessionState_eqb (_state d) INITIALIZING); [discriminate |].
    rewrite bind_Ret with (a := tt) (d1 := set_state TERMINATED d) by reflexivity.
    apply ending_never_throws; exact Ha.
  - apply neverThrows_onBreakpointEvent.
  - apply neverThrows_onCustomEvent.
Qed.

(** X14.  Once an adapter was launched, the initialized, output, stopped,
    exited, terminated, adapter-exited, breakpoint and custom events do not
    throw into the session that delivers them, at any point of any
    execution: the handlers that the session does not await
    ([_onInitialized], [_onStopped]) keep their rejection, the handlers of
    the events that end the debuggee find the adapter they assert and drop
    the promise of [relaunch], and the others have nothing that throws
    outside a [try]. *)
Theorem events_never_throw (W : World) (ls : list Label) (l : Label) (d : Debugger) :
  _adapter d <> None -> isGuardedEvent l = true ->
  forall e d', step W l (execute W ls d) <> (Throw e, d').
Proof.
  intros Ha Hl; apply event_never_throws;
    [exact Hl | apply execute_keeps_an_adapter; exact Ha].
Qed.

Lemma events_never_throw_witness :
  _adapter Scenario.running <> None /\
  forall e d',
    step Scenario.broken (EventExited 1)
      (execute Scenario.broken [CallStepIn] Scenario.running) <> (Throw e, d').
Proof.
  assert (Ha : _adapter Scenario.running <> None) by (vm_compute; discriminate).
  split; [exact Ha |].
  exact (events_never_throw Scenario.broken [CallStepIn] (EventExited 1)
           Scenario.running Ha eq_refl).
Defined.

(** ** Where the process can be left *)

Lemma neverExits_updateBreakpoints (what : string)
    (f : BreakpointCollection.t -> option BreakpointCollection.t) :
  neverExits (updateBreakpoints what f).
Proof. unfold updateBreakpoints; no_exit. Qed.

Lemma neverExits_getBreakpointByIndex (index : Z) :
  neverExits (getBreakpointByIndex index).
Proof. unfold getBreakpointByIndex; no_exit. Qed.

Lemma neverExits_getActiveThread : neverExits getActiveThread.
Proof. unfold getActiveThread; no_exit. Qed.

Lemma neverExits_getStackTrace (W : World) (thread levels : Z) :
  neverExits (getStackTrace W thread levels).
Proof. unfold getStackTrace, expectStackTrace; no_exit. Qed.

#[export] Hint Resolve neverExits_updateBreakpoints neverExits_getBreakpointByIndex
  neverExits_getActiveThread neverExits_getStackTrace : exits.

Lemma neverExits_getCurrentStackFrame (W : World) : neverExits (getCurrentStackFrame W).
Proof. unfold getCurrentStackFrame; no_exit. Qed.

Lemma neverExits_getSourceLines (W : World) (source : Source) (start length : Z) :
  neverExits (getSourceLines W source start length).
Proof.
  unfold getSourceLines, sourceLines, getFileDataBySourceReference, getFileDataByPath,
    _getSourceByReference, expectSource; no_exit.
Qed.

Lemma neverExits_updateBreakpoint (local : Breakpoint) (remote : option AdapterBreakpoint) :
  neverExits (_updateBreakpoint local remote).
Proof. unfold _updateBreakpoint; no_exit. Qed.

#[export] Hint Resolve neverExits_getCurrentStackFrame neverExits_getSourceLines
  neverExits_updateBreakpoint : exits.

Lemma neverExits_reconcile (paired : list (Breakpoint * option AdapterBreakpoint)) :
  neverExits (reconcile paired).
Proof. unfold reconcile; no_exit. Qed.

#[export] Hint Resolve neverExits_reconcile : exits.

Lemma neverExits_setSourceBreakpointsForPath (W : World) (path : string)
    (indexOfInterest : option Z) :
  neverExits (_setSourceBreakpointsForPath W path indexOfInterest).
Proof. unfold _setSourceBreakpointsForPath, expectBreakpoints; no_exit. Qed.

Lemma neverExits_setFunctionBreakpoints (W : World) (indexOfInterest : Z) :
  neverExits (_setFunctionBreakpoints W indexOfInterest).
Proof. unfold _setFunctionBreakpoints, expectBreakpoints; no_exit. Qed.

Lemma neverExits_resetAllFunctionBreakpoints (W : World) :
  neverExits (_resetAllFunctionBreakpoints W).
Proof. unfold _resetAllFunctionBreakpoints, expectBreakpoints; no_exit. Qed.

#[export] Hint Resolve neverExits_setSourceBreakpointsForPath
  neverExits_setFunctionBreakpoints neverExits_resetAllFunctionBreakpoints : exits.

Lemma neverExits_resetAllBreakpoints (W : World) : neverExits (_resetAllBreakpoints W).
Proof.
  unfold _resetAllBreakpoints; no_exit.
  apply neverExits_promiseAll, Forall_app; split;
    [| constructor; [apply neverExits_resetAllFunctionBreakpoints | constructor]].
  apply Forall_map, Forall_forall; intros entry _.
  unfold expectBreakpoints; no_exit.
Qed.

Lemma neverExits_cacheThreads (W : World) : neverExits (_cacheThreads W).
Proof. unfold _cacheThreads, expectThreads, updateThreadCollection; no_exit. Qed.

Lemma neverExits_setFocusThread (threadId : Z) : neverExits (setFocusThread threadId).
Proof. unfold setFocusThread; no_exit. Qed.

#[export] Hint Resolve neverExits_resetAllBreakpoints neverExits_cacheThreads
  neverExits_setFocusThread : exits.

Lemma neverExits_getTopOfStackSourceInfo (W : World) (threadId : Z) :
  neverExits (_getTopOfStackSourceInfo W threadId).
Proof. unfold _getTopOfStackSourceInfo; no_exit. Qed.

#[export] Hint Resolve neverExits_getTopOfStackSourceInfo : exits.

Lemma neverExits_onStopped (W : World) (event : StoppedEvent) :
  neverExits (_onStopped W event).
Proof.
  unfold _onStopped, outputLine, updateThreadCollection, startInput; no_exit.
Qed.

Lemma neverExits_continue_try (W : World) : neverExits (continue_try W).
Proof. unfold continue_try, stopInput; no_exit. Qed.

Lemma step_never_exits (W : World) (l : Label) :
  reachesExit l = false -> neverExits (step W l).
Proof.
  destruct l; simpl; intro Hl; try discriminate Hl; clear Hl.
  - unfold breakInto; no_exit.
  - unfold stepIn; no_exit.
  - unfold stepOver; no_exit.
  - unfold setSelectedStackFrame, updateThreadCollection; no_exit.
  - unfold discard, setSourceBreakpoint, addBreakpoint; no_exit.
  - unfold discard, setFunctionBreakpoint, addBreakpoint; no_exit.
  - unfold discard; no_exit.
  - unfold setAllBreakpointsEnabled, breakpoint_setEnabled; no_exit.
  - unfold setBreakpointEnabled, breakpoint_setEnabled; no_exit.
  - unfold toggleAllBreakpoints, breakpoint_setEnabled; no_exit.
  - unfold toggleBreakpoint, breakpoint_setEnabled; no_exit.
  - unfold deleteAllBreakpoints; no_exit.
    apply neverExits_promiseAll, Forall_map, Forall_forall; intros path _; no_exit.
  - unfold deleteBreakpoint; no_exit.
  - unfold discard, evaluateExpression; no_exit.
  - apply neverExits_closeSession.
  - unfold _onOutput, output; no_exit.
  - unfold _onContinued, updateThreadCollection, stopInput; no_exit.
  - apply neverExits_detached, neverExits_onStopped.
  - unfold _onThread, updateThreadCollection; no_exit.
  - unfold _onBreakpointEvent, outputLine; no_exit.
  - unfold _onCustomEvent, _onReadyForEvaluations, _startConfigurationInput, startInput;
      no_exit.
Qed.

Lemma continue_launched_never_exits (W : World) (d : Debugger) (c : Z) (d' : Debugger) :
  _attachMode d = false -> continue W d <> (Exit c, d').
Proof.
  intros Ha H; unfold continue in H.
  destruct (try_catch (continue_try W) (fun error => startInput ;; throw error) d)
    as [[configure | e | c0] d1] eqn:E;
    [ rewrite bind_Ret with (1 := E) in H
    | rewrite bind_Throw with (1 := E) in H; discriminate H
    | rewrite bind_Exit with (1 := E) in H ].
  - destruct configure; [| discriminate H].
    unfold try_catch in E.
    destruct (continue_try W d) as [[configure | e | c0] d2] eqn:E2.
    + injection E as -> ->.
      destruct (continue_try_configures W d d1 E2) as [_ Hattach].
      rewrite Ha in Hattach; discriminate Hattach.
    + discriminate E.
    + discriminate E.
  - revert E; apply neverExits_try_catch; [apply neverExits_continue_try |].
    intro e; unfold startInput; no_exit.
Qed.

Lemma onInitialized_launched_never_exits (W : World) (d : Debugger) (c : Z)
    (d' : Debugger) :
  _attachMode d = false -> detached (_onInitialized W) d <> (Exit c, d').
Proof.
  intro Ha; revert c d'.
  cut (forall c d', _onInitialized W d <> (Exit c, d')).
  { intros H c d' H'; unfold detached in H'.
    destruct (_onInitialized W d) as [[[] | e | c0] d1] eqn:E; try discriminate H'.
    exact (H c0 d1 eq_refl). }
  unfold _onInitialized, bind at 1; unfold get; rewrite Ha.
  cut (neverExits
         (invariant (isSome (_adapter d)) "AssertionError" ;;
          modify (set_state CONFIGURING) ;; _startConfigurationInput));
    [intros H c d'; apply H |].
  unfold _startConfigurationInput, startInput; no_exit.
Qed.

(** X15.  The process can be left by [launch], [relaunch], [run],
    [continue] and by the initialized, exited, terminated and adapter-exited
    events only: no other command or event reaches [process.exit], whatever
    the adapter answers; and for a launched program, neither do [continue]
    and the initialized event, which configure at once in attach mode
    only. *)
Theorem process_left_by_few (W : World) (d : Debugger) (c : Z) (d' : Debugger) :
  (forall l, reachesExit l = false -> step W l d <> (Exit c, d')) /\
  (_attachMode d = false ->
   step W CallContinue d <> (Exit c, d') /\ step W EventInitialized d <> (Exit c, d')).
Proof.
  split.
  - intros l Hl; apply step_never_exits; exact Hl.
  - intro Ha; split;
      [apply continue_launched_never_exits | apply onInitialized_launched_never_exits];
      exact Ha.
Qed.

Lemma process_left_by_few_witness :
  _attachMode Scenario.configuring = false /\
  forall c d',
    step Scenario.unconfigurable CallContinue Scenario.configuring <> (Exit c, d').
Proof.
  assert (Ha : _attachMode Scenario.configuring = false) by (vm_compute; reflexivity).
  split; [exact Ha |].
  intros c d'.
  exact (proj1 (proj2 (process_left_by_few Scenario.unconfigurable Scenario.configuring
                         c d') Ha)).
Defined.

(** ** The order of the requests of the configuration *)

Lemma sentSince_start (Q : Request -> bool) (d : Debugger) : sentSince Q d d.
Proof. exists []; split; reflexivity. Qed.

Lemma sentSince_same (Q : Request -> bool) (d0 d d' : Debugger) :
  sentRequests d' = sentRequests d -> sentSince Q d0 d -> sentSince Q d0 d'.
Proof. intros H (l & Hl & HQ); exists l; rewrite H; auto. Qed.

Lemma sentSince_send (W : World) (Q : Request -> bool) (d0 : Debugger) (r : Request) :
  Q r = true -> preserves (sentSince Q d0) (send W r).
Proof.
  intros Hr d (l & Hl & HQ).
  destruct (send_cases W r d) as [[resp ->] | [e ->]]; simpl;
    exists (r :: l); rewrite sentRequests_emit_Send, Hl; simpl; rewrite Hr; auto.
Qed.

Lemma sentSince_reconcile (Q : Request -> bool) (d0 : Debugger)
    (paired : list (Breakpoint * option AdapterBreakpoint)) :
  preserves (sentSince Q d0) (reconcile paired).
Proof.
  apply preserves_reconcile; intros v d; apply sentSince_same; reflexivity.
Qed.

Lemma sentSince_expectBreakpoints (Q : Request -> bool) (d0 : Debugger) (r : Response) :
  preserves (sentSince Q d0) (expectBreakpoints r).
Proof. destruct r; simpl; first [apply preserves_ret | apply preserves_throw]. Qed.

(** The requests of [_resetAllBreakpoints] set breakpoints. *)
Lemma resetAllBreakpoints_sends_breakpoints (W : World) (d0 : Debugger) :
  preserves (sentSince isBreakpointRequest d0) (_resetAllBreakpoints W).
Proof.
  assert (Htask :
    forall (r : Request) (locals : list Breakpoint),
      isBreakpointRequest r = true ->
      preserves (sentSince isBreakpointRequest d0)
        (resp <- send W r ;;
         out <- expectBreakpoints resp ;;
         reconcile (pairWith locals out) ;;
         ret tt)).
  { intros r locals Hr.
    apply preserves_bind; [apply sentSince_send; exact Hr | intro resp].
    apply preserves_bind; [apply sentSince_expectBreakpoints | intro out].
    apply preserves_bind; [apply sentSince_reconcile | intro; apply preserves_ret]. }
  unfold _resetAllBreakpoints.
  apply preserves_bind; [apply preserves_ensureDebugSession | intros _].
  apply preserves_bind; [apply preserves_get | intro d].
  apply preserves_promiseAll, Forall_app; split.
  - apply Forall_map, Forall_forall; intros entry _; apply Htask; reflexivity.
  - constructor; [| constructor].
    unfold _resetAllFunctionBreakpoints.
    apply preserves_bind; [apply preserves_ensureDebugSession | intros _].
    apply preserves_bind; [apply preserves_get | intro x].
    destruct (_ || _); [apply preserves_ret | apply Htask; reflexivity].
Qed.

(** The end of [_configurationDone] for a launched program: the threads are
    asked for, and console input is disabled. *)
Lemma configuration_ends (W : World) (d : Debugger) :
  _debugSession d <> None -> _attachMode d = false ->
  exists o d',
    (_cacheThreads W ;;
     d <- get ;;
     if _attachMode d then modify (set_configured true) ;; _pauseAfterAttach W
     else stopInput) d = (o, d') /\
    sentRequests d' = ReqThreads :: sentRequests d.
Proof.
  intros Hs Ha.
  assert (Hcache :
    exists o d', _cacheThreads W d = (o, d') /\
                 (forall c, o <> Exit c) /\
                 sentRequests d' = ReqThreads :: sentRequests d /\
                 _attachMode d' = false).
  { unfold _cacheThreads, bind at 1; unfold get.
    destruct (_debugSession d); [| contradiction].
    rewrite bind_Ret with (a := tt) (d1 := d) by reflexivity.
    destruct (send_cases W ReqThreads d) as [[resp H] | [e H]].
    - rewrite bind_Ret with (1 := H).
      destruct resp; simpl;
        (eexists; eexists; split; [reflexivity |]; split; [discriminate |];
         split; [reflexivity | exact Ha]).
    - rewrite bind_Throw with (1 := H).
      eexists; eexists; split; [reflexivity |]; split; [discriminate |];
        split; [reflexivity | exact Ha]. }
  destruct Hcache as (o & d1 & Hcache & Ho & Hsent & Hmode).
  destruct o as [[] | e | c]; [| | destruct (Ho c eq_refl)].
  - rewrite bind_Ret with (1 := Hcache).
    unfold bind, get; rewrite Hmode.
    eexists; eexists; split; [reflexivity | exact Hsent].
  - rewrite bind_Throw with (1 := Hcache).
    eexists; eexists; split; [reflexivity | exact Hsent].
Qed.

Lemma configurationDone_trace (W : World) (d : Debugger) :
  _debugSession d <> None -> _attachMode d = false ->
  exists o d' (breakpoints : list Request) (k : nat),
    _configurationDone W d = (o, d') /\
    sentRequests d'
    = (skipn k (configurationRequests (_capabilities d))
       ++ breakpoints ++ sentRequests d)%list /\
    forallb isBreakpointRequest breakpoints = true /\
    (o = Ret tt -> k = 0%nat).
Proof.
  intros Hs Ha.
  destruct (_debugSession d) as [s |] eqn:Hsession; [clear Hs | contradiction].
  unfold _configurationDone.
  rewrite bind_Ret with (a := s) (d1 := d)
    by (apply ensureDebugSession_allowed; exact Hsession).
  rewrite bind_Ret with (a := tt) (d1 := set_state RUNNING d) by reflexivity.
  pose proof (resetAllBreakpoints_sends_breakpoints W (set_state RUNNING d)
                (set_state RUNNING d) (sentSince_start _ _)) as Hsent.
  assert (Hkept :
    let x := snd (_resetAllBreakpoints W (set_state RUNNING d)) in
    _capabilities x = _capabilities d /\ _attachMode x = false
    /\ _debugSession x = Some s).
  { apply (preserves_resetAllBreakpoints W
             (fun x => _capabilities x = _capabilities d /\ _attachMode x = false
                       /\ _debugSession x = Some s)); stable. }
  destruct (_resetAllBreakpoints W (set_state RUNNING d)) as [o d2] eqn:E.
  cbn [snd] in Hsent, Hkept.
  destruct Hsent as (breakpoints & Hsent & Hbreakpoints).
  change (sentRequests (set_state RUNNING d)) with (sentRequests d) in Hsent.
  destruct Hkept as (Hcap & Hmode & Hsession2).
  unfold configurationRequests.
  destruct o as [[] | e | c].
  2: { rewrite bind_Throw with (1 := E).
       exists (Throw e), d2, breakpoints, 3%nat.
       split; [reflexivity |]; split; [| split; [exact Hbreakpoints | discriminate]].
       rewrite Hsent; destruct (truthy _); reflexivity. }
  2: { rewrite bind_Exit with (1 := E).
       exists (Exit c), d2, breakpoints, 3%nat.
       split; [reflexivity |]; split; [| split; [exact Hbreakpoints | discriminate]].
       rewrite Hsent; destruct (truthy _); reflexivity. }
  rewrite bind_Ret with (1 := E).
  destruct (send_cases W ReqSetExceptionBreakpoints d2) as [[resp H] | [e H]].
  2: { rewrite bind_Throw with (1 := H).
       exists (Throw e), (emit (Send ReqSetExceptionBreakpoints) d2), breakpoints.
       destruct (truthy _); [exists 2%nat | exists 1%nat];
         (split; [reflexivity |]; split; [| split; [exact Hbreakpoints | discriminate]];
          rewrite sentRequests_emit_Send, Hsent; reflexivity). }
  rewrite bind_Ret with (1 := H).
  set (d3 := emit (Send ReqSetExceptionBreakpoints) d2).
  assert (Hsent3 : sentRequests d3
                   = (ReqSetExceptionBreakpoints :: breakpoints ++ sentRequests d)%list)
    by (unfold d3; rewrite sentRequests_emit_Send, Hsent; reflexivity).
  rewrite bind_Ret with (a := d3) (d1 := d3) by reflexivity.
  change (_capabilities d3) with (_capabilities d2); rewrite Hcap.
  destruct (truthy (supportsConfigurationDoneRequest (_capabilities d))).
  - destruct (send_cases W ReqConfigurationDone d3) as [[resp' H'] | [e H']].
    + rewrite bind_Ret with (a := tt) (d1 := emit (Send ReqConfigurationDone) d3)
        by (unfold try_catch; rewrite bind_Ret with (1 := H'); reflexivity).
      destruct (configuration_ends W (emit (Send ReqConfigurationDone) d3))
        as (o & d' & -> & Hend); [cbn; rewrite Hsession2; discriminate | exact Hmode |].
      exists o, d', breakpoints, 0%nat; cbn [skipn].
      rewrite Hend, sentRequests_emit_Send, Hsent3; auto.
    + rewrite bind_Exit
        with (c := 0)
             (d1 := emit (ProcessExit 0)
                      (emit (Stderr (failedToDebug e))
                         (emit (Send ReqConfigurationDone) d3)))
        by (unfold try_catch; rewrite bind_Throw with (1 := H'); reflexivity).
      eexists; eexists; exists breakpoints, 1%nat; cbn [skipn].
      split; [reflexivity |]; split; [| split; [exact Hbreakpoints | discriminate]].
      change (sentRequests (emit (ProcessExit 0) (emit (Stderr (failedToDebug e)) ?x)))
        with (sentRequests x).
      rewrite sentRequests_emit_Send, Hsent3; reflexivity.
  - rewrite bind_Ret with (a := tt) (d1 := d3) by reflexivity.
    destruct (configuration_ends W d3)
      as (o & d' & -> & Hend); [cbn; rewrite Hsession2; discriminate | exact Hmode |].
    exists o, d', breakpoints, 0%nat; cbn [skipn].
    rewrite Hend, Hsent3; auto.
Qed.



(** ** Enabling and disabling every breakpoint *)

Lemma preserves_enabled_send (W : World) (j : Z) (e : bool) (r : Request) :
  preserves (enabledIs j e) (send W r).
Proof.
  intros d H; unfold send.
  destruct (respond W (sentRequests d) r); simpl; apply enabledIs_emit, H.
Qed.

Lemma preserves_enabled_reconcile (j : Z) (e : bool)
    (paired : list (Breakpoint * option AdapterBreakpoint)) :
  preserves (enabledIs j e) (reconcile paired).
Proof.
  unfold reconcile; apply preserves_mapM; intro pr.
  apply preserves_bind;
    [apply preserves_enabled_updateBreakpoint | intro; apply preserves_ret].
Qed.

Lemma preserves_enabled_request (W : World) (j : Z) (e : bool) (r : Request)
    (locals : list Breakpoint) :
  preserves (enabledIs j e)
    (resp <- send W r ;;
     out <- expectBreakpoints resp ;;
     reconcile (pairWith locals out) ;;
     ret tt).
Proof.
  apply preserves_bind; [apply preserves_enabled_send | intro resp].
  apply preserves_bind;
    [destruct resp; first [apply preserves_ret | apply preserves_throw] | intro out].
  apply preserves_bind; [apply preserves_enabled_reconcile | intro; apply preserves_ret].
Qed.

Lemma preserves_enabled_resetAllFunctionBreakpoints (W : World) (j : Z) (e : bool) :
  preserves (enabledIs j e) (_resetAllFunctionBreakpoints W).
Proof.
  unfold _resetAllFunctionBreakpoints.
  apply preserves_bind; [apply preserves_ensureDebugSession | intros _].
  apply preserves_bind; [apply preserves_get | intro x].
  destruct (_ || _); [apply preserves_ret | apply preserves_enabled_request].
Qed.

(** Reconciling with the adapter touches no enabled flag. *)
Lemma preserves_enabled_resetAllBreakpoints (W : World) (j : Z) (e : bool) :
  preserves (enabledIs j e) (_resetAllBreakpoints W).
Proof.
  unfold _resetAllBreakpoints.
  apply preserves_bind; [apply preserves_ensureDebugSession | intros _].
  apply preserves_bind; [apply preserves_get | intro d].
  apply preserves_promiseAll, Forall_app; split.
  - apply Forall_map, Forall_forall; intros entry _; apply preserves_enabled_request.
  - constructor; [apply preserves_enabled_resetAllFunctionBreakpoints | constructor].
Qed.

(** The loop of [setAllBreakpointsEnabled] over breakpoints the collection
    holds: it returns, and their flags are set. *)
Lemma forEach_setEnabled (enabled : bool) (l : list Breakpoint) (d : Debugger) :
  (forall b, In b l -> stored (bp_index b) d <> None) ->
  exists d',
    forEach (fun bp => breakpoint_setEnabled (bp_index bp) enabled) l d = (Ret tt, d') /\
    (forall b, In b l -> enabledIs (bp_index b) enabled d') /\
    (forall j, enabledIs j enabled d -> enabledIs j enabled d') /\
    (forall j, stored j d <> None -> stored j d' <> None).
Proof.
  revert d; induction l as [| b rest IH]; intros d Hl; simpl.
  - exists d; split; [reflexivity |]; split; [intros b [] |]; auto.
  - destruct (stored (bp_index b) d) as [b0 |] eqn:Hb;
      [| destruct (Hl b (or_introl eq_refl) Hb)].
    destruct (breakpoint_setEnabled_stored (bp_index b) enabled b0 d Hb)
      as (d1 & Hrun & Hheld).
    rewrite bind_Ret with (1 := Hrun).
    assert (Hkeeps : forall j, stored j d <> None -> stored j d1 <> None).
    { intros j Hj; destruct (Z.eq_dec (bp_index b) j) as [<- | Hne].
      - destruct Hheld as (-> & _); discriminate.
      - destruct Hheld as (_ & Hothers & _); rewrite Hothers by exact Hne; exact Hj. }
    assert (Hflags : forall j, enabledIs j enabled d -> enabledIs j enabled d1).
    { intros j Hj; destruct (Z.eq_dec (bp_index b) j) as [<- | Hne].
      - exact (held_enabledIs _ _ _ _ Hheld).
      - unfold enabledIs in *; destruct Hheld as (_ & Hothers & _).
        rewrite Hothers by exact Hne; exact Hj. }
    destruct (IH d1) as (d' & Hrest & Hset & Hkept & Hstored).
    { intros x Hx; apply Hkeeps, Hl; right; exact Hx. }
    exists d'; split; [exact Hrest |]; split; [| split].
    + intros x [<- | Hx]; [| apply Hset, Hx].
      apply Hkept; exact (held_enabledIs _ _ _ _ Hheld).
    + intros j Hj; apply Hkept, Hflags, Hj.
    + intros j Hj; apply Hstored, Hkeeps, Hj.
Qed.

(** X17.  [setAllBreakpointsEnabled] is not undone: the flag of every
    breakpoint of the collection is set before the adapter is told, and
    stays set whatever comes of the requests, also when there is no
    session to send them to; only the command for a single breakpoint
    restores the flag when the adapter rejects the change. *)
Theorem setAllBreakpointsEnabled_is_not_undone (W : World) (d : Debugger)
    (enabled : bool) (index : Z) :
  stored index d <> None ->
  enabledIs index enabled (snd (setAllBreakpointsEnabled W enabled d)).
Proof.
  intro Hstored; unfold setAllBreakpointsEnabled.
  rewrite bind_Ret with (a := d) (d1 := d) by reflexivity.
  destruct (forEach_setEnabled enabled
              (BreakpointCollection.getAllBreakpoints (_breakpoints d)) d)
    as (d1 & Hrun & Hset & _).
  { intros b Hb Hnone; unfold stored, BreakpointCollection.getBreakpointByIndex in Hnone.
    apply (find_none _ _ Hnone) in Hb; rewrite Z.eqb_refl in Hb; discriminate Hb. }
  rewrite bind_Ret with (1 := Hrun).
  apply preserves_enabled_resetAllBreakpoints.
  destruct (stored index d) as [b |] eqn:Hb; [| contradiction].
  unfold stored, BreakpointCollection.getBreakpointByIndex in Hb.
  apply find_some in Hb; destruct Hb as [Hin Hindex].
  apply Z.eqb_eq in Hindex; rewrite <- Hindex; apply Hset, Hin.
Qed.

Lemma setAllBreakpointsEnabled_is_not_undone_witness :
  let disabled := snd (setAllBreakpointsEnabled Scenario.world false Scenario.stopped) in
  stored 1 disabled <> None /\
  enabledIs 1 false disabled /\
  fst (setAllBreakpointsEnabled Scenario.rejecting true disabled)
  = Throw "setBreakpoints failed" /\
  enabledIs 1 true (snd (setAllBreakpointsEnabled Scenario.rejecting true disabled)).
Proof.
  cbv zeta.
  assert (H : stored 1 (snd (setAllBreakpointsEnabled Scenario.world false
                               Scenario.stopped)) <> None)
    by (vm_compute; discriminate).
  split; [exact H |]; split; [vm_compute; reflexivity |].
  split; [vm_compute; reflexivity |].
  exact (setAllBreakpointsEnabled_is_not_undone Scenario.rejecting _ true 1 H).
Defined.

(** ** A disconnect the adapter rejects *)

(** X18.  When the adapter rejects the disconnect request, [closeSession]
    throws and the session is not closed: the session, the threads and the
    source cache are as they were.  [relaunch] closes the session inside
    its [try]: with a session whose disconnect is rejected it writes
    "Failed to debug target: ..." and leaves the process with status 0
    instead of starting the program again. *)
Theorem rejected_disconnect_ends_relaunch (W : World) (d : Debugger)
    (adapter : ParsedVSAdapter) (e : string) :
  _adapter d = Some adapter -> _debugSession d <> None ->
  respond W (sentRequests d) ReqDisconnect = inl e ->
  closeSession W d = (Throw e, emit (Send ReqDisconnect) d) /\
  relaunch W d
  = (Exit 0,
     emit (ProcessExit 0)
       (emit (Stderr (failedToDebug e))
          (emit (Send ReqDisconnect)
             (set_attached false (set_configured false (set_state INITIALIZING d)))))).
Proof.
  intros Ha Hs Hrejected.
  assert (Hclose :
    forall x, _debugSession x = _debugSession d -> sentRequests x = sentRequests d ->
              closeSession W x = (Throw e, emit (Send ReqDisconnect) x)).
  { intros x Hx Hsent; unfold closeSession.
    rewrite bind_Ret with (a := x) (d1 := x) by reflexivity.
    rewrite Hx; destruct (_debugSession d); [| contradiction].
    apply bind_Throw; unfold send; rewrite Hsent, Hrejected; reflexivity. }
  split; [apply Hclose; reflexivity |].
  rewrite relaunch_with_adapter with (1 := Ha).
  apply bind_Exit; unfold try_catch, relaunch_session.
  rewrite bind_Ret with (a := tt) (d1 := set_state INITIALIZING d) by reflexivity.
  rewrite bind_Ret
    with (a := tt) (d1 := set_configured false (set_state INITIALIZING d))
    by reflexivity.
  rewrite bind_Ret
    with (a := tt)
         (d1 := set_attached false (set_configured false (set_state INITIALIZING d)))
    by reflexivity.
  rewrite bind_Throw
    with (1 := Hclose (set_attached false
                         (set_configured false (set_state INITIALIZING d)))
                 eq_refl eq_refl).
  reflexivity.
Qed.

Lemma rejected_disconnect_ends_relaunch_witness :
  _adapter Scenario.stopped = Some Scenario.launching /\
  _debugSession Scenario.stopped <> None /\
  fst (relaunch FurtherScenario.busy Scenario.stopped) = Exit 0.
Proof.
  assert (Ha : _adapter Scenario.stopped = Some Scenario.launching)
    by (vm_compute; reflexivity).
  assert (Hs : _debugSession Scenario.stopped <> None) by (vm_compute; discriminate).
  split; [exact Ha |]; split; [exact Hs |].
  rewrite (proj2 (rejected_disconnect_ends_relaunch FurtherScenario.busy
                    Scenario.stopped Scenario.launching "busy" Ha Hs eq_refl)).
  reflexivity.
Defined.

(** ** The enabled flag of a function breakpoint *)

(** X19.  For a function breakpoint (a breakpoint without a path) the
    commands that enable and disable it have no [try]: with a running
    session [setBreakpointEnabled] leaves the flag as asked and
    [toggleBreakpoint] leaves it negated, also when the adapter rejects the
    request and the command throws.  Only for a breakpoint with a path is
    the flag restored. *)
Theorem function_breakpoint_flag_is_not_restored (W : World) (d : Debugger)
    (index : Z) (b : Breakpoint) :
  _debugSession d <> None -> ~ beforeRun d ->
  stored index d = Some b -> bp_path b = None ->
  (forall enabled,
     enabledIs index enabled (snd (setBreakpointEnabled W index enabled d))) /\
  enabledIs index (negb (bp_enabled b)) (snd (toggleBreakpoint W index d)).
Proof.
  intros Hs Hb Hstored Hpath.
  destruct (ensureDebugSession_running d Hs Hb) as [s Hsession].
  split.
  - intro enabled; unfold setBreakpointEnabled.
    rewrite bind_Ret with (1 := Hsession).
    rewrite bind_Ret with (1 := getBreakpointByIndex_stored index b d Hstored).
    cbv zeta; rewrite Hpath.
    destruct (Bool.eqb (bp_enabled b) enabled) eqn:E.
    + apply Bool.eqb_prop in E; unfold enabledIs; cbn; rewrite Hstored, <- E.
      reflexivity.
    + destruct (breakpoint_setEnabled_stored index enabled b d Hstored)
        as (d1 & Hrun & Hheld).
      rewrite bind_Ret with (1 := Hrun).
      apply preserves_enabled_resetAllFunctionBreakpoints.
      exact (held_enabledIs _ _ _ _ Hheld).
  - unfold toggleBreakpoint.
    rewrite bind_Ret with (1 := Hsession).
    rewrite bind_Ret with (1 := getBreakpointByIndex_stored index b d Hstored).
    cbv zeta; rewrite Hpath.
    destruct (breakpoint_setEnabled_stored index (negb (bp_enabled b)) b d Hstored)
      as (d1 & Hrun & Hheld).
    rewrite bind_Ret with (1 := Hrun).
    apply preserves_enabled_resetAllFunctionBreakpoints.
    exact (held_enabledIs _ _ _ _ Hheld).
Qed.

Lemma function_breakpoint_flag_is_not_restored_witness :
  _debugSession FurtherScenario.functionBreakpointDisabled <> None /\
  ~ beforeRun FurtherScenario.functionBreakpointDisabled /\
  enabledIs 1 false FurtherScenario.functionBreakpointDisabled /\
  fst (setBreakpointEnabled FurtherScenario.rejectingFunctions 1 true
         FurtherScenario.functionBreakpointDisabled)
  = Throw "no such function" /\
  enabledIs 1 true
    (snd (setBreakpointEnabled FurtherScenario.rejectingFunctions 1 true
            FurtherScenario.functionBreakpointDisabled)).
Proof.
  assert (Hs : _debugSession FurtherScenario.functionBreakpointDisabled <> None)
    by (vm_compute; discriminate).
  assert (Hb : ~ beforeRun FurtherScenario.functionBreakpointDisabled)
    by (intros [H | H]; vm_compute in H; discriminate H).
  destruct (stored 1 FurtherScenario.functionBreakpointDisabled) as [b |] eqn:Hstored;
    [| vm_compute in Hstored; discriminate Hstored].
  assert (Hpath : bp_path b = None)
    by (vm_compute in Hstored; injection Hstored as <-; reflexivity).
  split; [exact Hs |]; split; [exact Hb |].
  split; [vm_compute; reflexivity |]; split; [vm_compute; reflexivity |].
  exact (proj1 (function_breakpoint_flag_is_not_restored
                  FurtherScenario.rejectingFunctions
                  FurtherScenario.functionBreakpointDisabled 1 b Hs Hb Hstored Hpath)
           true).
Defined.
